(** * obsidian-mcp: the Excalidraw note synthesizer

    A shallow embedding of the element normalisation, label expansion,
    text-index extraction, frontmatter merge and path handling found in
    [src/mcp_obsidian/excalidraw.py] and in
    [SaveExcalidrawToolHandler] of [src/mcp_obsidian/tools.py], followed
    by the properties stated about them.

    Layout:
    - [Py]          Python values, dictionaries, strings and arithmetic;
    - [Excalidraw]  the classes of excalidraw.py;
    - [Tools]       the inline code of the tool handler in tools.py;
    - [Handlers]    the other tool handlers of tools.py;
    - [Spec]        the vocabulary of the statements;
    - [Examples]    sample requests;
    - the facts and theorems. *)

From Stdlib Require Import ZArith Floats String Ascii List Bool Lia DecimalString.
Import ListNotations.

Set Implicit Arguments.
Set Warnings "-register-all,-inexact-float".

(* ===================================================================== *)
(** * Python values and builtins *)
(* ===================================================================== *)

Module Py.

Open Scope string_scope.

(** ** Exceptions and fallible results *)

Inductive exn : Set :=
| TypeError
| AttributeError
| ValueError
| OverflowError
| ZeroDivisionError.

Inductive result (A : Type) : Type :=
| Ok (a : A)
| Raise (e : exn).

Arguments Ok {A} a.
Arguments Raise {A} e.

Definition rbind {A B : Type} (r : result A) (k : A -> result B) : result B :=
  match r with
  | Ok a => k a
  | Raise e => Raise e
  end.

Definition is_ok {A : Type} (r : result A) : bool :=
  match r with
  | Ok _ => true
  | Raise _ => false
  end.

(** ** Values

    The values a decoded JSON request can hold.  A dictionary is kept as
    the list of its items in insertion order, which is the order Python
    iterates and serialises them in.  A character of [string] stands for
    one code point (the model covers code points below 256). *)

Inductive pyval : Type :=
| PNone
| PBool (b : bool)
| PInt (z : Z)
| PFloat (f : float)
| PStr (s : string)
| PList (l : list pyval)
| PDict (d : list (string * pyval)).

Definition dict : Type := list (string * pyval).

(** [bool(v)]: the truth value of an object. *)
Definition truthy (v : pyval) : bool :=
  match v with
  | PNone => false
  | PBool b => b
  | PInt z => negb (Z.eqb z 0)
  | PFloat f => negb (PrimFloat.eqb f 0%float)
  | PStr s => negb (String.eqb s "")
  | PList l => match l with [] => false | _ :: _ => true end
  | PDict d => match d with [] => false | _ :: _ => true end
  end.

(** [v == s] for a string literal [s]. *)
Definition eq_str (v : pyval) (s : string) : bool :=
  match v with
  | PStr t => String.eqb t s
  | _ => false
  end.

(** ** Dictionaries *)

(** The value stored under [k], if any. *)
Fixpoint lookup (d : dict) (k : string) : option pyval :=
  match d with
  | [] => None
  | (k', v) :: d' => if String.eqb k' k then Some v else lookup d' k
  end.

(** [k in d] *)
Definition dict_in (d : dict) (k : string) : bool :=
  match lookup d k with
  | Some _ => true
  | None => false
  end.

(** [d.get(k, default)] *)
Definition dict_get (d : dict) (k : string) (default : pyval) : pyval :=
  match lookup d k with
  | Some v => v
  | None => default
  end.

(** [d[k] = v]: an existing key keeps its place, a new one goes last. *)
Fixpoint dict_set (d : dict) (k : string) (v : pyval) : dict :=
  match d with
  | [] => [(k, v)]
  | (k', v') :: d' =>
      if String.eqb k' k then (k', v) :: d' else (k', v') :: dict_set d' k v
  end.

(** [d.update(other)], also [{**d, **other}]. *)
Definition dict_update (d other : dict) : dict :=
  fold_left (fun acc kv => dict_set acc (fst kv) (snd kv)) other d.

(** [{k: v for k, v in d.items() if p(k)}] *)
Definition dict_filter (p : string -> bool) (d : dict) : dict :=
  filter (fun kv => p (fst kv)) d.

Definition keys (d : dict) : list string := map fst d.

(** [k in names] for a set of names. *)
Definition mem (k : string) (names : list string) : bool :=
  existsb (String.eqb k) names.

(** A dictionary object holds each key once. *)
Fixpoint dict_wf (d : dict) : bool :=
  match d with
  | [] => true
  | (k, _) :: d' => negb (dict_in d' k) && dict_wf d'
  end.

(** ** Strings *)

Fixpoint drop (n : nat) (s : string) : string :=
  match n, s with
  | O, _ => s
  | S _, EmptyString => EmptyString
  | S n', String _ s' => drop n' s'
  end.

(** [s.startswith(p)] is [String.prefix p s]. *)

(** [s.endswith(suffix)] *)
Definition endswith (s suffix : string) : bool :=
  Nat.leb (String.length suffix) (String.length s)
  && String.eqb (drop (String.length s - String.length suffix) s) suffix.

(** The scan of [str.replace] for a non-empty [old]: left to right, and
    after a match the search resumes behind it ([skip] counts the
    characters of the match still to be passed over). *)
Fixpoint replace_scan (old new : string) (skip : nat) (s : string) : string :=
  match s with
  | EmptyString => EmptyString
  | String c s' =>
      match skip with
      | S k => replace_scan old new k s'
      | O =>
          if String.prefix old s
          then new ++ replace_scan old new (String.length old - 1) s'
          else String c (replace_scan old new 0 s')
      end
  end.

(** For an empty [old], Python puts [new] before every character and at
    the end. *)
Fixpoint interleave (new s : string) : string :=
  match s with
  | EmptyString => new
  | String c s' => new ++ String c (interleave new s')
  end.

(** [s.replace(old, new)] *)
Definition replace (old new s : string) : string :=
  match old with
  | EmptyString => interleave new s
  | String _ _ => replace_scan old new 0 s
  end.

(** [p in s] *)
Fixpoint contains (p s : string) : bool :=
  String.prefix p s
  || match s with
     | EmptyString => false
     | String _ s' => contains p s'
     end.

(** [a not in s] for a character [a]. *)
Fixpoint free_of (a : ascii) (s : string) : bool :=
  match s with
  | EmptyString => true
  | String c s' => negb (Ascii.eqb c a) && free_of a s'
  end.

(** [c.isspace()] for a code point below 256. *)
Definition is_space (c : ascii) : bool :=
  let n := nat_of_ascii c in
  (Nat.leb 9 n && Nat.leb n 13) || (Nat.leb 28 n && Nat.leb n 32)
  || Nat.eqb n 133 || Nat.eqb n 160.

Fixpoint lstrip (s : string) : string :=
  match s with
  | EmptyString => EmptyString
  | String c s' => if is_space c then lstrip s' else s
  end.

Fixpoint string_rev (s : string) : string :=
  match s with
  | EmptyString => EmptyString
  | String c s' => string_rev s' ++ String c EmptyString
  end.

(** [s.strip()] *)
Definition strip (s : string) : string :=
  string_rev (lstrip (string_rev (lstrip s))).

(** [sep.join(parts)] is [String.concat sep parts]. *)

(** The line feed character. *)
Definition LF : string := String (ascii_of_nat 10) EmptyString.

(** ** Methods that only strings have *)

(** [v.replace(old, new)] *)
Definition method_replace (v : pyval) (old new : string) : result pyval :=
  match v with
  | PStr s => Ok (PStr (replace old new s))
  | _ => Raise AttributeError
  end.

(** [v.strip()] *)
Definition method_strip (v : pyval) : result pyval :=
  match v with
  | PStr s => Ok (PStr (strip s))
  | _ => Raise AttributeError
  end.

(** [len(v)] *)
Definition len (v : pyval) : result Z :=
  match v with
  | PStr s => Ok (Z.of_nat (String.length s))
  | PList l => Ok (Z.of_nat (List.length l))
  | PDict d => Ok (Z.of_nat (List.length d))
  | _ => Raise TypeError
  end.

(** [str(v)].  The text Python prints for a float, a list or a
    dictionary is not spelled out here: [repr_of] stands for it. *)
Section Str.

Variable repr_of : pyval -> string.

Definition str (v : pyval) : string :=
  match v with
  | PNone => "None"
  | PBool true => "True"
  | PBool false => "False"
  | PInt z => NilEmpty.string_of_int (Z.to_int z)
  | PStr s => s
  | PFloat _ | PList _ | PDict _ => repr_of v
  end.

End Str.

(** ** Arithmetic

    Floats are IEEE 754 binary64, as in CPython.  An int operand meeting
    a float is converted first, rounding to nearest even; an int beyond
    the float range raises [OverflowError].  [bool] is a subtype of
    [int]. *)

Definition float_of_Z (z : Z) : float :=
  SF2Prim (binary_normalize prec emax z 0 false).

Definition int_as_float (z : Z) : result float :=
  let f := float_of_Z z in
  if is_infinity f then Raise OverflowError else Ok f.

Inductive number : Type :=
| NInt (z : Z)
| NFloat (f : float).

Definition as_number (v : pyval) : option number :=
  match v with
  | PBool b => Some (NInt (Z.b2z b))
  | PInt z => Some (NInt z)
  | PFloat f => Some (NFloat f)
  | _ => None
  end.

Definition arith (iop : Z -> Z -> Z) (fop : float -> float -> float)
    (a b : number) : result pyval :=
  match a, b with
  | NInt x, NInt y => Ok (PInt (iop x y))
  | NInt x, NFloat g => rbind (int_as_float x) (fun f => Ok (PFloat (fop f g)))
  | NFloat f, NInt y => rbind (int_as_float y) (fun g => Ok (PFloat (fop f g)))
  | NFloat f, NFloat g => Ok (PFloat (fop f g))
  end.

Fixpoint repeat_string (s : string) (n : nat) : string :=
  match n with
  | O => EmptyString
  | S n' => s ++ repeat_string s n'
  end.

Fixpoint repeat_list (l : list pyval) (n : nat) : list pyval :=
  match n with
  | O => []
  | S n' => l ++ repeat_list l n'
  end.

(** The count of a sequence repetition: an int or a bool. *)
Definition as_count (v : pyval) : option nat :=
  match v with
  | PBool b => Some (Z.to_nat (Z.b2z b))
  | PInt z => Some (Z.to_nat z)
  | _ => None
  end.

(** [a + b] *)
Definition add (a b : pyval) : result pyval :=
  match as_number a, as_number b with
  | Some x, Some y => arith Z.add PrimFloat.add x y
  | _, _ =>
      match a, b with
      | PStr s, PStr t => Ok (PStr (s ++ t))
      | PList l, PList m => Ok (PList (l ++ m))
      | _, _ => Raise TypeError
      end
  end.

(** [a - b] *)
Definition sub (a b : pyval) : result pyval :=
  match as_number a, as_number b with
  | Some x, Some y => arith Z.sub PrimFloat.sub x y
  | _, _ => Raise TypeError
  end.

(** [a * b] *)
Definition mul (a b : pyval) : result pyval :=
  match as_number a, as_number b with
  | Some x, Some y => arith Z.mul PrimFloat.mul x y
  | _, _ =>
      match a, as_count b, as_count a, b with
      | PStr s, Some n, _, _ => Ok (PStr (repeat_string s n))
      | PList l, Some n, _, _ => Ok (PList (repeat_list l n))
      | _, _, Some n, PStr s => Ok (PStr (repeat_string s n))
      | _, _, Some n, PList l => Ok (PList (repeat_list l n))
      | _, _, _, _ => Raise TypeError
      end
  end.

Definition spec_of_Z (z : Z) : spec_float :=
  match z with
  | Z0 => S754_zero false
  | Zpos p => S754_finite false p 0
  | Zneg p => S754_finite true p 0
  end.

(** [a / b]: true division.  The quotient of two ints is rounded once,
    from the exact quotient. *)
Definition truediv (a b : pyval) : result pyval :=
  match as_number a, as_number b with
  | Some x, Some y =>
      match x, y with
      | NInt m, NInt n =>
          if Z.eqb n 0 then Raise ZeroDivisionError
          else
            let q := SF2Prim (SFdiv prec emax (spec_of_Z m) (spec_of_Z n)) in
            if is_infinity q then Raise OverflowError else Ok (PFloat q)
      | NInt m, NFloat g =>
          rbind (int_as_float m) (fun f =>
            if PrimFloat.eqb g 0%float then Raise ZeroDivisionError
            else Ok (PFloat (PrimFloat.div f g)))
      | NFloat f, NInt n =>
          rbind (int_as_float n) (fun g =>
            if PrimFloat.eqb g 0%float then Raise ZeroDivisionError
            else Ok (PFloat (PrimFloat.div f g)))
      | NFloat f, NFloat g =>
          if PrimFloat.eqb g 0%float then Raise ZeroDivisionError
          else Ok (PFloat (PrimFloat.div f g))
      end
  | _, _ => Raise TypeError
  end.

(** ** The random source

    [random.choices] draws alphabet positions; [random_index i] is the
    [i]-th draw of the process.  A computation that draws runs from the
    number of draws made so far and returns that number advanced. *)

Definition M (A : Type) : Type := nat -> result (A * nat).

Definition ret {A : Type} (a : A) : M A := fun n => Ok (a, n).

Definition bind {A B : Type} (m : M A) (k : A -> M B) : M B :=
  fun n =>
    match m n with
    | Ok (a, n') => k a n'
    | Raise e => Raise e
    end.

Definition lift {A : Type} (r : result A) : M A :=
  fun n =>
    match r with
    | Ok a => Ok (a, n)
    | Raise e => Raise e
    end.

Definition raise {A : Type} (e : exn) : M A := fun _ => Raise e.

End Py.

Declare Scope py_scope.
Delimit Scope py_scope with py.
Notation "x <- m ;; k" := (Py.bind m (fun x => k))
  (at level 61, m at next level, right associativity) : py_scope.
Notation "x <-- r ;; k" := (Py.rbind r (fun x => k))
  (at level 61, r at next level, right associativity) : py_scope.


(* ===================================================================== *)
(** * excalidraw.py *)
(* ===================================================================== *)

Module Excalidraw.

Import Py.
Open Scope string_scope.
Open Scope py_scope.

(** ** class ExcalidrawElement *)

Record ExcalidrawElement : Type := mkElement {
  id : pyval;
  type : pyval;
  x : pyval;
  y : pyval;
  width : pyval;
  height : pyval;
  angle : pyval;
  strokeColor : pyval;
  backgroundColor : pyval;
  fillStyle : pyval;
  strokeWidth : pyval;
  strokeStyle : pyval;
  roughness : pyval;
  opacity : pyval;
  groupIds : pyval;
  frameId : pyval;
  roundness : pyval;
  seed : pyval;
  version : pyval;
  versionNonce : pyval;
  isDeleted : pyval;
  boundElements : pyval;
  updated : pyval;
  link : pyval;
  locked : pyval;
  extra_fields : dict
}.

(** The fields the dataclass declares without a default. *)
Definition core_fields : list string :=
  ["id"; "type"; "x"; "y"; "width"; "height"].

(** The fields the dataclass declares with a default, and the default. *)
Definition field_defaults : dict :=
  [ ("angle", PInt 0);
    ("strokeColor", PStr "#1e1e1e");
    ("backgroundColor", PStr "transparent");
    ("fillStyle", PStr "solid");
    ("strokeWidth", PInt 2);
    ("strokeStyle", PStr "solid");
    ("roughness", PInt 1);
    ("opacity", PInt 100);
    ("groupIds", PList []);
    ("frameId", PNone);
    ("roundness", PNone);
    ("seed", PInt 1);
    ("version", PInt 1);
    ("versionNonce", PInt 1);
    ("isDeleted", PBool false);
    ("boundElements", PList []);
    ("updated", PInt 1);
    ("link", PNone);
    ("locked", PBool false) ].

(** [known_fields] of [from_dict]. *)
Definition known_fields : list string :=
  [ "id"; "type"; "x"; "y"; "width"; "height"; "angle";
    "strokeColor"; "backgroundColor"; "fillStyle"; "strokeWidth";
    "strokeStyle"; "roughness"; "opacity"; "groupIds"; "frameId";
    "roundness"; "seed"; "version"; "versionNonce"; "isDeleted";
    "boundElements"; "updated"; "link"; "locked" ].

Definition known (k : string) : bool := mem k known_fields.

(** A keyword argument the constructor cannot do without. *)
Definition required_arg (kwargs : dict) (k : string) : result pyval :=
  match lookup kwargs k with
  | Some v => Ok v
  | None => Raise TypeError
  end.

(** The generated [__init__], called with keyword arguments: a missing
    core field or an undeclared keyword is a [TypeError], every other
    field falls back on its default. *)
Definition init (kwargs : dict) (extra : dict) : result ExcalidrawElement :=
  if negb (forallb known (keys kwargs)) then Raise TypeError
  else
    id_ <-- required_arg kwargs "id" ;;
    type_ <-- required_arg kwargs "type" ;;
    x_ <-- required_arg kwargs "x" ;;
    y_ <-- required_arg kwargs "y" ;;
    width_ <-- required_arg kwargs "width" ;;
    height_ <-- required_arg kwargs "height" ;;
    Ok {| id := id_;
          type := type_;
          x := x_;
          y := y_;
          width := width_;
          height := height_;
          angle := dict_get kwargs "angle" (PInt 0);
          strokeColor := dict_get kwargs "strokeColor" (PStr "#1e1e1e");
          backgroundColor := dict_get kwargs "backgroundColor" (PStr "transparent");
          fillStyle := dict_get kwargs "fillStyle" (PStr "solid");
          strokeWidth := dict_get kwargs "strokeWidth" (PInt 2);
          strokeStyle := dict_get kwargs "strokeStyle" (PStr "solid");
          roughness := dict_get kwargs "roughness" (PInt 1);
          opacity := dict_get kwargs "opacity" (PInt 100);
          groupIds := dict_get kwargs "groupIds" (PList []);
          frameId := dict_get kwargs "frameId" PNone;
          roundness := dict_get kwargs "roundness" PNone;
          seed := dict_get kwargs "seed" (PInt 1);
          version := dict_get kwargs "version" (PInt 1);
          versionNonce := dict_get kwargs "versionNonce" (PInt 1);
          isDeleted := dict_get kwargs "isDeleted" (PBool false);
          boundElements := dict_get kwargs "boundElements" (PList []);
          updated := dict_get kwargs "updated" (PInt 1);
          link := dict_get kwargs "link" PNone;
          locked := dict_get kwargs "locked" (PBool false);
          extra_fields := extra |}.

(** [ExcalidrawElement.from_dict] *)
Definition from_dict (data : dict) : result ExcalidrawElement :=
  let base_fields := dict_filter known data in
  let extra_fields := dict_filter (fun k => negb (known k)) data in
  init base_fields extra_fields.

(** [ExcalidrawElement.to_dict]: the dictionary [result] as first
    written, then [result.update(self.extra_fields)]. *)
Definition to_dict_result (self : ExcalidrawElement) : dict :=
  [ ("id", id self);
    ("type", type self);
    ("x", x self);
    ("y", y self);
    ("width", width self);
    ("height", height self);
    ("angle", angle self);
    ("strokeColor", strokeColor self);
    ("backgroundColor", backgroundColor self);
    ("fillStyle", fillStyle self);
    ("strokeWidth", strokeWidth self);
    ("strokeStyle", strokeStyle self);
    ("roughness", roughness self);
    ("opacity", opacity self);
    ("groupIds", groupIds self);
    ("frameId", frameId self);
    ("roundness", roundness self);
    ("seed", seed self);
    ("version", version self);
    ("versionNonce", versionNonce self);
    ("isDeleted", isDeleted self);
    ("boundElements", boundElements self);
    ("updated", updated self);
    ("link", link self);
    ("locked", locked self) ].

Definition to_dict (self : ExcalidrawElement) : dict :=
  dict_update (to_dict_result self) (extra_fields self).

(** [element.boundElements = v] *)
Definition set_boundElements (e : ExcalidrawElement) (v : pyval)
  : ExcalidrawElement :=
  {| id := id e; type := type e; x := x e; y := y e;
     width := width e; height := height e; angle := angle e;
     strokeColor := strokeColor e; backgroundColor := backgroundColor e;
     fillStyle := fillStyle e; strokeWidth := strokeWidth e;
     strokeStyle := strokeStyle e; roughness := roughness e;
     opacity := opacity e; groupIds := groupIds e; frameId := frameId e;
     roundness := roundness e; seed := seed e; version := version e;
     versionNonce := versionNonce e; isDeleted := isDeleted e;
     boundElements := v;
     updated := updated e; link := link e; locked := locked e;
     extra_fields := extra_fields e |}.

(** ** class ExcalidrawElementProcessor *)

(** [sanitize_text] *)
Definition sanitize_text (text : pyval) : result pyval :=
  if negb (truthy text) then Ok text
  else
    t1 <-- method_replace text "<br>" LF ;;
    t2 <-- method_replace t1 "<br/>" LF ;;
    method_replace t2 "<br />" LF.

Section Processor.

(** [random_index i]: the [i]-th alphabet position drawn by
    [random.choices]; [repr_of]: see [Py.str]. *)
Variable random_index : nat -> nat.
Variable repr_of : pyval -> string.

Definition alphabet : string :=
  "ABCDEFGHIJKLMNOPQRSTUVWXYZabcdefghijklmnopqrstuvwxyz0123456789".

Definition choice (i : nat) : ascii :=
  match String.get (Nat.modulo (random_index i) 62) alphabet with
  | Some c => c
  | None => "A"%char
  end.

Fixpoint choices (k : nat) (n : nat) : string :=
  match k with
  | O => EmptyString
  | S k' => String (choice n) (choices k' (S n))
  end.

(** [generate_id] *)
Definition generate_id (length : nat) : M string :=
  fun n => Ok (choices length n, n + length).

(** [_extract_label_text] *)
Definition _extract_label_text (label : pyval) : pyval :=
  match label with
  | PDict d => dict_get d "text" (PStr "")
  | _ => if truthy label then PStr (str repr_of label) else PStr ""
  end.

(** [_create_text_element_for_label] *)
Definition _create_text_element_for_label (container : ExcalidrawElement)
    (text : pyval) (original_data : dict) : M ExcalidrawElement :=
  text_id <- generate_id 8 ;;
  let font_size := dict_get original_data "fontSize" (PInt 20) in
  lift (
    n <-- len text ;;
    chars <-- mul (PInt n) font_size ;;
    text_width <-- mul chars (PFloat 0.6) ;;
    text_height <-- mul font_size (PFloat 1.25) ;;
    dx <-- sub (width container) text_width ;;
    hx <-- truediv dx (PInt 2) ;;
    text_x <-- add (x container) hx ;;
    dy <-- sub (height container) text_height ;;
    hy <-- truediv dy (PInt 2) ;;
    text_y <-- add (y container) hy ;;
    init
      [ ("id", PStr text_id);
        ("type", PStr "text");
        ("x", text_x);
        ("y", text_y);
        ("width", text_width);
        ("height", text_height);
        ("strokeColor", strokeColor container);
        ("backgroundColor", PStr "transparent") ]
      [ ("text", text);
        ("fontSize", font_size);
        ("fontFamily", dict_get original_data "fontFamily" (PInt 1));
        ("textAlign", PStr "center");
        ("verticalAlign", PStr "middle");
        ("baseline", PInt 18);
        ("containerId", id container);
        ("originalText", text);
        ("autoResize", PBool true);
        ("lineHeight", PFloat 1.25) ]).

(** The entry a container keeps for its text. *)
Definition bound_text (text_element : ExcalidrawElement) : pyval :=
  PList [PDict [("type", PStr "text"); ("id", id text_element)]].

(** [process_element] *)
Definition process_element (element_data : dict) : M (list ExcalidrawElement) :=
  element <- lift (from_dict element_data) ;;
  if dict_in element_data "label" && truthy (dict_get element_data "label" PNone)
  then
    let label_text := _extract_label_text (dict_get element_data "label" PNone) in
    label_text <- lift (sanitize_text label_text) ;;
    if truthy label_text
    then
      text_element <- _create_text_element_for_label element label_text element_data ;;
      let element := set_boundElements element (bound_text text_element) in
      ret [element; text_element]
    else ret [element]
  else ret [element].

(** ** class ExcalidrawTextExtractor *)

(** [_get_text_content]; Python's [None] is [PNone]. *)
Definition _get_text_content (element : dict) : pyval :=
  if dict_in element "text" && truthy (dict_get element "text" PNone)
  then dict_get element "text" PNone
  else if dict_in element "label"
  then
    match dict_get element "label" PNone with
    | PDict label => dict_get label "text" (PStr "")
    | PStr label => PStr label
    | _ => PNone
    end
  else PNone.

(** One turn of the loop of [extract_texts]: the lines it appends. *)
Definition index_line (text_content : pyval) : M (list string) :=
  if truthy text_content
  then
    stripped <- lift (method_strip text_content) ;;
    if truthy stripped
    then
      block_id <- generate_id 8 ;;
      ret [str repr_of text_content ++ " ^" ++ block_id]
    else ret []
  else ret [].

(** [extract_texts] *)
Fixpoint extract_texts (elements : list dict) : M (list string) :=
  match elements with
  | [] => ret []
  | element :: rest =>
      line <- index_line (_get_text_content element) ;;
      texts <- extract_texts rest ;;
      ret (line ++ texts)%list
  end.

(** ** class ExcalidrawNoteBuilder *)

Record ExcalidrawNoteBuilder : Type := mkBuilder {
  elements : list dict;
  app_state : dict;
  frontmatter : dict;
  text_elements : string
}.

Definition DEFAULT_APP_STATE : dict :=
  [ ("theme", PStr "light");
    ("viewBackgroundColor", PStr "#ffffff");
    ("currentItemStrokeColor", PStr "#1e1e1e");
    ("currentItemBackgroundColor", PStr "transparent");
    ("currentItemFillStyle", PStr "solid");
    ("currentItemStrokeWidth", PInt 2);
    ("currentItemStrokeStyle", PStr "solid");
    ("currentItemRoughness", PInt 1);
    ("currentItemOpacity", PInt 100);
    ("currentItemFontFamily", PInt 1);
    ("currentItemFontSize", PInt 20);
    ("currentItemTextAlign", PStr "left");
    ("currentItemStartArrowhead", PNone);
    ("currentItemEndArrowhead", PStr "arrow");
    ("scrollX", PInt 0);
    ("scrollY", PInt 0);
    ("zoom", PDict [("value", PInt 1)]);
    ("currentItemRoundness", PStr "round");
    ("gridSize", PNone);
    ("gridColor", PDict [("Bold", PStr "#C9C9C9FF"); ("Regular", PStr "#EDEDEDFF")]);
    ("currentStrokeOptions", PNone);
    ("previousGridSize", PNone);
    ("frameRendering",
       PDict [("enabled", PBool true); ("clip", PBool true);
              ("name", PBool true); ("outline", PBool true)]) ].

(** [__init__] *)
Definition new_builder : ExcalidrawNoteBuilder :=
  {| elements := [];
     app_state := DEFAULT_APP_STATE;
     frontmatter := [("excalidraw-plugin", PStr "parsed");
                     ("tags", PList [PStr "excalidraw"])];
     text_elements := "" |}.

(** The loop of [with_elements]. *)
Fixpoint process_all (elements : list dict) : M (list ExcalidrawElement) :=
  match elements with
  | [] => ret []
  | element_data :: rest =>
      processed <- process_element element_data ;;
      others <- process_all rest ;;
      ret (processed ++ others)%list
  end.

(** [with_elements] *)
Definition with_elements (self : ExcalidrawNoteBuilder) (elements : list dict)
  : M ExcalidrawNoteBuilder :=
  processed <- process_all elements ;;
  ret {| elements := map to_dict processed;
         app_state := app_state self;
         frontmatter := frontmatter self;
         text_elements := text_elements self |}.

(** [with_app_state] *)
Definition with_app_state (self : ExcalidrawNoteBuilder) (state : option dict)
  : ExcalidrawNoteBuilder :=
  match state with
  | Some ((_ :: _) as s) =>
      {| elements := elements self;
         app_state := s;
         frontmatter := frontmatter self;
         text_elements := text_elements self |}
  | _ => self
  end.

(** [with_frontmatter] *)
Definition with_frontmatter (self : ExcalidrawNoteBuilder) (fm : dict)
  : ExcalidrawNoteBuilder :=
  let merged := dict_update (frontmatter self) fm in
  let merged :=
    if negb (dict_in merged "tags")
    then dict_set merged "tags" (PList [PStr "excalidraw"])
    else merged in
  {| elements := elements self;
     app_state := app_state self;
     frontmatter := merged;
     text_elements := text_elements self |}.

(** [with_text_elements] *)
Definition with_text_elements (self : ExcalidrawNoteBuilder) (text : string)
  : ExcalidrawNoteBuilder :=
  {| elements := elements self;
     app_state := app_state self;
     frontmatter := frontmatter self;
     text_elements := text |}.

(** [auto_extract_text_elements] *)
Definition auto_extract_text_elements (self : ExcalidrawNoteBuilder)
    (elements : list dict) : M ExcalidrawNoteBuilder :=
  texts <- extract_texts elements ;;
  ret (with_text_elements self (String.concat (LF ++ LF) texts)).

(** [_build_frontmatter] *)
Definition frontmatter_lines (kv : string * pyval) : list string :=
  let (key, value) := kv in
  match value with
  | PList items =>
      (key ++ ":") :: map (fun item => "  - " ++ str repr_of item) items
  | PBool true => [key ++ ": true"]
  | PBool false => [key ++ ": false"]
  | _ => [key ++ ": " ++ str repr_of value]
  end.

Definition _build_frontmatter (self : ExcalidrawNoteBuilder) : string :=
  String.concat LF
    (["---"] ++ flat_map frontmatter_lines (frontmatter self) ++ ["---"])%list.

(** [json.dumps(obj, indent="\t", ensure_ascii=False)] of Python's
    standard library: the JSON text of a value. *)
Variable dumps : pyval -> string.




(** [build_excalidraw_note], up to the call of [build]: the builder
    whose fields [build] writes out. *)
Definition build_excalidraw_note (elements : list dict)
    (app_state : option dict) (frontmatter : option dict)
    (text_elements : option string) : M ExcalidrawNoteBuilder :=
  let builder := new_builder in
  let builder :=
    match frontmatter with
    | Some ((_ :: _) as fm) => with_frontmatter builder fm
    | _ => builder
    end in
  let builder :=
    match app_state with
    | Some (_ :: _) => with_app_state builder app_state
    | _ => builder
    end in
  builder <-
    match text_elements with
    | Some (String _ _ as t) => ret (with_text_elements builder t)
    | _ => auto_extract_text_elements builder elements
    end ;;
  with_elements builder elements.

End Processor.

End Excalidraw.

(* ===================================================================== *)
(** * tools.py: SaveExcalidrawToolHandler *)
(* ===================================================================== *)

Module Tools.

Import Py.
Open Scope string_scope.
Open Scope py_scope.

(** ** The path handed to [put_content] *)

(** "Ensure filepath ends with .excalidraw.md" in [run_tool]. *)
Definition save_path (filepath : string) : string :=
  if negb (endswith filepath ".excalidraw.md")
  then
    if endswith filepath ".md"
    then replace ".md" ".excalidraw.md" filepath
    else filepath ++ ".excalidraw.md"
  else filepath.

(** ** [_build_excalidraw_note] *)

(** "Merge frontmatter with required Excalidraw fields". *)
Definition final_frontmatter (frontmatter : dict) : dict :=
  dict_update
    [ ("excalidraw-plugin", PStr "parsed");
      ("tags", dict_get frontmatter "tags" (PList [PStr "excalidraw"])) ]
    frontmatter.

Definition default_appState : dict := Excalidraw.DEFAULT_APP_STATE.

(** The dictionary literal [processed_element]: "a copy with all
    required fields". *)
Definition processed_element (element : dict) : dict :=
  [ ("id", dict_get element "id" (PStr ""));
    ("type", dict_get element "type" (PStr ""));
    ("x", dict_get element "x" (PInt 0));
    ("y", dict_get element "y" (PInt 0));
    ("width", dict_get element "width" (PInt 0));
    ("height", dict_get element "height" (PInt 0));
    ("angle", dict_get element "angle" (PInt 0));
    ("strokeColor", dict_get element "strokeColor" (PStr "#1e1e1e"));
    ("backgroundColor", dict_get element "backgroundColor" (PStr "transparent"));
    ("fillStyle", dict_get element "fillStyle" (PStr "solid"));
    ("strokeWidth", dict_get element "strokeWidth" (PInt 2));
    ("strokeStyle", dict_get element "strokeStyle" (PStr "solid"));
    ("roughness", dict_get element "roughness" (PInt 1));
    ("opacity", dict_get element "opacity" (PInt 100));
    ("groupIds", dict_get element "groupIds" (PList []));
    ("frameId", dict_get element "frameId" PNone);
    ("roundness", dict_get element "roundness" PNone);
    ("seed", dict_get element "seed" (PInt 1));
    ("version", dict_get element "version" (PInt 1));
    ("versionNonce", dict_get element "versionNonce" (PInt 1));
    ("isDeleted", dict_get element "isDeleted" (PBool false));
    ("boundElements", dict_get element "boundElements" (PList []));
    ("updated", dict_get element "updated" (PInt 1));
    ("link", dict_get element "link" PNone);
    ("locked", dict_get element "locked" (PBool false)) ].

(** The defaults [processed_element] gives the six core fields. *)
Definition core_defaults : dict :=
  [ ("id", PStr "");
    ("type", PStr "");
    ("x", PInt 0);
    ("y", PInt 0);
    ("width", PInt 0);
    ("height", PInt 0) ].

(** [element.get("type") == "arrow" or element.get("type") == "line"] *)
Definition is_linear (element : dict) : bool :=
  eq_str (dict_get element "type" PNone) "arrow"
  || eq_str (dict_get element "type" PNone) "line".

(** The default of [points]. *)
Definition default_points (element : dict) : pyval :=
  PList [ PList [PInt 0; PInt 0];
          PList [dict_get element "width" (PInt 100);
                 dict_get element "height" (PInt 0)] ].

(** "Add type-specific fields". *)
Definition type_specific (element processed : dict) : dict :=
  if is_linear element
  then
    let processed :=
      dict_set processed "points" (dict_get element "points" (default_points element)) in
    let processed :=
      dict_set processed "lastCommittedPoint" (dict_get element "lastCommittedPoint" PNone) in
    let processed :=
      dict_set processed "startBinding" (dict_get element "startBinding" PNone) in
    let processed :=
      dict_set processed "endBinding" (dict_get element "endBinding" PNone) in
    let processed :=
      dict_set processed "startArrowhead" (dict_get element "startArrowhead" PNone) in
    dict_set processed "endArrowhead" (dict_get element "endArrowhead" (PStr "arrow"))
  else processed.

(** [element["label"].get("text", "") if isinstance(element["label"], dict)
    else element["label"]] *)
Definition label_text_of (label : pyval) : pyval :=
  match label with
  | PDict d => dict_get d "text" (PStr "")
  | _ => label
  end.

(** "Replace HTML <br> tags with actual newlines". *)
Definition replace_breaks (label_text : pyval) : result pyval :=
  if truthy label_text
  then
    t1 <-- method_replace label_text "<br>" LF ;;
    t2 <-- method_replace t1 "<br/>" LF ;;
    method_replace t2 "<br />" LF
  else Ok label_text.

(** "Handle direct text elements". *)
Definition text_specific (element processed : dict) : dict :=
  let text := dict_get element "text" PNone in
  let processed := dict_set processed "text" text in
  let processed := dict_set processed "fontSize" (dict_get element "fontSize" (PInt 20)) in
  let processed := dict_set processed "fontFamily" (dict_get element "fontFamily" (PInt 1)) in
  let processed := dict_set processed "textAlign" (dict_get element "textAlign" (PStr "left")) in
  let processed := dict_set processed "verticalAlign" (dict_get element "verticalAlign" (PStr "top")) in
  let processed := dict_set processed "baseline" (dict_get element "baseline" (PInt 18)) in
  let processed := dict_set processed "containerId" (dict_get element "containerId" PNone) in
  let processed := dict_set processed "originalText" (dict_get element "originalText" text) in
  let processed := dict_set processed "autoResize" (dict_get element "autoResize" (PBool true)) in
  dict_set processed "lineHeight" (dict_get element "lineHeight" (PFloat 1.25)).

(** The dictionary literal [text_element]. *)
Definition text_element (element : dict) (element_id : pyval) (text_id : string)
    (label_text font_size text_x text_y text_width text_height : pyval) : dict :=
  [ ("id", PStr text_id);
    ("type", PStr "text");
    ("x", text_x);
    ("y", text_y);
    ("width", text_width);
    ("height", text_height);
    ("angle", PInt 0);
    ("strokeColor", dict_get element "strokeColor" (PStr "#1e1e1e"));
    ("backgroundColor", PStr "transparent");
    ("fillStyle", PStr "solid");
    ("strokeWidth", PInt 2);
    ("strokeStyle", PStr "solid");
    ("roughness", PInt 1);
    ("opacity", PInt 100);
    ("groupIds", PList []);
    ("frameId", PNone);
    ("roundness", PNone);
    ("seed", PInt 1);
    ("version", PInt 1);
    ("versionNonce", PInt 1);
    ("isDeleted", PBool false);
    ("boundElements", PList []);
    ("updated", PInt 1);
    ("link", PNone);
    ("locked", PBool false);
    ("text", label_text);
    ("fontSize", font_size);
    ("fontFamily", dict_get element "fontFamily" (PInt 1));
    ("textAlign", PStr "center");
    ("verticalAlign", PStr "middle");
    ("containerId", element_id);
    ("originalText", label_text);
    ("autoResize", PBool true);
    ("lineHeight", PFloat 1.25) ].

Section Handler.

Variable random_index : nat -> nat.
Variable repr_of : pyval -> string.

(** [''.join(random.choices(string.ascii_uppercase +
    string.ascii_lowercase + string.digits, k=8))] *)
Definition random_id : M string :=
  fun n => Ok (Excalidraw.choices random_index 8 n, n + 8).

(** One turn of the loop over [elements] that fills
    [processed_elements]: the records it appends. *)
Definition process_one (element : dict) : M (list dict) :=
  let element_id := dict_get element "id" (PStr "") in
  let processed := type_specific element (processed_element element) in
  if dict_in element "label" && truthy (dict_get element "label" PNone)
  then
    let label_text := label_text_of (dict_get element "label" PNone) in
    label_text <- lift (replace_breaks label_text) ;;
    if truthy label_text
    then
      text_id <- random_id ;;
      let font_size := dict_get element "fontSize" (PInt 20) in
      n <- lift (len label_text) ;;
      chars <- lift (mul (PInt n) font_size) ;;
      text_width <- lift (mul chars (PFloat 0.6)) ;;
      text_height <- lift (mul font_size (PFloat 1.25)) ;;
      dx <- lift (sub (dict_get element "width" (PInt 0)) text_width) ;;
      hx <- lift (truediv dx (PInt 2)) ;;
      text_x <- lift (add (dict_get element "x" (PInt 0)) hx) ;;
      dy <- lift (sub (dict_get element "height" (PInt 0)) text_height) ;;
      hy <- lift (truediv dy (PInt 2)) ;;
      text_y <- lift (add (dict_get element "y" (PInt 0)) hy) ;;
      let processed :=
        dict_set processed "boundElements"
          (PList [PDict [("type", PStr "text"); ("id", PStr text_id)]]) in
      ret [ processed;
            text_element element element_id text_id label_text font_size
              text_x text_y text_width text_height ]
    else ret [processed]
  else if dict_in element "text"
  then ret [text_specific element processed]
  else ret [processed].

Fixpoint process_elements (elements : list dict) : M (list dict) :=
  match elements with
  | [] => ret []
  | element :: rest =>
      processed <- process_one element ;;
      others <- process_elements rest ;;
      ret (processed ++ others)%list
  end.

(** [text_content] in the loop "Extract text elements from the elements
    array". *)
Definition text_content_of (element : dict) : pyval :=
  if dict_in element "text" && truthy (dict_get element "text" PNone)
  then dict_get element "text" PNone
  else
    match lookup element "label" with
    | Some (PDict label) => dict_get label "text" (PStr "")
    | Some (PStr label) => PStr label
    | _ => PNone
    end.

(** One turn of that loop: the lines it appends. *)
Definition extracted_line (text_content : pyval) : M (list string) :=
  if truthy text_content
  then
    stripped <- lift (method_strip text_content) ;;
    if truthy stripped
    then
      block_id <- random_id ;;
      ret [str repr_of text_content ++ " ^" ++ block_id]
    else ret []
  else ret [].

Fixpoint extracted_texts (elements : list dict) : M (list string) :=
  match elements with
  | [] => ret []
  | element :: rest =>
      line <- extracted_line (text_content_of element) ;;
      texts <- extracted_texts rest ;;
      ret (line ++ texts)%list
  end.

(** What [_build_excalidraw_note] writes out: the frontmatter, the text
    of the "Text Elements" section and the scene graph's [elements] and
    [appState]. *)
Record note : Type := mkNote {
  note_frontmatter : dict;
  note_text_elements : pyval;
  note_elements : list dict;
  note_appState : pyval
}.

(** [_build_excalidraw_note], up to the rendering of the parts. *)
Definition _build_excalidraw_note (elements : list dict) (appState : pyval)
    (frontmatter : dict) (text_elements : pyval) : M note :=
  let final := final_frontmatter frontmatter in
  let appState :=
    match appState with
    | PNone => PDict default_appState
    | _ => appState
    end in
  text_elements <-
    (if negb (truthy text_elements)
     then
       texts <- extracted_texts elements ;;
       ret (PStr (String.concat (LF ++ LF) texts))
     else ret text_elements) ;;
  processed_elements <- process_elements elements ;;
  ret {| note_frontmatter := final;
         note_text_elements := text_elements;
         note_elements := processed_elements;
         note_appState := appState |}.

(** ** [run_tool] *)

(** The [elements] argument: an array of objects. *)
Fixpoint as_dicts (l : list pyval) : option (list dict) :=
  match l with
  | [] => Some []
  | PDict d :: l' =>
      match as_dicts l' with
      | Some ds => Some (d :: ds)
      | None => None
      end
  | _ :: _ => None
  end.

(** [run_tool], up to the call [api.put_content(filepath, content)]:
    the path and the note it is called with.  The arguments are taken
    at the types of the input schema ([elements] an array of objects,
    [frontmatter] an object); other requests are given [TypeError]. *)
Definition run_tool (args : dict) : M (string * note) :=
  if negb (dict_in args "filepath") || negb (dict_in args "elements")
  then raise ValueError
  else
    let appState := dict_get args "appState" PNone in
    let text_elements := dict_get args "text_elements" (PStr "") in
    match dict_get args "filepath" PNone,
          dict_get args "elements" PNone,
          dict_get args "frontmatter" (PDict []) with
    | PStr filepath, PList elements, PDict frontmatter =>
        match as_dicts elements with
        | Some elements =>
            content <- _build_excalidraw_note elements appState frontmatter text_elements ;;
            ret (save_path filepath, content)
        | None => raise TypeError
        end
    | PStr _, _, _ => raise TypeError
    | _, _, _ => raise AttributeError
    end.

End Handler.

End Tools.

(* ===================================================================== *)
(** * tools.py: the other tool handlers *)
(* ===================================================================== *)

Module Handlers.

Import Py.
Open Scope string_scope.
Open Scope py_scope.

(** The calls a handler makes on the vault client [obsidian.Obsidian],
    with the arguments it passes. *)
Inductive api_call : Type :=
| delete_file (filepath : pyval)
| get_periodic_note (period type : pyval)
| get_recent_periodic_notes (period limit include_content : pyval)
| patch_content (filepath operation target_type target content : pyval).

(** A handler, up to its call on the client: the call it reaches, or
    the [RuntimeError] it raises before, with its message. *)
Inductive outcome : Type :=
| Calls (c : api_call)
| RuntimeError (message : string).

(** [v in names] for a list of string literals. *)
Definition among (v : pyval) (names : list string) : bool :=
  existsb (eq_str v) names.

Definition valid_periods : list string :=
  ["daily"; "weekly"; "monthly"; "quarterly"; "yearly"].

Definition valid_types : list string := ["content"; "metadata"].

(** [isinstance(v, int)]: [bool] is a subclass of [int]. *)
Definition is_int (v : pyval) : bool :=
  match v with
  | PInt _ | PBool _ => true
  | _ => false
  end.

(** [isinstance(v, bool)] *)
Definition is_bool (v : pyval) : bool :=
  match v with
  | PBool _ => true
  | _ => false
  end.

(** [v < 1] for an instance of [int]. *)
Definition below_one (v : pyval) : bool :=
  match v with
  | PInt z => Z.ltb z 1
  | PBool b => Z.ltb (Z.b2z b) 1
  | _ => false
  end.

(** [DeleteFileToolHandler.run_tool] *)
Definition delete_run_tool (args : dict) : outcome :=
  if negb (dict_in args "filepath")
  then RuntimeError "filepath argument missing in arguments"
  else if negb (truthy (dict_get args "confirm" (PBool false)))
  then RuntimeError "confirm must be set to true to delete a file"
  else Calls (delete_file (dict_get args "filepath" PNone)).

(** [PatchContentToolHandler.run_tool] *)
Definition patch_run_tool (args : dict) : outcome :=
  if negb (forallb (dict_in args)
             ["filepath"; "operation"; "target_type"; "target"; "content"])
  then RuntimeError
         "filepath, operation, target_type, target and content arguments required"
  else Calls (patch_content
                (dict_get args "filepath" (PStr ""))
                (dict_get args "operation" (PStr ""))
                (dict_get args "target_type" (PStr ""))
                (dict_get args "target" (PStr ""))
                (dict_get args "content" (PStr ""))).

Section Messages.

(** See [Py.str]. *)
Variable repr_of : pyval -> string.

(** [PeriodicNotesToolHandler.run_tool] *)
Definition periodic_run_tool (args : dict) : outcome :=
  if negb (dict_in args "period")
  then RuntimeError "period argument missing in arguments"
  else
    let period := dict_get args "period" PNone in
    if negb (among period valid_periods)
    then RuntimeError
           ("Invalid period: " ++ str repr_of period ++ ". Must be one of: "
            ++ String.concat ", " valid_periods)
    else
      let type :=
        if dict_in args "type" then dict_get args "type" PNone else PStr "content" in
      if negb (among type valid_types)
      then RuntimeError
             ("Invalid type: " ++ str repr_of type ++ ". Must be one of: "
              ++ String.concat ", " valid_types)
      else Calls (get_periodic_note period type).

(** [RecentPeriodicNotesToolHandler.run_tool] *)
Definition recent_periodic_run_tool (args : dict) : outcome :=
  if negb (dict_in args "period")
  then RuntimeError "period argument missing in arguments"
  else
    let period := dict_get args "period" PNone in
    if negb (among period valid_periods)
    then RuntimeError
           ("Invalid period: " ++ str repr_of period ++ ". Must be one of: "
            ++ String.concat ", " valid_periods)
    else
      let limit := dict_get args "limit" (PInt 5) in
      if negb (is_int limit) || below_one limit
      then RuntimeError
             ("Invalid limit: " ++ str repr_of limit ++ ". Must be a positive integer")
      else
        let include_content := dict_get args "include_content" (PBool false) in
        if negb (is_bool include_content)
        then RuntimeError
               ("Invalid include_content: " ++ str repr_of include_content
                ++ ". Must be a boolean")
        else Calls (get_recent_periodic_notes period limit include_content).

End Messages.

(** ** [SearchToolHandler.run_tool]: the formatting of the results *)

(** [v.get(k, default)], a method of mappings only. *)
Definition method_get (v : pyval) (k : string) (default : pyval) : result pyval :=
  match v with
  | PDict d => Ok (dict_get d k default)
  | _ => Raise AttributeError
  end.

Fixpoint characters (s : string) : list pyval :=
  match s with
  | EmptyString => []
  | String c s' => PStr (String c EmptyString) :: characters s'
  end.

(** The items [for x in v] goes through: those of a list, the keys of a
    mapping, the characters of a string. *)
Definition iterate (v : pyval) : result (list pyval) :=
  match v with
  | PList l => Ok l
  | PDict d => Ok (map PStr (keys d))
  | PStr s => Ok (characters s)
  | _ => Raise TypeError
  end.

(** A loop that appends [f item] for each item. *)
Fixpoint for_each (f : pyval -> result pyval) (items : list pyval)
  : result (list pyval) :=
  match items with
  | [] => Ok []
  | item :: rest =>
      formatted <-- f item ;;
      others <-- for_each f rest ;;
      Ok (formatted :: others)
  end.

(** The body of the loop over [result.get('matches', [])]. *)
Definition format_match (m : pyval) : result pyval :=
  context <-- method_get m "context" (PStr "") ;;
  match_pos <-- method_get m "match" (PDict []) ;;
  start <-- method_get match_pos "start" (PInt 0) ;;
  end_ <-- method_get match_pos "end" (PInt 0) ;;
  Ok (PDict [ ("context", context);
              ("match_position", PDict [("start", start); ("end", end_)]) ]).

(** The body of the loop over [results]. *)
Definition format_result (r : pyval) : result pyval :=
  matches <-- method_get r "matches" (PList []) ;;
  items <-- iterate matches ;;
  formatted_matches <-- for_each format_match items ;;
  filename <-- method_get r "filename" (PStr "") ;;
  score <-- method_get r "score" (PInt 0) ;;
  Ok (PDict [ ("filename", filename);
              ("score", score);
              ("matches", PList formatted_matches) ]).

(** [formatted_results], from what [api.search] returned. *)
Definition format_results (results : pyval) : result (list pyval) :=
  items <-- iterate results ;;
  for_each format_result items.

End Handlers.

(* ===================================================================== *)
(** * Vocabulary of the statements *)
(* ===================================================================== *)

Module Spec.

Import Py.
Open Scope string_scope.

(** A value that float arithmetic takes as an operand: a float, or an
    int or bool inside the float range. *)
Definition float_operand (v : pyval) : bool :=
  match as_number v with
  | Some (NInt z) => is_ok (int_as_float z)
  | Some (NFloat _) => true
  | None => false
  end.

(** The geometry of a label is defined: the container's position and
    size and the font size of the raw record are such numbers, and so
    is the font size times the length of the text. *)
Definition label_geometry_defined (container : Excalidraw.ExcalidrawElement)
    (text : string) (original_data : dict) : bool :=
  let font_size := dict_get original_data "fontSize" (PInt 20) in
  float_operand (Excalidraw.x container)
  && float_operand (Excalidraw.y container)
  && float_operand (Excalidraw.width container)
  && float_operand (Excalidraw.height container)
  && float_operand font_size
  && match mul (PInt (Z.of_nat (String.length text))) font_size with
     | Ok chars => float_operand chars
     | Raise _ => false
     end.

(** A text-valued field holds a string, or nothing that counts. *)
Definition is_text (v : pyval) : bool :=
  match v with
  | PStr _ => true
  | _ => negb (truthy v)
  end.

(** The text content of an element for the index: a direct [text] field
    is preferred, else the [label] field, a mapping giving its [text]
    field and a string itself. *)
Definition content_of (element : dict) : option string :=
  match lookup element "text" with
  | Some (PStr (String c t)) => Some (String c t)
  | _ =>
      match lookup element "label" with
      | Some (PDict label) =>
          match lookup label "text" with
          | Some (PStr t) => Some t
          | _ => None
          end
      | Some (PStr t) => Some t
      | _ => None
      end
  end.

(** Non-empty after trimming. *)
Definition nonblank (c : string) : bool := negb (String.eqb (strip c) "").

(** The contents that get a line, in the order of the elements, each as
    often as it occurs. *)
Definition indexed_contents (elements : list dict) : list string :=
  flat_map
    (fun element =>
       match content_of element with
       | Some c => if nonblank c then [c] else []
       | None => []
       end)
    elements.

Section Lines.

Variable random_index : nat -> nat.

(** One line per content, each with the block id drawn next: the
    [i]-th line of a run that starts at draw [n] takes the eight draws
    from [n + 8 * i] on. *)
Fixpoint index_lines (contents : list string) (n : nat) : list string :=
  match contents with
  | [] => []
  | c :: cs =>
      (c ++ " ^" ++ Excalidraw.choices random_index 8 n) :: index_lines cs (n + 8)
  end.

End Lines.

(** ** The text box of a label

    The arithmetic both code paths do for the box of a label's text:
    width from the number of characters and the font size, height from
    the font size, and the position that centres the box in the
    container. *)
Definition text_box (cx cy cw ch text font_size : pyval)
  : result (pyval * pyval * pyval * pyval) :=
  rbind (len text) (fun n =>
  rbind (mul (PInt n) font_size) (fun chars =>
  rbind (mul chars (PFloat 0.6)) (fun text_width =>
  rbind (mul font_size (PFloat 1.25)) (fun text_height =>
  rbind (sub cw text_width) (fun dx =>
  rbind (truediv dx (PInt 2)) (fun hx =>
  rbind (add cx hx) (fun text_x =>
  rbind (sub ch text_height) (fun dy =>
  rbind (truediv dy (PInt 2)) (fun hy =>
  rbind (add cy hy) (fun text_y =>
  Ok (text_x, text_y, text_width, text_height))))))))))).

(** The text element the builder makes for a label of [container]:
    the given id and box, the container's stroke colour and id, the
    text, and the font of the raw record. *)
Definition label_text_element (container : Excalidraw.ExcalidrawElement)
    (text : pyval) (original_data : dict) (text_id : string)
    (box : pyval * pyval * pyval * pyval) : Excalidraw.ExcalidrawElement :=
  let '(text_x, text_y, text_width, text_height) := box in
  Excalidraw.mkElement
    (PStr text_id) (PStr "text") text_x text_y text_width text_height
    (PInt 0) (Excalidraw.strokeColor container) (PStr "transparent")
    (PStr "solid") (PInt 2) (PStr "solid") (PInt 1) (PInt 100)
    (PList []) PNone PNone (PInt 1) (PInt 1) (PInt 1) (PBool false)
    (PList []) (PInt 1) PNone (PBool false)
    [ ("text", text);
      ("fontSize", dict_get original_data "fontSize" (PInt 20));
      ("fontFamily", dict_get original_data "fontFamily" (PInt 1));
      ("textAlign", PStr "center");
      ("verticalAlign", PStr "middle");
      ("baseline", PInt 18);
      ("containerId", Excalidraw.id container);
      ("originalText", text);
      ("autoResize", PBool true);
      ("lineHeight", PFloat 1.25) ].

(** An element and a record agree on the schema: every declared field
    has the same value in the element's dictionary and in the record. *)
Definition same_schema (e : Excalidraw.ExcalidrawElement) (d : dict) : Prop :=
  forall k, Excalidraw.known k = true ->
    lookup (Excalidraw.to_dict e) k = lookup d k.

(** The fields the handler adds to arrows and lines, the fields it adds
    to text elements, and the fields it ever writes. *)
Definition linear_fields : list string :=
  [ "points"; "lastCommittedPoint"; "startBinding"; "endBinding";
    "startArrowhead"; "endArrowhead" ].

Definition text_fields : list string :=
  [ "text"; "fontSize"; "fontFamily"; "textAlign"; "verticalAlign";
    "baseline"; "containerId"; "originalText"; "autoResize"; "lineHeight" ].

Definition listed (k : string) : bool :=
  Excalidraw.known k || mem k linear_fields || mem k text_fields.

(** ** Reading a document back

    The round trip of the specification: from an assembled document,
    take the text of the fenced block (what follows the last line
    [```json] up to the closing fence and the trailing [%%]), parse it
    with the JSON reader [loads], take the [elements] of the scene
    graph and read each one with [from_dict]. *)






(** The box is defined: position, size and font size are numbers float
    arithmetic accepts, and so is the font size times the length of the
    text. *)
Definition box_defined (cx cy cw ch : pyval) (text : string) (font_size : pyval)
  : bool :=
  float_operand cx
  && float_operand cy
  && float_operand cw
  && float_operand ch
  && float_operand font_size
  && match mul (PInt (Z.of_nat (String.length text))) font_size with
     | Ok chars => float_operand chars
     | Raise _ => false
     end.

(** A search match as the formatting expects it: a mapping whose
    [match] field, if it has one, is a mapping. *)
Definition shaped_match (m : pyval) : bool :=
  match m with
  | PDict d =>
      match dict_get d "match" (PDict []) with
      | PDict _ => true
      | _ => false
      end
  | _ => false
  end.

(** A search result as the formatting expects it: a mapping whose
    [matches] field, if it has one, is a list of such matches. *)
Definition shaped_result (r : pyval) : bool :=
  match r with
  | PDict d =>
      match dict_get d "matches" (PList []) with
      | PList ms => forallb shaped_match ms
      | _ => false
      end
  | _ => false
  end.

(** A letter or a digit of ASCII. *)
Definition alphanumeric (c : ascii) : bool :=
  let n := nat_of_ascii c in
  (Nat.leb 48 n && Nat.leb n 57)
  || (Nat.leb 65 n && Nat.leb n 90)
  || (Nat.leb 97 n && Nat.leb n 122).

(** Every character of [s] satisfies [p]. *)
Fixpoint all_chars (p : ascii -> bool) (s : string) : bool :=
  match s with
  | EmptyString => true
  | String c s' => p c && all_chars p s'
  end.

(** ** Binary64 values

    Every finite float is a whole number of units of 2^-1074, the least
    positive float.  [units] gives that number, so that a statement
    about sums and differences of floats is a statement about
    integers. *)

Section Binary64.

Local Open Scope Z_scope.

Definition finite_sf (x : spec_float) : bool :=
  match x with
  | S754_zero _ | S754_finite _ _ _ => true
  | _ => false
  end.

Definition units_sf (x : spec_float) : Z :=
  match x with
  | S754_finite s m e => cond_Zopp s (Zpos m * 2 ^ (e + 1074))
  | _ => 0
  end.

(** Neither an infinity nor a NaN. *)
Definition finite (f : float) : bool := finite_sf (Prim2SF f).

Definition units (f : float) : Z := units_sf (Prim2SF f).

(** [r] is [exact] rounded to 53 bits: off by at most 2^-53 of it. *)
Definition rounded (r exact : Z) : Prop :=
  2 ^ 53 * Z.abs (r - exact) <= Z.abs exact.

(** The record [rec] is [M] shifted right by [j] bits: its mantissa is
    the quotient, and its two bits place the remainder below, at or
    above half a unit. *)
Definition located (M j : Z) (rec : shr_record) : Prop :=
  0 <= shr_m rec
  /\ exists rem,
       M = shr_m rec * 2 ^ j + rem
       /\ 0 <= rem < 2 ^ j
       /\ match shr_r rec, shr_s rec with
          | false, false => rem = 0
          | false, true => 0 < 2 * rem < 2 ^ j
          | true, false => 2 * rem = 2 ^ j
          | true, true => 2 ^ j < 2 * rem
          end.

(** The float [2.0]. *)
Definition two_sf : spec_float := S754_finite false 4503599627370496 (-51).

(** Two centres agree within tolerance: they differ by at most
    2^-50 (|c| + |w| + |t|) + 2^-1073, for a container at [c] of extent
    [w] and a text of extent [t]. *)
Definition within_tolerance (c w t left right : float) : Prop :=
  2 ^ 50 * Z.abs (units left - units right)
  <= Z.abs (units c) + Z.abs (units w) + Z.abs (units t) + 2 ^ 51.

End Binary64.

(** The float a number enters float arithmetic as. *)
Definition as_float (v : pyval) : float :=
  match as_number v with
  | Some (NInt z) => float_of_Z z
  | Some (NFloat f) => f
  | None => nan
  end.

(** The position that centres an extent [t] in a container at [c] of
    extent [w], as both code paths compute it. *)
Definition centred (c w t : float) : float := (c + (w - t) / 2)%float.

(** The text box of a label: [chars] is the length of the text times
    the font size. *)
Definition label_box (cx cy cw ch chars font_size : pyval)
  : pyval * pyval * pyval * pyval :=
  let text_width := (as_float chars * 0.6)%float in
  let text_height := (as_float font_size * 1.25)%float in
  (PFloat (centred (as_float cx) (as_float cw) text_width),
   PFloat (centred (as_float cy) (as_float ch) text_height),
   PFloat text_width,
   PFloat text_height).

(** What a run returns, without the number of draws made. *)
Definition value_of {A : Type} (r : result (A * nat)) : result A :=
  match r with
  | Ok (a, _) => Ok a
  | Raise e => Raise e
  end.

End Spec.

(* ===================================================================== *)
(** * Sample requests *)
(* ===================================================================== *)

Module Examples.

Import Py.
Open Scope string_scope.

(** A run whose random draws are 0, 1, 2, ... *)
Definition draws : nat -> nat := fun i => i.

(** A stand-in for the text of floats and containers. *)
Definition plain_repr : pyval -> string := fun _ => "<object>".

(** The labelled rectangle of the specification's scenario. *)
Definition labelled_rectangle : dict :=
  [ ("id", PStr "r1"); ("type", PStr "rectangle");
    ("x", PInt 0); ("y", PInt 0); ("width", PInt 100); ("height", PInt 50);
    ("label", PStr "Hi") ].

(** A rectangle that already has bound elements and a mapping label. *)
Definition bound_rectangle : dict :=
  [ ("id", PStr "r2"); ("type", PStr "rectangle");
    ("x", PInt 10); ("y", PInt 20); ("width", PInt 200); ("height", PInt 80);
    ("boundElements", PList [PDict [("type", PStr "arrow"); ("id", PStr "a1")]]);
    ("label", PDict [("text", PStr "one<br>two")]) ].

(** A rectangle with a field outside the schema. *)
Definition custom_rectangle : dict :=
  [ ("id", PStr "r3"); ("type", PStr "rectangle");
    ("x", PInt 0); ("y", PInt 0); ("width", PInt 100); ("height", PInt 50);
    ("customData", PInt 7) ].

(** A rectangle whose label is a number. *)
Definition numbered_rectangle : dict :=
  [ ("id", PStr "r4"); ("type", PStr "rectangle");
    ("x", PInt 0); ("y", PInt 0); ("width", PInt 100); ("height", PInt 50);
    ("label", PInt 5) ].

(** A rectangle whose label is [None]. *)
Definition null_label_rectangle : dict :=
  [ ("id", PStr "r6"); ("type", PStr "rectangle");
    ("x", PInt 0); ("y", PInt 0); ("width", PInt 100); ("height", PInt 50);
    ("label", PNone) ].

(** A record without geometry. *)
Definition bare_rectangle : dict :=
  [ ("id", PStr "r5"); ("type", PStr "rectangle") ].

(** The arrow of the specification's scenario. *)
Definition flat_arrow : dict :=
  [ ("id", PStr "a1"); ("type", PStr "arrow");
    ("x", PInt 0); ("y", PInt 0); ("width", PInt 100); ("height", PInt 0) ].

(** An arrow that goes down as well as right. *)
Definition slanted_arrow : dict :=
  [ ("id", PStr "a2"); ("type", PStr "arrow");
    ("x", PInt 0); ("y", PInt 0); ("width", PInt 100); ("height", PInt 50) ].

(** A text element. *)
Definition note_text : dict :=
  [ ("id", PStr "t1"); ("type", PStr "text");
    ("x", PInt 0); ("y", PInt 0); ("width", PInt 40); ("height", PInt 25);
    ("text", PStr "Note") ].

(** A text element whose text is blank. *)
Definition blank_text : dict :=
  [ ("id", PStr "t2"); ("type", PStr "text");
    ("x", PInt 0); ("y", PInt 0); ("width", PInt 40); ("height", PInt 25);
    ("text", PStr "   ") ].

(** An ellipse whose label has spaces around it. *)
Definition padded_label : dict :=
  [ ("id", PStr "e1"); ("type", PStr "ellipse");
    ("x", PInt 0); ("y", PInt 0); ("width", PInt 80); ("height", PInt 40);
    ("label", PStr "  padded ") ].

(** Six elements for the text index: two with the same label, a text
    element, a mapping label, a blank text and a padded label. *)
Definition indexed_elements : list dict :=
  [ labelled_rectangle; note_text; bound_rectangle; blank_text;
    padded_label; labelled_rectangle ].


(** A labelled rectangle whose font size is near the top of the float
    range. *)
Definition huge_font_rectangle : dict :=
  [ ("id", PStr "r7"); ("type", PStr "rectangle");
    ("x", PInt 0); ("y", PInt 0); ("width", PInt 100); ("height", PInt 50);
    ("label", PStr "Hi"); ("fontSize", PFloat 1e308) ].

(** A labelled rectangle of no width at [x = 1], with a font size that
    makes the text far wider than the container. *)
Definition narrow_rectangle : dict :=
  [ ("id", PStr "r8"); ("type", PStr "rectangle");
    ("x", PInt 1); ("y", PInt 0); ("width", PInt 0); ("height", PInt 50);
    ("label", PStr "a"); ("fontSize", PFloat 1e17) ].

(** ** A JSON writer and reader for the examples

    Text in the layout of [json.dumps] with tab indentation, for values
    without floats, and a reader of that text. *)















End Examples.

(* ===================================================================== *)
(** * Facts about the builtins *)
(* ===================================================================== *)

Module PyFacts.

Import Py.
Open Scope string_scope.

(** ** Dictionaries *)

Lemma lookup_dict_set (d : dict) (k : string) (v : pyval) (k' : string) :
  lookup (dict_set d k v) k' = if String.eqb k k' then Some v else lookup d k'.
Proof.
  induction d as [|[k0 v0] d IH]; simpl.
  - reflexivity.
  - destruct (String.eqb k0 k) eqn:E0; simpl.
    + apply String.eqb_eq in E0. subst k0.
      destruct (String.eqb k k'); reflexivity.
    + destruct (String.eqb k0 k') eqn:E1; [|exact IH].
      apply String.eqb_eq in E1. subst k0.
      rewrite String.eqb_sym in E0. now rewrite E0.
Qed.

Lemma dict_in_dict_set (d : dict) (k : string) (v : pyval) (k' : string) :
  dict_in (dict_set d k v) k' = String.eqb k k' || dict_in d k'.
Proof.
  unfold dict_in. rewrite lookup_dict_set.
  destruct (String.eqb k k'); reflexivity.
Qed.

(** A key the update does not mention keeps its value. *)
Lemma lookup_dict_update_absent (other : dict) (k : string) :
  forall d, lookup other k = None ->
    lookup (dict_update d other) k = lookup d k.
Proof.
  unfold dict_update.
  induction other as [|[k0 v0] other IH]; intros d H; simpl in *.
  - reflexivity.
  - destruct (String.eqb k0 k) eqn:E; [discriminate|].
    rewrite (IH _ H), lookup_dict_set. now rewrite E.
Qed.

(** The update wins wherever it has a value. *)
Lemma lookup_dict_update (other : dict) (k : string) :
  dict_wf other = true ->
  forall d,
    lookup (dict_update d other) k =
    match lookup other k with
    | Some v => Some v
    | None => lookup d k
    end.
Proof.
  unfold dict_update.
  induction other as [|[k0 v0] other IH]; intros Hwf d; simpl in *.
  - reflexivity.
  - apply andb_true_iff in Hwf as [Hk0 Hwf].
    apply negb_true_iff in Hk0. unfold dict_in in Hk0.
    rewrite (IH Hwf), lookup_dict_set.
    destruct (String.eqb k0 k) eqn:E.
    + apply String.eqb_eq in E. subst k0.
      destruct (lookup other k); [discriminate | reflexivity].
    + reflexivity.
Qed.

Lemma dict_in_dict_update (other : dict) (k : string) :
  forall d, dict_in (dict_update d other) k = dict_in d k || dict_in other k.
Proof.
  unfold dict_update.
  induction other as [|[k0 v0] other IH]; intros d; simpl.
  - now rewrite orb_false_r.
  - rewrite IH, dict_in_dict_set. unfold dict_in at 4. simpl.
    destruct (String.eqb k0 k); simpl.
    + now rewrite !orb_true_r.
    + reflexivity.
Qed.

Lemma lookup_dict_filter (p : string -> bool) (d : dict) (k : string) :
  lookup (dict_filter p d) k = if p k then lookup d k else None.
Proof.
  unfold dict_filter.
  induction d as [|[k0 v0] d IH]; simpl.
  - now destruct (p k).
  - destruct (p k0) eqn:E0; simpl.
    + destruct (String.eqb k0 k) eqn:E; [|exact IH].
      apply String.eqb_eq in E. subst k0. now rewrite E0.
    + rewrite IH. destruct (String.eqb k0 k) eqn:E; [|reflexivity].
      apply String.eqb_eq in E. subst k0. now rewrite E0.
Qed.





(** ** [str.replace] *)

Lemma drop_nil (n : nat) : drop n "" = "".
Proof. destruct n; reflexivity. Qed.

Lemma replace_scan_drop (old new : string) (s : string) :
  forall k, replace_scan old new k s = replace_scan old new 0 (drop k s).
Proof.
  induction s as [|c s IH]; intros k.
  - now rewrite drop_nil.
  - destruct k as [|k]; [reflexivity|].
    simpl. apply IH.
Qed.

(** The scan, one step at a time. *)
Lemma replace_scan_step (old new : string) (c : ascii) (s : string) :
  replace_scan old new 0 (String c s) =
  if String.prefix old (String c s)
  then new ++ replace_scan old new 0 (drop (String.length old - 1) s)
  else String c (replace_scan old new 0 s).
Proof.
  cbn [replace_scan].
  destruct (String.prefix old (String c s)); [|reflexivity].
  now rewrite replace_scan_drop.
Qed.

Lemma length_drop_le (n : nat) (s : string) :
  String.length (drop n s) <= String.length s.
Proof.
  revert s; induction n as [|n IH]; intros [|c s]; simpl; auto.
Qed.

Lemma prefix_cons (a : ascii) (p : string) (c : ascii) (s : string) :
  String.prefix (String a p) (String c s) = Ascii.eqb a c && String.prefix p s.
Proof.
  simpl. destruct (ascii_dec a c) as [->|Hne].
  - now rewrite Ascii.eqb_refl.
  - apply Ascii.eqb_neq in Hne. now rewrite Hne.
Qed.

Lemma contains_cons (p : string) (c : ascii) (s : string) :
  contains p (String c s) = String.prefix p (String c s) || contains p s.
Proof. reflexivity. Qed.

Lemma contains_drop (p : string) (n : nat) :
  forall s, contains p (drop n s) = true -> contains p s = true.
Proof.
  induction n as [|n IH]; intros s H; [exact H|].
  destruct s as [|c s]; [exact H|].
  simpl in H. rewrite contains_cons, (IH _ H). apply orb_true_r.
Qed.

(** Where [old] does not occur, nothing is replaced. *)
Lemma replace_scan_absent (old new : string) (s : string) :
  contains old s = false -> replace_scan old new 0 s = s.
Proof.
  induction s as [|c s IH]; intros H; [reflexivity|].
  rewrite contains_cons in H. apply orb_false_iff in H as [Hp Hc].
  rewrite replace_scan_step, Hp, (IH Hc). reflexivity.
Qed.

Section Fresh.

(** The replacement is the single character [a], foreign to the
    patterns looked for. *)
Variable a : ascii.
Variable old : string.

Let new : string := String a "".

(** A pattern free of [a] that starts the result started the input. *)
Lemma prefix_replace_scan (s : string) :
  forall q, free_of a q = true ->
    String.prefix q (replace_scan old new 0 s) = true ->
    String.prefix q s = true.
Proof.
  induction s as [|c s IH]; intros q Hq H; [exact H|].
  destruct q as [|b q]; [reflexivity|].
  simpl in Hq. apply andb_true_iff in Hq as [Hb Hq].
  rewrite replace_scan_step in H.
  destruct (String.prefix old (String c s)).
  - unfold new in H. simpl append in H. rewrite prefix_cons in H.
    apply andb_true_iff in H as [H _].
    rewrite H in Hb. discriminate.
  - rewrite prefix_cons in H |- *.
    apply andb_true_iff in H as [Hc H].
    rewrite Hc. simpl. now apply IH.
Qed.

(** A pattern free of [a] found in the result was in the input. *)
Lemma contains_replace_scan (q : string) :
  q <> "" -> free_of a q = true ->
  forall n s, String.length s <= n ->
    contains q (replace_scan old new 0 s) = true -> contains q s = true.
Proof.
  intros Hne Hq. induction n as [|n IH]; intros s Hlen H.
  - destruct s; [exact H | simpl in Hlen; lia].
  - destruct s as [|c s]; [exact H|].
    simpl in Hlen. rewrite replace_scan_step in H.
    destruct (String.prefix old (String c s)) eqn:Hp.
    + unfold new in H. simpl append in H. rewrite contains_cons in H.
      apply orb_true_iff in H as [H|H].
      * destruct q as [|b q]; [contradiction|].
        simpl in Hq. apply andb_true_iff in Hq as [Hb _].
        rewrite prefix_cons in H. apply andb_true_iff in H as [H _].
        rewrite H in Hb. discriminate.
      * rewrite contains_cons. apply orb_true_iff. right.
        apply contains_drop with (n := String.length old - 1).
        apply IH; [|exact H].
        pose proof (length_drop_le (String.length old - 1) s). lia.
    + rewrite contains_cons in H. apply orb_true_iff in H as [H|H].
      * rewrite contains_cons. apply orb_true_iff. left.
        apply prefix_replace_scan; [exact Hq|].
        now rewrite replace_scan_step, Hp.
      * rewrite contains_cons. apply orb_true_iff. right.
        apply IH; [lia | exact H].
Qed.

(** After the scan [old] is gone. *)
Lemma replace_scan_removes :
  old <> "" -> free_of a old = true ->
  forall n s, String.length s <= n ->
    contains old (replace_scan old new 0 s) = false.
Proof.
  intros Hne Hq. induction n as [|n IH]; intros s Hlen.
  - destruct s; [|simpl in Hlen; lia].
    destruct old; [contradiction | reflexivity].
  - destruct s as [|c s].
    + destruct old; [contradiction | reflexivity].
    + simpl in Hlen. rewrite replace_scan_step.
      destruct (String.prefix old (String c s)) eqn:Hp.
      * unfold new. simpl append. rewrite contains_cons.
        apply orb_false_iff. split.
        -- destruct old as [|b q]; [contradiction|].
           simpl in Hq. apply andb_true_iff in Hq as [Hb _].
           rewrite prefix_cons. apply negb_true_iff in Hb.
           now rewrite Hb.
        -- apply IH.
           pose proof (length_drop_le (String.length old - 1) s). lia.
      * rewrite contains_cons. apply orb_false_iff. split.
        -- destruct (String.prefix old (String c (replace_scan old new 0 s))) eqn:E;
             [|reflexivity].
           rewrite <- Hp. symmetry.
           apply prefix_replace_scan; [exact Hq|].
           now rewrite replace_scan_step, Hp.
        -- apply IH. lia.
Qed.

End Fresh.

End PyFacts.

Import Py.
Open Scope string_scope.

(* ===================================================================== *)
(** * TextSanitizer *)
(* ===================================================================== *)

(** The three replacements of the sanitizer, on a string. *)
Lemma sanitize_text_str (x : string) :
  Excalidraw.sanitize_text (PStr x) =
  Ok (PStr (replace "<br />" LF (replace "<br/>" LF (replace "<br>" LF x)))).
Proof.
  unfold Excalidraw.sanitize_text. simpl truthy.
  destruct x as [|c x]; reflexivity.
Qed.

Lemma replace_breaks_str (x : string) :
  Tools.replace_breaks (PStr x) =
  Ok (PStr (replace "<br />" LF (replace "<br/>" LF (replace "<br>" LF x)))).
Proof.
  unfold Tools.replace_breaks. simpl truthy.
  destruct x as [|c x]; reflexivity.
Qed.

(** No line-break tag is left in sanitized text. *)
Lemma sanitized_tag_free (x : string) :
  let t := replace "<br />" LF (replace "<br/>" LF (replace "<br>" LF x)) in
  contains "<br>" t = false
  /\ contains "<br/>" t = false
  /\ contains "<br />" t = false.
Proof.
  intros t.
  set (nl := ascii_of_nat 10).
  assert (H3 : contains "<br />" t = false).
  { apply (PyFacts.replace_scan_removes nl) with (n := String.length
      (replace "<br/>" LF (replace "<br>" LF x))); [discriminate | reflexivity | lia]. }
  assert (H2 : contains "<br/>" t = false).
  { destruct (contains "<br/>" t) eqn:E; [|reflexivity].
    apply (PyFacts.contains_replace_scan nl) with (n := String.length
      (replace "<br/>" LF (replace "<br>" LF x))) in E;
      [|discriminate | reflexivity | lia].
    rewrite <- E.
    apply (PyFacts.replace_scan_removes nl) with (n := String.length
      (replace "<br>" LF x)); [discriminate | reflexivity | lia]. }
  assert (H1 : contains "<br>" t = false).
  { destruct (contains "<br>" t) eqn:E; [|reflexivity].
    apply (PyFacts.contains_replace_scan nl) with (n := String.length
      (replace "<br/>" LF (replace "<br>" LF x))) in E;
      [|discriminate | reflexivity | lia].
    apply (PyFacts.contains_replace_scan nl) with (n := String.length
      (replace "<br>" LF x)) in E;
      [|discriminate | reflexivity | lia].
    rewrite <- E.
    apply (PyFacts.replace_scan_removes nl) with (n := String.length x);
      [discriminate | reflexivity | lia]. }
  now repeat split.
Qed.

(** So each of the three replacements leaves it as it is. *)
Lemma sanitized_is_fixed (x : string) :
  let t := replace "<br />" LF (replace "<br/>" LF (replace "<br>" LF x)) in
  replace "<br />" LF (replace "<br/>" LF (replace "<br>" LF t)) = t.
Proof.
  intros t.
  set (nl := ascii_of_nat 10).
  assert (H3 : contains "<br />" t = false).
  { apply (PyFacts.replace_scan_removes nl) with (n := String.length
      (replace "<br/>" LF (replace "<br>" LF x))); [discriminate | reflexivity | lia]. }
  assert (H2 : contains "<br/>" t = false).
  { destruct (contains "<br/>" t) eqn:E; [|reflexivity].
    apply (PyFacts.contains_replace_scan nl) with (n := String.length
      (replace "<br/>" LF (replace "<br>" LF x))) in E;
      [|discriminate | reflexivity | lia].
    rewrite <- E.
    apply (PyFacts.replace_scan_removes nl) with (n := String.length
      (replace "<br>" LF x)); [discriminate | reflexivity | lia]. }
  assert (H1 : contains "<br>" t = false).
  { destruct (contains "<br>" t) eqn:E; [|reflexivity].
    apply (PyFacts.contains_replace_scan nl) with (n := String.length
      (replace "<br/>" LF (replace "<br>" LF x))) in E;
      [|discriminate | reflexivity | lia].
    apply (PyFacts.contains_replace_scan nl) with (n := String.length
      (replace "<br>" LF x)) in E;
      [|discriminate | reflexivity | lia].
    rewrite <- E.
    apply (PyFacts.replace_scan_removes nl) with (n := String.length x);
      [discriminate | reflexivity | lia]. }
  change (replace "<br>" LF t) with (replace_scan "<br>" LF 0 t).
  rewrite (PyFacts.replace_scan_absent _ _ _ H1).
  change (replace "<br/>" LF t) with (replace_scan "<br/>" LF 0 t).
  rewrite (PyFacts.replace_scan_absent _ _ _ H2).
  change (replace "<br />" LF t) with (replace_scan "<br />" LF 0 t).
  apply (PyFacts.replace_scan_absent _ _ _ H3).
Qed.

(** C7.  Sanitizing is idempotent: on every value, sanitizing the
    sanitized result gives that result again, in [sanitize_text] of the
    builder and in the handler's inline replacement alike.  On a string
    each of the two sanitizers is the three replacements of [<br>],
    [<br/>] and [<br />] by a line feed, in this order, each a
    left-to-right non-overlapping scan; so the two agree on every
    value, no tag is left in their result, and a text without tags is
    returned as it is.  A falsy input (the empty string, [None]) comes
    back unchanged instead of raising. *)
Theorem sanitize_text_idempotent :
  (forall v : pyval,
      rbind (Excalidraw.sanitize_text v) Excalidraw.sanitize_text
      = Excalidraw.sanitize_text v)
  /\ (forall v : pyval,
      rbind (Tools.replace_breaks v) Tools.replace_breaks
      = Tools.replace_breaks v)
  /\ (forall x : string,
      Excalidraw.sanitize_text (PStr x) =
      Ok (PStr (replace "<br />" LF (replace "<br/>" LF (replace "<br>" LF x)))))
  /\ (forall x : string,
      Tools.replace_breaks (PStr x) =
      Ok (PStr (replace "<br />" LF (replace "<br/>" LF (replace "<br>" LF x)))))
  /\ (forall v : pyval, Tools.replace_breaks v = Excalidraw.sanitize_text v)
  /\ (forall x : string,
      let y := replace "<br />" LF (replace "<br/>" LF (replace "<br>" LF x)) in
      contains "<br>" y = false
      /\ contains "<br/>" y = false
      /\ contains "<br />" y = false)
  /\ (forall x : string,
      contains "<br>" x = false ->
      contains "<br/>" x = false ->
      contains "<br />" x = false ->
      replace "<br />" LF (replace "<br/>" LF (replace "<br>" LF x)) = x)
  /\ (forall v : pyval,
      truthy v = false ->
      Excalidraw.sanitize_text v = Ok v /\ Tools.replace_breaks v = Ok v).
Proof.
  split; [|split; [|split; [|split; [|split; [|split; [|split]]]]]].
  - intros v. destruct (truthy v) eqn:E.
    + destruct v as [| b | z | f | s | l | d];
        try (unfold Excalidraw.sanitize_text; rewrite E; reflexivity).
      rewrite sanitize_text_str. unfold rbind.
      rewrite sanitize_text_str. now rewrite sanitized_is_fixed.
    + assert (H : Excalidraw.sanitize_text v = Ok v)
        by (unfold Excalidraw.sanitize_text; now rewrite E).
      rewrite H. exact H.
  - intros v. destruct (truthy v) eqn:E.
    + destruct v as [| b | z | f | s | l | d];
        try (unfold Tools.replace_breaks; rewrite E; reflexivity).
      rewrite replace_breaks_str. unfold rbind.
      rewrite replace_breaks_str. now rewrite sanitized_is_fixed.
    + assert (H : Tools.replace_breaks v = Ok v)
        by (unfold Tools.replace_breaks; now rewrite E).
      rewrite H. exact H.
  - exact sanitize_text_str.
  - exact replace_breaks_str.
  - intros v. unfold Excalidraw.sanitize_text, Tools.replace_breaks.
    now destruct (truthy v).
  - exact sanitized_tag_free.
  - intros x H1 H2 H3.
    change (replace "<br>" LF x) with (replace_scan "<br>" LF 0 x).
    rewrite (PyFacts.replace_scan_absent _ _ _ H1).
    change (replace "<br/>" LF x) with (replace_scan "<br/>" LF 0 x).
    rewrite (PyFacts.replace_scan_absent _ _ _ H2).
    change (replace "<br />" LF x) with (replace_scan "<br />" LF 0 x).
    apply (PyFacts.replace_scan_absent _ _ _ H3).
  - intros v H. unfold Excalidraw.sanitize_text, Tools.replace_breaks.
    now rewrite H.
Qed.

(** A text with the three tags, through both sanitizers, once and
    twice; a text with angle brackets but no tag; and the empty
    string. *)
Lemma sanitize_text_idempotent_witness :
  Excalidraw.sanitize_text (PStr "a<br>b<br/>c<br />d")
  = Ok (PStr ("a" ++ LF ++ "b" ++ LF ++ "c" ++ LF ++ "d"))
  /\ Tools.replace_breaks (PStr "a<br>b<br/>c<br />d")
     = Ok (PStr ("a" ++ LF ++ "b" ++ LF ++ "c" ++ LF ++ "d"))
  /\ rbind (Tools.replace_breaks (PStr "a<br>b<br/>c<br />d")) Tools.replace_breaks
     = Ok (PStr ("a" ++ LF ++ "b" ++ LF ++ "c" ++ LF ++ "d"))
  /\ replace "<br />" LF (replace "<br/>" LF (replace "<br>" LF "a < b <br")) = "a < b <br"
  /\ Excalidraw.sanitize_text (PStr "") = Ok (PStr "")
  /\ Tools.replace_breaks (PStr "") = Ok (PStr "").
Proof.
  destruct sanitize_text_idempotent
    as (_ & Hidem & Hs & Hr & _ & _ & Hclean & Hfalsy).
  split; [exact (Hs "a<br>b<br/>c<br />d")|].
  split; [exact (Hr "a<br>b<br/>c<br />d")|].
  split; [rewrite (Hidem (PStr "a<br>b<br/>c<br />d"));
          exact (Hr "a<br>b<br/>c<br />d")|].
  split; [apply Hclean; reflexivity|].
  apply Hfalsy. reflexivity.
Defined.

Example sanitize_text_breaks :
  Excalidraw.sanitize_text (PStr "a<br>b<br/>c<br />d")
  = Ok (PStr ("a" ++ LF ++ "b" ++ LF ++ "c" ++ LF ++ "d")).
Proof. reflexivity. Qed.

(* ===================================================================== *)
(** * The path written to *)
(* ===================================================================== *)

Lemma length_app (s t : string) :
  String.length (s ++ t) = String.length s + String.length t.
Proof. induction s as [|c s IH]; simpl; [reflexivity | now rewrite IH]. Qed.

Lemma drop_app (s t : string) : drop (String.length s) (s ++ t) = t.
Proof. induction s as [|c s IH]; simpl; [reflexivity | exact IH]. Qed.

Lemma drop_split (n : nat) : forall s, exists b, s = b ++ drop n s.
Proof.
  induction n as [|n IH]; intros s.
  - now exists "".
  - destruct s as [|c s]; [now exists ""|].
    destruct (IH s) as [b Hb]. exists (String c b).
    simpl. now rewrite <- Hb.
Qed.

Lemma endswith_app (b suffix : string) : endswith (b ++ suffix) suffix = true.
Proof.
  unfold endswith. rewrite length_app.
  replace (String.length b + String.length suffix - String.length suffix)
    with (String.length b) by lia.
  rewrite drop_app, String.eqb_refl.
  apply andb_true_iff. split; [apply Nat.leb_le; lia | reflexivity].
Qed.

Lemma endswith_split (s suffix : string) :
  endswith s suffix = true -> exists b, s = b ++ suffix.
Proof.
  unfold endswith. intros H. apply andb_true_iff in H as [_ H].
  apply String.eqb_eq in H.
  destruct (drop_split (String.length s - String.length suffix) s) as [b Hb].
  exists b. now rewrite <- H.
Qed.

Lemma append_assoc (s t u : string) : (s ++ t) ++ u = s ++ t ++ u.
Proof. induction s as [|c s IH]; simpl; [reflexivity | now rewrite IH]. Qed.

(** A path that ends with [.md] ends with [.excalidraw.md] once every
    [.md] in it is rewritten: the scan reaches the final [.md], which no
    earlier match overlaps. *)
Lemma replace_md_suffix :
  forall n b, String.length b <= n ->
    exists b',
      replace_scan ".md" ".excalidraw.md" 0 (b ++ ".md") = b' ++ ".excalidraw.md".
Proof.
  induction n as [|n IH]; intros b Hlen.
  - destruct b; [now exists "" | simpl in Hlen; lia].
  - destruct b as [|c b]; [now exists ""|].
    simpl in Hlen.
    change (String c b ++ ".md") with (String c (b ++ ".md")).
    rewrite PyFacts.replace_scan_step.
    destruct (String.prefix ".md" (String c (b ++ ".md"))) eqn:Hp.
    + destruct b as [|c1 [|c2 b2]].
      * simpl append in Hp. rewrite !PyFacts.prefix_cons in Hp.
        simpl in Hp. rewrite !andb_false_r in Hp. discriminate.
      * simpl append in Hp. rewrite !PyFacts.prefix_cons in Hp.
        simpl in Hp. rewrite !andb_false_r in Hp. discriminate.
      * simpl drop. simpl in Hlen.
        destruct (IH b2) as [b' Hb']; [lia|].
        exists (".excalidraw.md" ++ b').
        change (String c1 (String c2 b2) ++ ".md")
          with (String c1 (String c2 (b2 ++ ".md"))).
        simpl drop. rewrite Hb'. now rewrite append_assoc.
    + destruct (IH b) as [b' Hb']; [lia|].
      exists (String c b'). now rewrite Hb'.
Qed.

(** C10.  The path [run_tool] passes to [put_content] always ends with
    [.excalidraw.md]: a path that already does is passed unchanged, one
    that ends with [.md] has every [.md] in it rewritten to
    [.excalidraw.md], and any other path gets [.excalidraw.md]
    appended.  Whenever [run_tool] reaches [put_content], the path it
    passes is this function of the [filepath] argument. *)
Theorem save_path_ends_with_suffix :
  (forall filepath : string,
      endswith (Tools.save_path filepath) ".excalidraw.md" = true
      /\ Tools.save_path filepath =
         if endswith filepath ".excalidraw.md" then filepath
         else if endswith filepath ".md"
              then replace ".md" ".excalidraw.md" filepath
              else filepath ++ ".excalidraw.md")
  /\ (forall random_index repr_of args n path content n',
      Tools.run_tool random_index repr_of args n = Ok (path, content, n') ->
      exists filepath,
        lookup args "filepath" = Some (PStr filepath)
        /\ path = Tools.save_path filepath
        /\ endswith path ".excalidraw.md" = true).
Proof.
  assert (Hsuffix : forall filepath,
             endswith (Tools.save_path filepath) ".excalidraw.md" = true).
  { intros filepath. unfold Tools.save_path.
    destruct (endswith filepath ".excalidraw.md") eqn:E1; [exact E1|].
    simpl negb. cbv iota.
    destruct (endswith filepath ".md") eqn:E2.
    - apply endswith_split in E2 as [b ->].
      change (replace ".md" ".excalidraw.md" (b ++ ".md"))
        with (replace_scan ".md" ".excalidraw.md" 0 (b ++ ".md")).
      destruct (replace_md_suffix b (Nat.le_refl (String.length b))) as [b' ->].
      apply endswith_app.
    - apply endswith_app. }
  split.
  - intros filepath. split; [apply Hsuffix|].
    unfold Tools.save_path.
    destruct (endswith filepath ".excalidraw.md"); reflexivity.
  - intros random_index repr_of args n path content n' H.
    unfold Tools.run_tool in H.
    destruct (negb (dict_in args "filepath") || negb (dict_in args "elements")) eqn:Hin;
      [discriminate|].
    apply orb_false_iff in Hin as [Hin _]. apply negb_false_iff in Hin.
    unfold dict_in in Hin. unfold dict_get in H.
    destruct (lookup args "filepath") as [fp|] eqn:Hfp; [|discriminate].
    destruct fp as [| | | | filepath | |]; try discriminate.
    destruct (match lookup args "elements" with Some v => v | None => PNone end)
      as [| | | | | elements |]; try discriminate.
    destruct (match lookup args "frontmatter" with Some v => v | None => PDict [] end)
      as [| | | | | | frontmatter]; try discriminate.
    destruct (Tools.as_dicts elements) as [ds|]; [|discriminate].
    unfold bind in H.
    destruct (Tools._build_excalidraw_note _ _ _ _ _ _ _) as [[c m]|]; [|discriminate].
    unfold ret in H. injection H as <- _ _.
    exists filepath. split; [reflexivity|]. split; [reflexivity | apply Hsuffix].
Qed.

(** A request that saves an empty drawing to [notes/plan.md]. *)
Lemma save_path_ends_with_suffix_witness :
  exists filepath,
    lookup [("filepath", PStr "notes/plan.md"); ("elements", PList [])] "filepath"
    = Some (PStr filepath)
    /\ "notes/plan.excalidraw.md" = Tools.save_path filepath
    /\ endswith "notes/plan.excalidraw.md" ".excalidraw.md" = true.
Proof.
  apply (proj2 save_path_ends_with_suffix (fun i => i) (fun _ => "")
           [("filepath", PStr "notes/plan.md"); ("elements", PList [])]
           0 "notes/plan.excalidraw.md"
           (Tools.mkNote
              [("excalidraw-plugin", PStr "parsed");
               ("tags", PList [PStr "excalidraw"])]
              (PStr "") [] (PDict Tools.default_appState))
           0).
  reflexivity.
Defined.

Example save_path_rewrites_every_md :
  Tools.save_path "notes.md/plan.md" = "notes.excalidraw.md/plan.excalidraw.md".
Proof. reflexivity. Qed.

(* ===================================================================== *)
(** * ElementNormalizer *)
(* ===================================================================== *)

Lemma known_keys_filter (data : dict) :
  forallb Excalidraw.known (keys (dict_filter Excalidraw.known data)) = true.
Proof.
  unfold dict_filter, keys.
  induction data as [|[k v] data IH]; simpl; [reflexivity|].
  destruct (Excalidraw.known k) eqn:E; simpl; [now rewrite E | exact IH].
Qed.

(** [from_dict] succeeds exactly on the records that carry the six core
    fields, and then reads every declared field from the record or from
    its default and keeps the other items aside. *)
Lemma from_dict_cases (data : dict) :
  match lookup data "id", lookup data "type", lookup data "x",
        lookup data "y", lookup data "width", lookup data "height" with
  | Some i, Some t, Some x0, Some y0, Some w, Some h =>
      Excalidraw.from_dict data =
      Ok (Excalidraw.mkElement i t x0 y0 w h
            (dict_get data "angle" (PInt 0))
            (dict_get data "strokeColor" (PStr "#1e1e1e"))
            (dict_get data "backgroundColor" (PStr "transparent"))
            (dict_get data "fillStyle" (PStr "solid"))
            (dict_get data "strokeWidth" (PInt 2))
            (dict_get data "strokeStyle" (PStr "solid"))
            (dict_get data "roughness" (PInt 1))
            (dict_get data "opacity" (PInt 100))
            (dict_get data "groupIds" (PList []))
            (dict_get data "frameId" PNone)
            (dict_get data "roundness" PNone)
            (dict_get data "seed" (PInt 1))
            (dict_get data "version" (PInt 1))
            (dict_get data "versionNonce" (PInt 1))
            (dict_get data "isDeleted" (PBool false))
            (dict_get data "boundElements" (PList []))
            (dict_get data "updated" (PInt 1))
            (dict_get data "link" PNone)
            (dict_get data "locked" (PBool false))
            (dict_filter (fun k => negb (Excalidraw.known k)) data))
  | _, _, _, _, _, _ => Excalidraw.from_dict data = Raise TypeError
  end.
Proof.
  unfold Excalidraw.from_dict, Excalidraw.init.
  rewrite known_keys_filter. cbv [negb].
  unfold Excalidraw.required_arg, dict_get.
  rewrite !PyFacts.lookup_dict_filter.
  change (Excalidraw.known "id") with true.
  change (Excalidraw.known "type") with true.
  change (Excalidraw.known "x") with true.
  change (Excalidraw.known "y") with true.
  change (Excalidraw.known "width") with true.
  change (Excalidraw.known "height") with true.
  cbv iota.
  destruct (lookup data "id"); [|reflexivity].
  destruct (lookup data "type"); [|reflexivity].
  destruct (lookup data "x"); [|reflexivity].
  destruct (lookup data "y"); [|reflexivity].
  destruct (lookup data "width"); [|reflexivity].
  destruct (lookup data "height"); reflexivity.
Qed.

(** A declared field of an element is not shadowed by an extension
    field. *)
Lemma lookup_to_dict_known (e : Excalidraw.ExcalidrawElement) (k : string) :
  lookup (Excalidraw.extra_fields e) k = None ->
  lookup (Excalidraw.to_dict e) k = lookup (Excalidraw.to_dict_result e) k.
Proof. intros H. unfold Excalidraw.to_dict. now apply PyFacts.lookup_dict_update_absent. Qed.

Lemma lookup_unknown_filter (data : dict) (k : string) :
  Excalidraw.known k = true ->
  lookup (dict_filter (fun k => negb (Excalidraw.known k)) data) k = None.
Proof. intros H. now rewrite PyFacts.lookup_dict_filter, H. Qed.

(** What [to_dict] gives for the declared fields of a normalized
    record. *)
Lemma to_dict_from_dict_schema (data : dict) (e : Excalidraw.ExcalidrawElement) :
  Excalidraw.from_dict data = Ok e ->
  forallb (dict_in data) Excalidraw.core_fields = true
  /\ Excalidraw.extra_fields e = dict_filter (fun k => negb (Excalidraw.known k)) data
  /\ Forall (fun kd => lookup (Excalidraw.to_dict_result e) (fst kd)
                       = Some (dict_get data (fst kd) (snd kd)))
       (Tools.core_defaults ++ Excalidraw.field_defaults).
Proof.
  intros H. pose proof (from_dict_cases data) as C.
  unfold dict_in, Excalidraw.core_fields, forallb.
  destruct (lookup data "id") eqn:Hid;
    [|rewrite C in H; discriminate].
  destruct (lookup data "type") eqn:Htype;
    [|rewrite C in H; discriminate].
  destruct (lookup data "x") eqn:Hx;
    [|rewrite C in H; discriminate].
  destruct (lookup data "y") eqn:Hy;
    [|rewrite C in H; discriminate].
  destruct (lookup data "width") eqn:Hwidth;
    [|rewrite C in H; discriminate].
  destruct (lookup data "height") eqn:Hheight;
    [|rewrite C in H; discriminate].
  rewrite C in H. injection H as <-.
  split; [reflexivity|]. split; [reflexivity|].
  unfold Tools.core_defaults, Excalidraw.field_defaults, app.
  repeat (apply Forall_cons; [first [reflexivity | unfold dict_get; cbn [fst snd];
     first [rewrite Hid | rewrite Htype | rewrite Hx | rewrite Hy
           | rewrite Hwidth | rewrite Hheight]; reflexivity]|]).
  apply Forall_nil.
Qed.

Lemma from_dict_raises (data : dict) (err : exn) :
  Excalidraw.from_dict data = Raise err ->
  err = TypeError /\ forallb (dict_in data) Excalidraw.core_fields = false.
Proof.
  intros H. pose proof (from_dict_cases data) as C.
  unfold dict_in, Excalidraw.core_fields, forallb.
  destruct (lookup data "id");
    [|rewrite C in H; injection H as <-; now split].
  destruct (lookup data "type");
    [|rewrite C in H; injection H as <-; now split].
  destruct (lookup data "x");
    [|rewrite C in H; injection H as <-; now split].
  destruct (lookup data "y");
    [|rewrite C in H; injection H as <-; now split].
  destruct (lookup data "width");
    [|rewrite C in H; injection H as <-; now split].
  destruct (lookup data "height");
    [|rewrite C in H; injection H as <-; now split].
  rewrite C in H. discriminate.
Qed.

(** ** The records the handler emits *)

Lemma bind_lift {A B : Type} (r : result A) (k : A -> M B) (n : nat) :
  bind (lift r) k n =
  match r with
  | Ok a => k a n
  | Raise e => Raise e
  end.
Proof. unfold bind, lift. now destruct r. Qed.

Lemma bind_random_id {B : Type} (random_index : nat -> nat)
    (k : string -> M B) (n : nat) :
  bind (Tools.random_id random_index) k n
  = k (Excalidraw.choices random_index 8 n) (n + 8).
Proof. reflexivity. Qed.

(** One turn of the handler's loop appends the normalized record, or
    that record with the text fields, or that record bound to a new
    text element and the text element. *)
Lemma process_one_cases (random_index : nat -> nat) (element : dict)
    (n : nat) (ds : list dict) (m : nat) :
  Tools.process_one random_index element n = Ok (ds, m) ->
  let processed := Tools.type_specific element (Tools.processed_element element) in
  ds = [processed]
  \/ ds = [Tools.text_specific element processed]
  \/ exists text_id label_text font_size tx ty tw th,
       ds = [ dict_set processed "boundElements"
                (PList [PDict [("type", PStr "text"); ("id", PStr text_id)]]);
              Tools.text_element element (dict_get element "id" (PStr ""))
                text_id label_text font_size tx ty tw th ].
Proof.
  intros H processed. unfold Tools.process_one in H. fold processed in H.
  destruct (dict_in element "label" && truthy (dict_get element "label" PNone)).
  - rewrite bind_lift in H.
    destruct (Tools.replace_breaks _) as [label_text|]; [|discriminate].
    destruct (truthy label_text).
    + rewrite bind_random_id in H.
      repeat (rewrite bind_lift in H;
              match type of H with
              | match ?r with _ => _ end = _ => destruct r; [|discriminate]
              end).
      unfold ret in H. injection H as <- _.
      right. right. repeat eexists.
    + unfold ret in H. injection H as <- _. now left.
  - destruct (dict_in element "text"); unfold ret in H; injection H as <- _; auto.
Qed.

Lemma dict_set_keeps (names : list string) (d : dict) (k : string) (v : pyval) :
  forallb (dict_in d) names = true ->
  forallb (dict_in (dict_set d k v)) names = true.
Proof.
  rewrite !forallb_forall. intros H k' Hk'.
  rewrite PyFacts.dict_in_dict_set, (H _ Hk'). apply orb_true_r.
Qed.

Lemma type_specific_keeps (names : list string) (element d : dict) :
  forallb (dict_in d) names = true ->
  forallb (dict_in (Tools.type_specific element d)) names = true.
Proof.
  intros H. unfold Tools.type_specific.
  destruct (Tools.is_linear element); [|exact H].
  now repeat apply dict_set_keeps.
Qed.

Lemma text_specific_keeps (names : list string) (element d : dict) :
  forallb (dict_in d) names = true ->
  forallb (dict_in (Tools.text_specific element d)) names = true.
Proof.
  intros H. unfold Tools.text_specific. now repeat apply dict_set_keeps.
Qed.

(** Every record the handler emits has every schema field. *)
Lemma process_one_schema (random_index : nat -> nat) (element : dict)
    (n : nat) (ds : list dict) (m : nat) :
  Tools.process_one random_index element n = Ok (ds, m) ->
  Forall (fun d => forallb (dict_in d) Excalidraw.known_fields = true) ds.
Proof.
  intros H. apply process_one_cases in H.
  assert (Hp : forallb (dict_in (Tools.type_specific element
                                   (Tools.processed_element element)))
                 Excalidraw.known_fields = true)
    by (apply type_specific_keeps; reflexivity).
  destruct H as [-> | [-> | (text_id & lt & fs & tx & ty & tw & th & ->)]].
  - apply Forall_cons; [exact Hp | apply Forall_nil].
  - apply Forall_cons; [now apply text_specific_keeps | apply Forall_nil].
  - apply Forall_cons; [now apply dict_set_keeps|].
    apply Forall_cons; [reflexivity | apply Forall_nil].
Qed.

(** So has the dictionary of every [ExcalidrawElement]. *)
Lemma to_dict_schema (e : Excalidraw.ExcalidrawElement) :
  forallb (dict_in (Excalidraw.to_dict e)) Excalidraw.known_fields = true.
Proof.
  apply forallb_forall. intros k Hk. unfold Excalidraw.to_dict.
  rewrite PyFacts.dict_in_dict_update. apply orb_true_iff. left.
  revert k Hk. apply forallb_forall. reflexivity.
Qed.

(** C1, as the code has it.  The handler's normalization
    ([processed_element] of tools.py) never fails and gives every schema
    field the raw value when the record has one and otherwise its
    default: [""] for [id] and [type], [0] for [x], [y], [width] and
    [height], and the documented defaults for the other nineteen.
    [ExcalidrawElement.from_dict] gives the same nineteen defaults, and
    the raw values, whenever it returns an element; it returns one
    exactly when the record carries all six core fields, and raises
    [TypeError] on any other record.  No schema field is absent from a
    record the handler emits, the container and the text element of a
    label included, nor from the dictionary of an [ExcalidrawElement]. *)
Theorem normalization_fills_schema (data : dict) :
  Forall (fun kd => lookup (Tools.processed_element data) (fst kd)
                    = Some (dict_get data (fst kd) (snd kd)))
    (Tools.core_defaults ++ Excalidraw.field_defaults)
  /\ match Excalidraw.from_dict data with
     | Ok e =>
         forallb (dict_in data) Excalidraw.core_fields = true
         /\ Forall (fun kd => lookup (Excalidraw.to_dict e) (fst kd)
                              = Some (dict_get data (fst kd) (snd kd)))
              (Tools.core_defaults ++ Excalidraw.field_defaults)
     | Raise err =>
         err = TypeError
         /\ forallb (dict_in data) Excalidraw.core_fields = false
     end
  /\ (forall random_index n emitted m,
        Tools.process_one random_index data n = Ok (emitted, m) ->
        Forall (fun d => forallb (dict_in d) Excalidraw.known_fields = true) emitted)
  /\ (forall e : Excalidraw.ExcalidrawElement,
        forallb (dict_in (Excalidraw.to_dict e)) Excalidraw.known_fields = true).
Proof.
  split; [|split; [|split]].
  4: exact to_dict_schema.
  3: { intros random_index n emitted m H. exact (process_one_schema _ _ _ H). }
  - unfold Tools.core_defaults, Excalidraw.field_defaults, app.
    repeat (apply Forall_cons; [reflexivity|]). apply Forall_nil.
  - destruct (Excalidraw.from_dict data) as [e|err] eqn:H.
    + destruct (to_dict_from_dict_schema data H) as (Hcore & Hextra & Hall).
      split; [exact Hcore|].
      apply Forall_forall. intros [k dflt] Hin.
      rewrite Forall_forall in Hall. specialize (Hall _ Hin).
      cbn [fst snd] in *. rewrite <- Hall.
      apply lookup_to_dict_known. rewrite Hextra.
      apply lookup_unknown_filter.
      unfold Tools.core_defaults, Excalidraw.field_defaults, app in Hin.
      repeat (destruct Hin as [Hin|Hin];
              [injection Hin as <- _; reflexivity|]).
      destruct Hin.
    + now apply from_dict_raises.
Qed.

(** The labelled rectangle, through the handler: both records it
    emits have every schema field. *)
Lemma normalization_fills_schema_witness :
  Forall (fun d => forallb (dict_in d) Excalidraw.known_fields = true)
    [ dict_set (Tools.processed_element Examples.labelled_rectangle) "boundElements"
        (PList [PDict [("type", PStr "text"); ("id", PStr "ABCDEFGH")]]);
      Tools.text_element Examples.labelled_rectangle (PStr "r1") "ABCDEFGH"
        (PStr "Hi") (PInt 20) (PFloat 38) (PFloat 12.5) (PFloat 24) (PFloat 25) ].
Proof.
  apply (proj1 (proj2 (proj2 (normalization_fills_schema Examples.labelled_rectangle)))
           Examples.draws 0 _ 8).
  vm_compute. reflexivity.
Defined.

(** C1 as stated fails on [from_dict]: a record without its geometry
    is rejected instead of being given defaults. *)
Lemma from_dict_rejects_missing_geometry :
  Excalidraw.from_dict Examples.bare_rectangle = Raise TypeError.
Proof. reflexivity. Qed.

(** ** Extension fields *)


Lemma dict_in_mem (d : dict) (k : string) : dict_in d k = mem k (keys d).
Proof.
  unfold dict_in, mem, keys.
  induction d as [|[k0 v0] d IH]; simpl; [reflexivity|].
  rewrite (String.eqb_sym k k0).
  destruct (String.eqb k0 k); [reflexivity | exact IH].
Qed.


Lemma known_has_default (k : string) :
  Excalidraw.known k = true ->
  exists dflt, In (k, dflt) (Tools.core_defaults ++ Excalidraw.field_defaults).
Proof.
  intros H. unfold Excalidraw.known, mem in H.
  apply existsb_exists in H as (k' & Hin & Heq).
  apply String.eqb_eq in Heq. subst k'.
  change Excalidraw.known_fields
    with (map fst (Tools.core_defaults ++ Excalidraw.field_defaults)) in Hin.
  apply in_map_iff in Hin as ([k' dflt] & Hk & Hin). simpl in Hk. subst k'.
  now exists dflt.
Qed.




Lemma forallb_keys_lookup (p : string -> bool) (d : dict) (k : string) :
  forallb p (keys d) = true -> dict_in d k = true -> p k = true.
Proof.
  unfold dict_in, keys.
  induction d as [|[k0 v0] d IH]; simpl; [discriminate|].
  intros H Hin. apply andb_true_iff in H as [H0 H].
  destruct (String.eqb k0 k) eqn:E.
  - apply String.eqb_eq in E. now subst k0.
  - now apply IH.
Qed.



(** The constructor call of [_create_text_element_for_label]. *)
Lemma init_text_element (i t x0 y0 w h sc bg : pyval) (extra : dict) :
  Excalidraw.init
    [ ("id", i); ("type", t); ("x", x0); ("y", y0); ("width", w);
      ("height", h); ("strokeColor", sc); ("backgroundColor", bg) ] extra
  = Ok (Excalidraw.mkElement i t x0 y0 w h (PInt 0) sc bg
          (PStr "solid") (PInt 2) (PStr "solid") (PInt 1) (PInt 100)
          (PList []) PNone PNone (PInt 1) (PInt 1) (PInt 1) (PBool false)
          (PList []) (PInt 1) PNone (PBool false) extra).
Proof. reflexivity. Qed.

(** The extension fields of a synthesized text element are its ten
    text fields. *)
Lemma create_text_element_extra (random_index : nat -> nat)
    (container : Excalidraw.ExcalidrawElement) (text : pyval) (data : dict)
    (n : nat) (te : Excalidraw.ExcalidrawElement) (m : nat) :
  Excalidraw._create_text_element_for_label random_index container text data n
  = Ok (te, m) ->
  keys (Excalidraw.extra_fields te)
  = [ "text"; "fontSize"; "fontFamily"; "textAlign"; "verticalAlign";
      "baseline"; "containerId"; "originalText"; "autoResize"; "lineHeight" ].
Proof.
  intros H. unfold Excalidraw._create_text_element_for_label in H.
  unfold bind, Excalidraw.generate_id, lift in H.
  match type of H with
  | match ?r with _ => _ end = _ => destruct r as [te0|] eqn:E; [|discriminate]
  end.
  injection H as <- _.
  repeat match type of E with
         | rbind ?r _ = _ => destruct r; [cbn [rbind] in E | discriminate]
         end.
  rewrite init_text_element in E. injection E as <-. reflexivity.
Qed.

(** What [process_element] returns, when it returns: the normalized
    record alone, or the record bound to a text element and that
    element. *)
Lemma process_element_cases (random_index : nat -> nat) (repr_of : pyval -> string)
    (data : dict) (n : nat) (res : list Excalidraw.ExcalidrawElement) (m : nat) :
  Excalidraw.process_element random_index repr_of data n = Ok (res, m) ->
  exists e,
    Excalidraw.from_dict data = Ok e
    /\ (res = [e]
        \/ exists te,
             res = [Excalidraw.set_boundElements e (Excalidraw.bound_text te); te]
             /\ keys (Excalidraw.extra_fields te)
                = [ "text"; "fontSize"; "fontFamily"; "textAlign"; "verticalAlign";
                    "baseline"; "containerId"; "originalText"; "autoResize";
                    "lineHeight" ]).
Proof.
  intros H. unfold Excalidraw.process_element in H.
  rewrite bind_lift in H.
  destruct (Excalidraw.from_dict data) as [e|]; [|discriminate].
  exists e. split; [reflexivity|].
  destruct (dict_in data "label" && truthy (dict_get data "label" PNone)).
  - rewrite bind_lift in H.
    destruct (Excalidraw.sanitize_text _) as [label_text|]; [|discriminate].
    destruct (truthy label_text).
    + unfold bind in H.
      destruct (Excalidraw._create_text_element_for_label _ _ _ _ _)
        as [[te m']|] eqn:E; [|discriminate].
      unfold ret in H. injection H as <- _.
      right. exists te. split; [reflexivity|].
      exact (create_text_element_extra _ _ _ _ _ E).
    + unfold ret in H. injection H as <- _. now left.
  - unfold ret in H. injection H as <- _. now left.
Qed.



(* ===================================================================== *)
(** * Arrows and lines *)
(* ===================================================================== *)

(** C3, as the code has it.  For a raw element whose type is ["arrow"]
    or ["line"], the handler's normalization adds [points],
    [lastCommittedPoint], [startBinding], [endBinding], [startArrowhead]
    and [endArrowhead], each with the raw value when the record has one;
    otherwise [points] is [[[0,0],[w,h]]] with [w] the raw width (100
    when absent) and [h] the raw height (0 when absent), [endArrowhead]
    is ["arrow"] and the others are [None]; the record the handler then
    emits carries the six unchanged.  [ExcalidrawElement] adds none of
    the six: its dictionary has one exactly when the record has. *)
Theorem linear_elements_get_points (element : dict) :
  Tools.is_linear element = true ->
  let processed := Tools.type_specific element (Tools.processed_element element) in
  lookup processed "points"
  = Some (dict_get element "points"
            (PList [ PList [PInt 0; PInt 0];
                     PList [dict_get element "width" (PInt 100);
                            dict_get element "height" (PInt 0)] ]))
  /\ lookup processed "lastCommittedPoint"
     = Some (dict_get element "lastCommittedPoint" PNone)
  /\ lookup processed "startBinding" = Some (dict_get element "startBinding" PNone)
  /\ lookup processed "endBinding" = Some (dict_get element "endBinding" PNone)
  /\ lookup processed "startArrowhead"
     = Some (dict_get element "startArrowhead" PNone)
  /\ lookup processed "endArrowhead"
     = Some (dict_get element "endArrowhead" (PStr "arrow"))
  /\ (forall random_index n emitted m,
        Tools.process_one random_index element n = Ok (emitted, m) ->
        exists d rest,
          emitted = d :: rest
          /\ forall k,
               In k ["points"; "lastCommittedPoint"; "startBinding"; "endBinding";
                     "startArrowhead"; "endArrowhead"] ->
               lookup d k = lookup processed k)
  /\ (forall e k,
        Excalidraw.from_dict element = Ok e ->
        In k ["points"; "lastCommittedPoint"; "startBinding"; "endBinding";
              "startArrowhead"; "endArrowhead"] ->
        dict_in (Excalidraw.to_dict e) k = dict_in element k).
Proof.
  intros Hlin processed.
  assert (Hfields :
    lookup processed "points"
    = Some (dict_get element "points"
              (PList [ PList [PInt 0; PInt 0];
                       PList [dict_get element "width" (PInt 100);
                              dict_get element "height" (PInt 0)] ]))
    /\ lookup processed "lastCommittedPoint"
       = Some (dict_get element "lastCommittedPoint" PNone)
    /\ lookup processed "startBinding" = Some (dict_get element "startBinding" PNone)
    /\ lookup processed "endBinding" = Some (dict_get element "endBinding" PNone)
    /\ lookup processed "startArrowhead"
       = Some (dict_get element "startArrowhead" PNone)
    /\ lookup processed "endArrowhead"
       = Some (dict_get element "endArrowhead" (PStr "arrow"))).
  { subst processed. unfold Tools.type_specific. rewrite Hlin.
    repeat split; reflexivity. }
  destruct Hfields as (H1 & H2 & H3 & H4 & H5 & H6).
  repeat (split; [assumption|]).
  split.
  - intros random_index n emitted m H.
    apply process_one_cases in H. fold processed in H.
    destruct H as [-> | [-> | (text_id & lt & fs & tx & ty & tw & th & ->)]];
      eexists; eexists; (split; [reflexivity|]); intros k Hk.
    + reflexivity.
    + unfold Tools.text_specific. rewrite !PyFacts.lookup_dict_set.
      simpl in Hk.
      repeat (destruct Hk as [<-|Hk]; [reflexivity|]).
      destruct Hk.
    + rewrite PyFacts.lookup_dict_set.
      simpl in Hk.
      repeat (destruct Hk as [<-|Hk]; [reflexivity|]).
      destruct Hk.
  - intros e k He Hk.
    destruct (to_dict_from_dict_schema element He) as (_ & Hextra & _).
    unfold Excalidraw.to_dict.
    rewrite PyFacts.dict_in_dict_update, Hextra.
    unfold dict_in at 2. rewrite PyFacts.lookup_dict_filter.
    simpl in Hk.
    repeat (destruct Hk as [<-|Hk]; [reflexivity|]).
    destruct Hk.
Qed.

(** The arrow of the scenario: no [points], [width=100], [height=0]. *)
Lemma linear_elements_get_points_witness :
  Tools.is_linear Examples.flat_arrow = true
  /\ lookup (Tools.type_specific Examples.flat_arrow
               (Tools.processed_element Examples.flat_arrow)) "points"
     = Some (PList [PList [PInt 0; PInt 0]; PList [PInt 100; PInt 0]]).
Proof.
  split; [reflexivity|].
  exact (proj1 (@linear_elements_get_points Examples.flat_arrow eq_refl)).
Defined.

(** C3 as stated fails where the height is not zero: the default second
    point is [[width, height]], not [[width, 0]]. *)
Lemma default_points_follow_height :
  lookup Examples.slanted_arrow "points" = None
  /\ lookup Examples.slanted_arrow "width" = Some (PInt 100)
  /\ exists d,
       Tools.process_one Examples.draws Examples.slanted_arrow 0 = Ok ([d], 0)
       /\ lookup d "points"
          = Some (PList [PList [PInt 0; PInt 0]; PList [PInt 100; PInt 50]])
       /\ lookup d "points"
          <> Some (PList [PList [PInt 0; PInt 0]; PList [PInt 100; PInt 0]]).
Proof.
  split; [reflexivity|]. split; [reflexivity|].
  eexists. split; [reflexivity|]. split; [reflexivity|].
  discriminate.
Qed.

(* ===================================================================== *)
(** * Frontmatter *)
(* ===================================================================== *)

(** C4, as the code has it.  For every caller-supplied frontmatter the
    merged frontmatter has a [tags] key, in the handler and in the
    builder.  Each key holds the caller's value when the caller gives
    one and the default otherwise, so [tags] is the default list
    [["excalidraw"]] exactly when the caller gives no [tags], and is
    whatever the caller gave, the empty list included, when it does.
    With no frontmatter the defaults stand. *)
Theorem frontmatter_has_tags (fm : dict) :
  dict_wf fm = true ->
  let defaults := Excalidraw.frontmatter Excalidraw.new_builder in
  let merged k :=
    match lookup fm k with
    | Some v => Some v
    | None => lookup defaults k
    end in
  dict_in (Tools.final_frontmatter fm) "tags" = true
  /\ (forall k, lookup (Tools.final_frontmatter fm) k = merged k)
  /\ dict_in (Excalidraw.frontmatter
                (Excalidraw.with_frontmatter Excalidraw.new_builder fm)) "tags" = true
  /\ (forall k,
        lookup (Excalidraw.frontmatter
                  (Excalidraw.with_frontmatter Excalidraw.new_builder fm)) k
        = merged k)
  /\ lookup (Tools.final_frontmatter []) "tags" = Some (PList [PStr "excalidraw"])
  /\ lookup defaults "tags" = Some (PList [PStr "excalidraw"]).
Proof.
  intros Hwf defaults merged.
  assert (Htools : forall k, lookup (Tools.final_frontmatter fm) k = merged k).
  { intros k. unfold Tools.final_frontmatter, merged.
    rewrite (PyFacts.lookup_dict_update _ k Hwf).
    destruct (lookup fm k) eqn:Hk; [reflexivity|].
    unfold defaults, Excalidraw.new_builder.
    cbn [lookup Excalidraw.frontmatter].
    destruct (String.eqb "excalidraw-plugin" k); [reflexivity|].
    destruct (String.eqb "tags" k) eqn:Ht; [|reflexivity].
    apply String.eqb_eq in Ht. subst k.
    unfold dict_get. now rewrite Hk. }
  assert (Hin : dict_in (dict_update defaults fm) "tags" = true).
  { rewrite PyFacts.dict_in_dict_update. reflexivity. }
  assert (Hbuilder : Excalidraw.frontmatter
                       (Excalidraw.with_frontmatter Excalidraw.new_builder fm)
                     = dict_update defaults fm).
  { unfold Excalidraw.with_frontmatter. cbn [Excalidraw.frontmatter].
    fold defaults. now rewrite Hin. }
  split; [|split; [exact Htools|split; [|split; [|split]]]].
  - unfold dict_in. rewrite Htools. unfold merged.
    destruct (lookup fm "tags"); reflexivity.
  - now rewrite Hbuilder.
  - intros k. rewrite Hbuilder. unfold merged.
    now rewrite (PyFacts.lookup_dict_update _ k Hwf).
  - reflexivity.
  - reflexivity.
Qed.

(** A caller that adds an [author] and leaves the tags alone. *)
Lemma frontmatter_has_tags_witness :
  dict_wf [("author", PStr "me")] = true
  /\ lookup (Tools.final_frontmatter [("author", PStr "me")]) "tags"
     = Some (PList [PStr "excalidraw"]).
Proof.
  split; [reflexivity|].
  exact (proj1 (proj2 (@frontmatter_has_tags [("author", PStr "me")] eq_refl)) "tags").
Defined.

(** C4 as stated fails when the caller sets [tags] to the empty list:
    the caller's value wins and the emitted [tags] sequence is empty, in
    the handler and in the builder. *)
Lemma caller_can_empty_tags :
  lookup (Tools.final_frontmatter [("tags", PList [])]) "tags" = Some (PList [])
  /\ lookup (Excalidraw.frontmatter
               (Excalidraw.with_frontmatter Excalidraw.new_builder
                  [("tags", PList [])])) "tags" = Some (PList [])
  /\ truthy (PList []) = false.
Proof. repeat split. Qed.

(** The frontmatter block the builder then renders has a [tags:] line
    with no item under it. *)
Example empty_tags_rendered :
  Excalidraw._build_frontmatter Examples.plain_repr
    (Excalidraw.with_frontmatter Excalidraw.new_builder [("tags", PList [])])
  = "---" ++ LF ++ "excalidraw-plugin: parsed" ++ LF ++ "tags:" ++ LF ++ "---".
Proof. reflexivity. Qed.

(* ===================================================================== *)
(** * LabelExpander *)
(* ===================================================================== *)

(** ** The arithmetic of the text box *)

Lemma int_as_float_two : int_as_float 2 = Ok 2%float.
Proof. vm_compute. reflexivity. Qed.

Lemma mul_float_operand (v : pyval) (g : float) :
  Spec.float_operand v = true -> exists r, mul v (PFloat g) = Ok (PFloat r).
Proof.
  unfold Spec.float_operand, mul.
  destruct v as [| b | z | f | s | l | d]; simpl; try discriminate.
  - destruct (int_as_float (Z.b2z b)); [eexists; reflexivity | discriminate].
  - destruct (int_as_float z); [eexists; reflexivity | discriminate].
  - eexists; reflexivity.
Qed.

Lemma sub_float_operand (v : pyval) (g : float) :
  Spec.float_operand v = true -> exists r, sub v (PFloat g) = Ok (PFloat r).
Proof.
  unfold Spec.float_operand, sub.
  destruct v as [| b | z | f | s | l | d]; simpl; try discriminate.
  - destruct (int_as_float (Z.b2z b)); [eexists; reflexivity | discriminate].
  - destruct (int_as_float z); [eexists; reflexivity | discriminate].
  - eexists; reflexivity.
Qed.

Lemma add_float_operand (v : pyval) (g : float) :
  Spec.float_operand v = true -> exists r, add v (PFloat g) = Ok (PFloat r).
Proof.
  unfold Spec.float_operand, add.
  destruct v as [| b | z | f | s | l | d]; simpl; try discriminate.
  - destruct (int_as_float (Z.b2z b)); [eexists; reflexivity | discriminate].
  - destruct (int_as_float z); [eexists; reflexivity | discriminate].
  - eexists; reflexivity.
Qed.

Lemma halve_float (d : float) :
  truediv (PFloat d) (PInt 2) = Ok (PFloat (PrimFloat.div d 2%float)).
Proof. unfold truediv. simpl as_number. cbv iota. now rewrite int_as_float_two. Qed.

(** Where the geometry is defined, the text element is built: it takes
    the next eight draws as its id, the container's stroke colour and
    id, and four floats as its box. *)
Lemma create_text_element_defined (random_index : nat -> nat)
    (container : Excalidraw.ExcalidrawElement) (text : string) (data : dict) (n : nat) :
  Spec.label_geometry_defined container text data = true ->
  exists tx ty tw th,
    Excalidraw._create_text_element_for_label random_index container (PStr text) data n
    = Ok (Excalidraw.mkElement
            (PStr (Excalidraw.choices random_index 8 n)) (PStr "text")
            (PFloat tx) (PFloat ty) (PFloat tw) (PFloat th)
            (PInt 0) (Excalidraw.strokeColor container) (PStr "transparent")
            (PStr "solid") (PInt 2) (PStr "solid") (PInt 1) (PInt 100)
            (PList []) PNone PNone (PInt 1) (PInt 1) (PInt 1) (PBool false)
            (PList []) (PInt 1) PNone (PBool false)
            [ ("text", PStr text);
              ("fontSize", dict_get data "fontSize" (PInt 20));
              ("fontFamily", dict_get data "fontFamily" (PInt 1));
              ("textAlign", PStr "center");
              ("verticalAlign", PStr "middle");
              ("baseline", PInt 18);
              ("containerId", Excalidraw.id container);
              ("originalText", PStr text);
              ("autoResize", PBool true);
              ("lineHeight", PFloat 1.25) ],
          n + 8).
Proof.
  unfold Spec.label_geometry_defined. intros H.
  apply andb_true_iff in H as [H Hchars].
  apply andb_true_iff in H as [H Hfont].
  apply andb_true_iff in H as [H Hheight].
  apply andb_true_iff in H as [H Hwidth].
  apply andb_true_iff in H as [Hx Hy].
  destruct (mul (PInt (Z.of_nat (String.length text)))
              (dict_get data "fontSize" (PInt 20))) as [chars|] eqn:Echars;
    [|discriminate].
  destruct (mul_float_operand chars 0.6 Hchars) as [tw Etw].
  destruct (mul_float_operand _ 1.25 Hfont) as [th Eth].
  destruct (sub_float_operand _ tw Hwidth) as [dx Edx].
  destruct (add_float_operand _ (PrimFloat.div dx 2) Hx) as [tx Etx].
  destruct (sub_float_operand _ th Hheight) as [dy Edy].
  destruct (add_float_operand _ (PrimFloat.div dy 2) Hy) as [ty Ety].
  exists tx, ty, tw, th.
  unfold Excalidraw._create_text_element_for_label, bind, lift,
    Excalidraw.generate_id.
  cbn [len rbind]. rewrite Echars. cbn [rbind]. rewrite Etw. cbn [rbind].
  rewrite Eth. cbn [rbind]. rewrite Edx. cbn [rbind].
  rewrite halve_float. cbn [rbind]. rewrite Etx. cbn [rbind].
  rewrite Edy. cbn [rbind]. rewrite halve_float. cbn [rbind].
  rewrite Ety. cbn [rbind].
  reflexivity.
Qed.

(** ** The three ways through [process_element] *)

Section ProcessElement.

Variable random_index : nat -> nat.
Variable repr_of : pyval -> string.

Let process_element := Excalidraw.process_element random_index repr_of.
Let extract := Excalidraw._extract_label_text repr_of.

Lemma process_element_unlabelled (data : dict) (e : Excalidraw.ExcalidrawElement)
    (n : nat) :
  Excalidraw.from_dict data = Ok e ->
  truthy (dict_get data "label" PNone) = false ->
  process_element data n = Ok ([e], n).
Proof.
  intros He Hl. unfold process_element, Excalidraw.process_element, bind, lift.
  rewrite He, Hl, andb_false_r. reflexivity.
Qed.

Lemma process_element_empty_text (data : dict) (e : Excalidraw.ExcalidrawElement)
    (t : pyval) (n : nat) :
  Excalidraw.from_dict data = Ok e ->
  Excalidraw.sanitize_text (extract (dict_get data "label" PNone)) = Ok t ->
  truthy t = false ->
  process_element data n = Ok ([e], n).
Proof.
  intros He Ht Hf. unfold process_element, Excalidraw.process_element, bind, lift.
  rewrite He.
  destruct (dict_in data "label" && truthy (dict_get data "label" PNone));
    [|reflexivity].
  unfold extract in Ht. rewrite Ht, Hf. reflexivity.
Qed.

Lemma process_element_labelled (data : dict) (e te : Excalidraw.ExcalidrawElement)
    (t : pyval) (n n' : nat) :
  Excalidraw.from_dict data = Ok e ->
  dict_in data "label" = true ->
  truthy (dict_get data "label" PNone) = true ->
  Excalidraw.sanitize_text (extract (dict_get data "label" PNone)) = Ok t ->
  truthy t = true ->
  Excalidraw._create_text_element_for_label random_index e t data n = Ok (te, n') ->
  process_element data n
  = Ok ([Excalidraw.set_boundElements e (Excalidraw.bound_text te); te], n').
Proof.
  intros He Hin Hl Ht Htrue Hte.
  unfold process_element, Excalidraw.process_element, bind, lift.
  rewrite He, Hin, Hl. cbn [andb].
  unfold extract in Ht. rewrite Ht, Htrue, Hte. reflexivity.
Qed.

(** A label that is not truthy has no text. *)
Lemma extract_falsy (label : pyval) :
  truthy label = false ->
  Excalidraw.sanitize_text (extract label) = Ok (PStr "").
Proof.
  intros H. unfold extract, Excalidraw._extract_label_text.
  destruct label as [| b | z | f | s | l | [|kv d]];
    try (rewrite H; reflexivity); [reflexivity | discriminate].
Qed.

End ProcessElement.

Lemma lookup_dict_update_congr (other : dict) (k : string) :
  forall d d', lookup d k = lookup d' k ->
    lookup (dict_update d other) k = lookup (dict_update d' other) k.
Proof.
  unfold dict_update.
  induction other as [|[k0 v0] other IH]; intros d d' H; simpl; [exact H|].
  apply IH. rewrite !PyFacts.lookup_dict_set. now rewrite H.
Qed.

(** C6.  For a container, that is a raw record [from_dict] accepts,
    whose label yields a non-empty sanitized text and whose geometry is
    numeric, [process_element] returns exactly two elements: the
    container first and right after it one text element.  The text
    element has a freshly drawn id, type ["text"], the label text, and
    the container's id as its [containerId].  The container's
    [boundElements] is exactly the one-entry list
    [[{type: "text", id: <id of the text element>}]], whatever list it
    had before, and no other field of the container differs from the
    normalized record.  In the list the builder assembles the two stand
    next to each other, ahead of what the later records produce. *)
Theorem label_expansion_binds_text
    (random_index : nat -> nat) (repr_of : pyval -> string)
    (data : dict) (container : Excalidraw.ExcalidrawElement)
    (label : pyval) (text : string) (n : nat) :
  Excalidraw.from_dict data = Ok container ->
  lookup data "label" = Some label ->
  Excalidraw.sanitize_text (Excalidraw._extract_label_text repr_of label)
  = Ok (PStr text) ->
  truthy (PStr text) = true ->
  Spec.label_geometry_defined container text data = true ->
  exists text_element container',
    Excalidraw.process_element random_index repr_of data n
    = Ok ([container'; text_element], n + 8)
    /\ Excalidraw.id text_element = PStr (Excalidraw.choices random_index 8 n)
    /\ Excalidraw.type text_element = PStr "text"
    /\ lookup (Excalidraw.extra_fields text_element) "text" = Some (PStr text)
    /\ lookup (Excalidraw.extra_fields text_element) "containerId"
       = Some (Excalidraw.id container)
    /\ Excalidraw.boundElements container'
       = PList [PDict [("type", PStr "text"); ("id", Excalidraw.id text_element)]]
    /\ container'
       = Excalidraw.set_boundElements container (Excalidraw.boundElements container')
    /\ (forall k, k <> "boundElements" ->
          lookup (Excalidraw.to_dict container') k
          = lookup (Excalidraw.to_dict container) k)
    /\ lookup (Excalidraw.to_dict container') "boundElements"
       = Some (Excalidraw.boundElements container')
    /\ (forall rest others m,
          Excalidraw.process_all random_index repr_of rest (n + 8) = Ok (others, m) ->
          Excalidraw.process_all random_index repr_of (data :: rest) n
          = Ok (container' :: text_element :: others, m)).
Proof.
  intros He Hlabel Htext Hne Hgeom.
  assert (Hget : dict_get data "label" PNone = label)
    by (unfold dict_get; now rewrite Hlabel).
  assert (Hin : dict_in data "label" = true)
    by (unfold dict_in; now rewrite Hlabel).
  assert (Htruthy : truthy label = true).
  { destruct (truthy label) eqn:E; [reflexivity|].
    rewrite (extract_falsy repr_of label E) in Htext.
    injection Htext as <-. discriminate. }
  destruct (create_text_element_defined random_index container text data n Hgeom)
    as (tx & ty & tw & th & Hte).
  assert (Hrun :
    Excalidraw.process_element random_index repr_of data n
    = Ok ([Excalidraw.set_boundElements container
             (Excalidraw.bound_text
                (Excalidraw.mkElement
                   (PStr (Excalidraw.choices random_index 8 n)) (PStr "text")
                   (PFloat tx) (PFloat ty) (PFloat tw) (PFloat th)
                   (PInt 0) (Excalidraw.strokeColor container) (PStr "transparent")
                   (PStr "solid") (PInt 2) (PStr "solid") (PInt 1) (PInt 100)
                   (PList []) PNone PNone (PInt 1) (PInt 1) (PInt 1) (PBool false)
                   (PList []) (PInt 1) PNone (PBool false)
                   [ ("text", PStr text);
                     ("fontSize", dict_get data "fontSize" (PInt 20));
                     ("fontFamily", dict_get data "fontFamily" (PInt 1));
                     ("textAlign", PStr "center");
                     ("verticalAlign", PStr "middle");
                     ("baseline", PInt 18);
                     ("containerId", Excalidraw.id container);
                     ("originalText", PStr text);
                     ("autoResize", PBool true);
                     ("lineHeight", PFloat 1.25) ]));
           Excalidraw.mkElement
             (PStr (Excalidraw.choices random_index 8 n)) (PStr "text")
             (PFloat tx) (PFloat ty) (PFloat tw) (PFloat th)
             (PInt 0) (Excalidraw.strokeColor container) (PStr "transparent")
             (PStr "solid") (PInt 2) (PStr "solid") (PInt 1) (PInt 100)
             (PList []) PNone PNone (PInt 1) (PInt 1) (PInt 1) (PBool false)
             (PList []) (PInt 1) PNone (PBool false)
             [ ("text", PStr text);
               ("fontSize", dict_get data "fontSize" (PInt 20));
               ("fontFamily", dict_get data "fontFamily" (PInt 1));
               ("textAlign", PStr "center");
               ("verticalAlign", PStr "middle");
               ("baseline", PInt 18);
               ("containerId", Excalidraw.id container);
               ("originalText", PStr text);
               ("autoResize", PBool true);
               ("lineHeight", PFloat 1.25) ]], n + 8)).
  { eapply process_element_labelled with (t := PStr text);
      [ exact He | exact Hin | rewrite Hget; exact Htruthy
      | rewrite Hget; exact Htext | exact Hne | exact Hte ]. }
  eexists. eexists. split; [exact Hrun|].
  cbn [Excalidraw.id Excalidraw.type Excalidraw.extra_fields
       Excalidraw.boundElements Excalidraw.set_boundElements Excalidraw.bound_text].
  repeat (split; [reflexivity|]).
  split; [|split].
  - intros k Hk. unfold Excalidraw.to_dict.
    cbn [Excalidraw.extra_fields Excalidraw.set_boundElements].
    apply lookup_dict_update_congr.
    unfold Excalidraw.to_dict_result.
    cbn [Excalidraw.id Excalidraw.type Excalidraw.x Excalidraw.y Excalidraw.width
         Excalidraw.height Excalidraw.angle Excalidraw.strokeColor
         Excalidraw.backgroundColor Excalidraw.fillStyle Excalidraw.strokeWidth
         Excalidraw.strokeStyle Excalidraw.roughness Excalidraw.opacity
         Excalidraw.groupIds Excalidraw.frameId Excalidraw.roundness
         Excalidraw.seed Excalidraw.version Excalidraw.versionNonce
         Excalidraw.isDeleted Excalidraw.boundElements Excalidraw.updated
         Excalidraw.link Excalidraw.locked Excalidraw.set_boundElements lookup].
    destruct (String.eqb "boundElements" k) eqn:E;
      [apply String.eqb_eq in E; congruence|].
    reflexivity.
  - destruct (to_dict_from_dict_schema data He) as (_ & Hextra & _).
    rewrite lookup_to_dict_known; [reflexivity|].
    cbn [Excalidraw.extra_fields Excalidraw.set_boundElements].
    rewrite Hextra. now apply lookup_unknown_filter.
  - intros rest others m Hrest.
    cbn [Excalidraw.process_all]. unfold bind at 1. rewrite Hrun.
    unfold bind at 1. rewrite Hrest. reflexivity.
Qed.

(** A rectangle that already had a bound arrow, labelled with a mapping
    whose text has a line break. *)
Lemma label_expansion_binds_text_witness :
  exists text_element container',
    Excalidraw.process_element Examples.draws Examples.plain_repr
      Examples.bound_rectangle 0
    = Ok ([container'; text_element], 8)
    /\ Excalidraw.id text_element = PStr "ABCDEFGH"
    /\ lookup (Excalidraw.extra_fields text_element) "text"
       = Some (PStr ("one" ++ LF ++ "two"))
    /\ lookup (Excalidraw.extra_fields text_element) "containerId" = Some (PStr "r2")
    /\ Excalidraw.boundElements container'
       = PList [PDict [("type", PStr "text"); ("id", PStr "ABCDEFGH")]].
Proof.
  destruct (@label_expansion_binds_text Examples.draws Examples.plain_repr
              Examples.bound_rectangle _ _ ("one" ++ LF ++ "two") 0
              eq_refl eq_refl eq_refl eq_refl eq_refl)
    as (te & c & Hrun & Hid & _ & Htext & Hcid & Hbound & _).
  exists te, c. rewrite Hid in Hbound.
  repeat split; assumption.
Defined.

(** A rectangle without a label goes through unchanged. *)
Example unlabelled_is_unchanged :
  exists e,
    Excalidraw.from_dict Examples.custom_rectangle = Ok e
    /\ Excalidraw.process_element Examples.draws Examples.plain_repr
         Examples.custom_rectangle 0 = Ok ([e], 0).
Proof. eexists. split; reflexivity. Qed.

(** C8, as the code has it.  The label text is the [text] field of a
    mapping label and the label itself when it is a plain string.  A
    label that is absent or falsy ([None], [False], [0], an empty
    string, list or mapping) produces no text element and the container
    is returned unchanged, in the builder and in the handler.  In
    [ExcalidrawElementProcessor] every other truthy label, such as a
    number, is turned into text with [str] and expanded like a string
    label. *)
Theorem label_text_extraction (random_index : nat -> nat) (repr_of : pyval -> string) :
  (forall d : dict,
      Excalidraw._extract_label_text repr_of (PDict d) = dict_get d "text" (PStr "")
      /\ Tools.label_text_of (PDict d) = dict_get d "text" (PStr ""))
  /\ (forall s : string,
      Excalidraw._extract_label_text repr_of (PStr s) = PStr s
      /\ Tools.label_text_of (PStr s) = PStr s)
  /\ (forall label : pyval,
      truthy label = true ->
      match label with
      | PDict _ => True
      | _ => Excalidraw._extract_label_text repr_of label = PStr (str repr_of label)
      end)
  /\ (forall data e n,
      Excalidraw.from_dict data = Ok e ->
      truthy (dict_get data "label" PNone) = false ->
      Excalidraw.process_element random_index repr_of data n = Ok ([e], n))
  /\ (forall element n,
      truthy (dict_get element "label" PNone) = false ->
      Tools.process_one random_index element n
      = Ok ([ if dict_in element "text"
              then Tools.text_specific element
                     (Tools.type_specific element (Tools.processed_element element))
              else Tools.type_specific element (Tools.processed_element element) ],
            n)).
Proof.
  split; [|split; [|split; [|split]]].
  - intros d. split; reflexivity.
  - intros s. split; [|reflexivity].
    destruct s; reflexivity.
  - intros label H. unfold Excalidraw._extract_label_text.
    destruct label; try (rewrite H; reflexivity). exact I.
  - intros data e n He Hl.
    exact (process_element_unlabelled random_index repr_of data n He Hl).
  - intros element n Hl. unfold Tools.process_one.
    rewrite Hl, andb_false_r.
    destruct (dict_in element "text"); reflexivity.
Qed.

(** A label that is [None]. *)
Lemma label_text_extraction_witness :
  exists e,
    Excalidraw.from_dict Examples.null_label_rectangle = Ok e
    /\ Excalidraw.process_element Examples.draws Examples.plain_repr
         Examples.null_label_rectangle 0 = Ok ([e], 0).
Proof.
  eexists. split; [reflexivity|].
  apply (proj1 (proj2 (proj2 (proj2
           (label_text_extraction Examples.draws Examples.plain_repr))))).
  - reflexivity.
  - reflexivity.
Defined.

(** C8 as stated fails on a label that is a number: the builder does
    not skip it but expands it, with the number's decimal text. *)
Lemma numeric_label_is_expanded :
  lookup Examples.numbered_rectangle "label" = Some (PInt 5)
  /\ exists container text_element,
       Excalidraw.process_element Examples.draws Examples.plain_repr
         Examples.numbered_rectangle 0 = Ok ([container; text_element], 8)
       /\ lookup (Excalidraw.extra_fields text_element) "text" = Some (PStr "5")
       /\ Excalidraw.boundElements container
          = PList [PDict [("type", PStr "text"); ("id", PStr "ABCDEFGH")]].
Proof.
  split; [reflexivity|].
  eexists. eexists.
  split; [vm_compute; reflexivity|]. split; reflexivity.
Qed.

(** The handler, on the same record, stops at [label_text.replace]. *)
Example handler_numeric_label_raises :
  Tools.process_one Examples.draws Examples.numbered_rectangle 0
  = Raise AttributeError.
Proof. reflexivity. Qed.

(* ===================================================================== *)
(** * TextIndexExtractor *)
(* ===================================================================== *)

Section TextIndex.

Variable random_index : nat -> nat.
Variable repr_of : pyval -> string.

Let index_line := Excalidraw.index_line random_index repr_of.
Let index_lines := Spec.index_lines random_index.

Lemma index_line_falsy (v : pyval) (n : nat) :
  truthy v = false -> index_line v n = Ok ([], n).
Proof.
  intros H. unfold index_line, Excalidraw.index_line. now rewrite H.
Qed.

Lemma index_line_str (s : string) (n : nat) :
  index_line (PStr s) n
  = Ok (index_lines (if Spec.nonblank s then [s] else []) n,
        n + 8 * List.length (if Spec.nonblank s then [s] else [])).
Proof.
  unfold index_line, Excalidraw.index_line.
  destruct s as [|c s].
  - cbn. now rewrite Nat.add_0_r.
  - cbn [truthy String.eqb negb method_strip lift bind].
    change (negb (String.eqb (strip (String c s)) "")) with (Spec.nonblank (String c s)).
    destruct (Spec.nonblank (String c s)); cbn.
    + reflexivity.
    + now rewrite Nat.add_0_r.
Qed.

(** A text-valued content gives its line, or none when it is blank. *)
Lemma index_line_text (v : pyval) (n : nat) :
  Spec.is_text v = true ->
  index_line v n
  = Ok (index_lines match v with
                    | PStr s => if Spec.nonblank s then [s] else []
                    | _ => []
                    end n,
        n + 8 * List.length match v with
                            | PStr s => if Spec.nonblank s then [s] else []
                            | _ => []
                            end).
Proof.
  intros H. destruct v as [| b | z | f | s | l | d];
    try (rewrite index_line_falsy;
         [cbn; now rewrite Nat.add_0_r | now apply negb_true_iff in H]).
  apply index_line_str.
Qed.

(** The content the loop reads is the content of the element. *)
Lemma content_of_text_content (element : dict) :
  Spec.is_text (Excalidraw._get_text_content element) = true ->
  match Excalidraw._get_text_content element with
  | PStr s => if Spec.nonblank s then [s] else []
  | _ => []
  end
  = match Spec.content_of element with
    | Some c => if Spec.nonblank c then [c] else []
    | None => []
    end.
Proof.
  unfold Spec.content_of, Excalidraw._get_text_content, dict_in, dict_get.
  assert (Hlab :
    forall label : option pyval,
      let v := if match label with Some _ => true | None => false end
               then match match label with Some v => v | None => PNone end with
                    | PDict label =>
                        match lookup label "text" with Some v => v | None => PStr "" end
                    | PStr label => PStr label
                    | _ => PNone
                    end
               else PNone in
      Spec.is_text v = true ->
      match v with
      | PStr s => if Spec.nonblank s then [s] else []
      | _ => []
      end
      = match match label with
              | Some (PDict label) =>
                  match lookup label "text" with
                  | Some (PStr t) => Some t
                  | _ => None
                  end
              | Some (PStr t) => Some t
              | _ => None
              end with
        | Some c => if Spec.nonblank c then [c] else []
        | None => []
        end).
  { intros [[| b | z | f | s | l | label]|]; cbn; try reflexivity.
    destruct (lookup label "text") as [[| b | z | f | s | l | d]|]; reflexivity. }
  specialize (Hlab (lookup element "label")). cbv zeta in Hlab.
  destruct (lookup element "text") as [v|]; cbn [andb]; [|exact Hlab].
  destruct (truthy v) eqn:T.
  - destruct v as [| b | z | f | [|c s] | l | d];
      try (intros H; cbn [Spec.is_text] in H; rewrite T in H; discriminate).
    + discriminate.
    + reflexivity.
  - destruct v as [| b | z | f | [|c s] | l | d]; try exact Hlab.
    discriminate.
Qed.

(** One element: the lines of its content. *)
Lemma index_line_content (element : dict) (n : nat) :
  Spec.is_text (Excalidraw._get_text_content element) = true ->
  let contents :=
    match Spec.content_of element with
    | Some c => if Spec.nonblank c then [c] else []
    | None => []
    end in
  index_line (Excalidraw._get_text_content element) n
  = Ok (index_lines contents n, n + 8 * List.length contents).
Proof.
  intros H contents. subst contents.
  rewrite <- (content_of_text_content element H).
  now apply index_line_text.
Qed.

Lemma index_lines_app (cs cs' : list string) :
  forall n,
    index_lines (cs ++ cs') n
    = (index_lines cs n ++ index_lines cs' (n + 8 * List.length cs))%list.
Proof.
  induction cs as [|c cs IH]; intros n.
  - cbn [app List.length]. now rewrite Nat.mul_0_r, Nat.add_0_r.
  - unfold index_lines in *. cbn [app Spec.index_lines List.length].
    rewrite IH.
    replace (n + 8 + 8 * List.length cs) with (n + 8 * S (List.length cs)) by lia.
    reflexivity.
Qed.

Lemma index_lines_length (cs : list string) :
  forall n, List.length (index_lines cs n) = List.length cs.
Proof.
  induction cs as [|c cs IH]; intros n; simpl; [reflexivity|].
  unfold index_lines in *. simpl. now rewrite IH.
Qed.

(** The whole list. *)
Lemma extract_texts_lines (elements : list dict) :
  Forall (fun element =>
            Spec.is_text (Excalidraw._get_text_content element) = true) elements ->
  forall n,
    Excalidraw.extract_texts random_index repr_of elements n
    = Ok (index_lines (Spec.indexed_contents elements) n,
          n + 8 * List.length (Spec.indexed_contents elements)).
Proof.
  induction 1 as [|element rest Htyped _ IH]; intros n.
  - cbn. now rewrite Nat.add_0_r.
  - cbn [Excalidraw.extract_texts]. unfold bind at 1.
    pose proof (index_line_content element n Htyped) as Hline.
    cbv zeta in Hline. unfold index_line in Hline. rewrite Hline.
    unfold bind at 1. rewrite IH. unfold ret.
    unfold Spec.indexed_contents. cbn [flat_map].
    fold (Spec.indexed_contents rest).
    rewrite index_lines_app, List.length_app.
    unfold index_lines.
    replace (n + 8 * List.length
                   match Spec.content_of element with
                   | Some c => if Spec.nonblank c then [c] else []
                   | None => []
                   end + 8 * List.length (Spec.indexed_contents rest))
      with (n + 8 * (List.length
                   match Spec.content_of element with
                   | Some c => if Spec.nonblank c then [c] else []
                   | None => []
                   end + List.length (Spec.indexed_contents rest))) by lia.
    reflexivity.
Qed.

(** The handler's inline loop is the same extraction. *)
Lemma text_content_of_same (element : dict) :
  Tools.text_content_of element = Excalidraw._get_text_content element.
Proof.
  unfold Tools.text_content_of, Excalidraw._get_text_content, dict_in, dict_get.
  destruct (match lookup element "text" with Some _ => true | None => false end
            && truthy match lookup element "text" with Some v => v | None => PNone end);
    [reflexivity|].
  destruct (lookup element "label") as [[| | | | | |]|]; reflexivity.
Qed.

Lemma extracted_texts_same (elements : list dict) :
  forall n,
    Tools.extracted_texts random_index repr_of elements n
    = Excalidraw.extract_texts random_index repr_of elements n.
Proof.
  induction elements as [|element rest IH]; intros n; [reflexivity|].
  cbn [Tools.extracted_texts Excalidraw.extract_texts].
  rewrite text_content_of_same.
  change (Tools.extracted_line random_index repr_of)
    with (Excalidraw.index_line random_index repr_of).
  unfold bind at 1 3.
  destruct (Excalidraw.index_line random_index repr_of _ n) as [[line m]|];
    [|reflexivity].
  unfold bind. now rewrite IH.
Qed.

End TextIndex.

Lemma index_lines_nth (random_index : nat -> nat) (contents : list string) :
  forall n i c,
    nth_error contents i = Some c ->
    nth_error (Spec.index_lines random_index contents n) i
    = Some (c ++ " ^" ++ Excalidraw.choices random_index 8 (n + 8 * i)).
Proof.
  induction contents as [|c0 cs IH]; intros n i c H.
  - destruct i; discriminate.
  - destruct i as [|i]; cbn [nth_error Spec.index_lines] in *.
    + injection H as <-. now rewrite Nat.mul_0_r, Nat.add_0_r.
    + rewrite (IH _ _ _ H).
      replace (n + 8 + 8 * i) with (n + 8 * S i) by lia. reflexivity.
Qed.

(** C9.  For every list of elements whose text content is text (a
    string, or nothing that counts), the extraction returns one line
    per element whose content (the direct [text] field if it has one,
    else the label: a mapping's [text] field or a label string itself)
    is non-empty after trimming.  The lines follow the order of the
    elements, equal contents each keep their line, and the [i]-th line
    is its content as it stands, [" ^"] and the block id made of the
    eight draws that follow the ids of the lines before it.  The index
    section is the lines joined by a blank line: this is what
    [auto_extract_text_elements] stores as the builder's text section,
    leaving the builder's other fields alone, and what the handler
    writes as the text section of its note when the caller supplies
    none.  The handler's inline loop returns the same lines. *)
Theorem text_index_extraction
    (random_index : nat -> nat) (repr_of : pyval -> string)
    (elements : list dict) (n : nat) :
  Forall (fun element =>
            Spec.is_text (Excalidraw._get_text_content element) = true) elements ->
  let contents := Spec.indexed_contents elements in
  let lines := Spec.index_lines random_index contents n in
  Excalidraw.extract_texts random_index repr_of elements n
  = Ok (lines, n + 8 * List.length contents)
  /\ Tools.extracted_texts random_index repr_of elements n
     = Ok (lines, n + 8 * List.length contents)
  /\ (forall builder,
        Excalidraw.auto_extract_text_elements random_index repr_of builder elements n
        = Ok ({| Excalidraw.elements := Excalidraw.elements builder;
                 Excalidraw.app_state := Excalidraw.app_state builder;
                 Excalidraw.frontmatter := Excalidraw.frontmatter builder;
                 Excalidraw.text_elements := String.concat (LF ++ LF) lines |},
              n + 8 * List.length contents))
  /\ (forall (appState : pyval) (frontmatter : dict) (text_elements : pyval),
        truthy text_elements = false ->
        Tools._build_excalidraw_note random_index repr_of elements
          appState frontmatter text_elements n
        = match Tools.process_elements random_index elements
                  (n + 8 * List.length contents) with
          | Ok (processed, m) =>
              Ok ({| Tools.note_frontmatter := Tools.final_frontmatter frontmatter;
                     Tools.note_text_elements :=
                       PStr (String.concat (LF ++ LF) lines);
                     Tools.note_elements := processed;
                     Tools.note_appState :=
                       match appState with
                       | PNone => PDict Tools.default_appState
                       | _ => appState
                       end |}, m)
          | Raise err => Raise err
          end)
  /\ List.length lines = List.length contents
  /\ (forall i c,
        nth_error contents i = Some c ->
        nth_error lines i
        = Some (c ++ " ^" ++ Excalidraw.choices random_index 8 (n + 8 * i))).
Proof.
  intros Htyped contents lines.
  pose proof (extract_texts_lines random_index repr_of Htyped n) as Hrun.
  fold contents in Hrun. fold lines in Hrun.
  split; [exact Hrun|]. split; [|split; [|split; [|split]]].
  - now rewrite extracted_texts_same.
  - intros builder. unfold Excalidraw.auto_extract_text_elements, bind.
    now rewrite Hrun.
  - intros appState frontmatter text_elements Ht.
    unfold Tools._build_excalidraw_note. rewrite Ht. cbn [negb].
    unfold bind, ret. rewrite extracted_texts_same, Hrun.
    destruct (Tools.process_elements random_index elements
                (n + 8 * List.length contents)) as [[processed m]|]; reflexivity.
  - apply index_lines_length.
  - apply index_lines_nth.
Qed.

(** Six elements: the blank text gives no line and the padded label
    keeps its padding.  The builder's text section and the text section
    of the handler's note are the five lines with a blank line between
    them. *)
Lemma text_index_extraction_witness :
  Excalidraw.extract_texts Examples.draws Examples.plain_repr
    Examples.indexed_elements 0
  = Ok ([ "Hi ^ABCDEFGH"; "Note ^IJKLMNOP"; "one<br>two ^QRSTUVWX";
          "  padded  ^YZabcdef"; "Hi ^ghijklmn" ], 40)
  /\ (exists builder,
        Excalidraw.auto_extract_text_elements Examples.draws Examples.plain_repr
          Excalidraw.new_builder Examples.indexed_elements 0 = Ok (builder, 40)
        /\ Excalidraw.text_elements builder
           = "Hi ^ABCDEFGH" ++ LF ++ LF ++ "Note ^IJKLMNOP" ++ LF ++ LF
             ++ "one<br>two ^QRSTUVWX" ++ LF ++ LF ++ "  padded  ^YZabcdef"
             ++ LF ++ LF ++ "Hi ^ghijklmn")
  /\ (exists content m,
        Tools._build_excalidraw_note Examples.draws Examples.plain_repr
          Examples.indexed_elements PNone [] (PStr "") 0 = Ok (content, m)
        /\ Tools.note_text_elements content
           = PStr ("Hi ^ABCDEFGH" ++ LF ++ LF ++ "Note ^IJKLMNOP" ++ LF ++ LF
                   ++ "one<br>two ^QRSTUVWX" ++ LF ++ LF ++ "  padded  ^YZabcdef"
                   ++ LF ++ LF ++ "Hi ^ghijklmn")).
Proof.
  assert (H : Forall (fun element =>
                        Spec.is_text (Excalidraw._get_text_content element) = true)
                Examples.indexed_elements)
    by (repeat (apply Forall_cons; [reflexivity|]); apply Forall_nil).
  destruct (@text_index_extraction Examples.draws Examples.plain_repr
              Examples.indexed_elements 0 H)
    as (Hrun & _ & Hauto & Hnote & _ & _).
  split; [exact Hrun|]. split.
  - eexists. split; [exact (Hauto Excalidraw.new_builder) | reflexivity].
  - specialize (Hnote PNone [] (PStr "") eq_refl).
    eexists. eexists. split.
    + rewrite Hnote. vm_compute. reflexivity.
    + reflexivity.
Defined.

(* ===================================================================== *)
(** * The scenario of the labelled rectangle *)
(* ===================================================================== *)

(** The rectangle [r1] of 100 by 50 at the origin, labelled ["Hi"], with
    the default font size 20: the text box is 24 wide and 25 high and
    sits at (38, 12.5), so that both boxes have their centre at
    (50, 25). *)
Example labelled_rectangle_text_box :
  exists container text_element,
    Excalidraw.process_element Examples.draws Examples.plain_repr
      Examples.labelled_rectangle 0 = Ok ([container; text_element], 8)
    /\ Excalidraw.x text_element = PFloat 38
    /\ Excalidraw.y text_element = PFloat 12.5
    /\ Excalidraw.width text_element = PFloat 24
    /\ Excalidraw.height text_element = PFloat 25
    /\ lookup (Excalidraw.extra_fields text_element) "containerId" = Some (PStr "r1").
Proof.
  eexists. eexists. split; [vm_compute; reflexivity|].
  repeat split.
Qed.

(* ===================================================================== *)
(** * Further properties: identifiers *)
(* ===================================================================== *)

Lemma choice_alphanumeric (random_index : nat -> nat) (i : nat) :
  Spec.alphanumeric (Excalidraw.choice random_index i) = true.
Proof.
  unfold Excalidraw.choice.
  assert (H : forall k c,
             String.get k Excalidraw.alphabet = Some c ->
             Spec.alphanumeric c = true).
  { assert (A : Spec.all_chars Spec.alphanumeric Excalidraw.alphabet = true)
      by reflexivity.
    revert A. generalize Excalidraw.alphabet.
    intros s. induction s as [|c0 s IH]; intros A k c Hget.
    - destruct k; discriminate.
    - simpl in A. apply andb_true_iff in A as [A0 A].
      destruct k as [|k]; simpl in Hget.
      + now injection Hget as <-.
      + exact (IH A _ _ Hget). }
  destruct (String.get _ Excalidraw.alphabet) as [c|] eqn:E.
  - exact (H _ _ E).
  - reflexivity.
Qed.

(** X1.  [generate_id] returns a string of exactly the requested length
    whose characters are all ASCII letters or digits, and uses up as
    many random draws as the length; the eight-character ids the handler
    makes inline are of the same kind. *)
Theorem generate_id_alphanumeric (random_index : nat -> nat) (length n : nat) :
  exists id,
    Excalidraw.generate_id random_index length n = Ok (id, n + length)
    /\ String.length id = length
    /\ Spec.all_chars Spec.alphanumeric id = true
    /\ (length = 8 -> Tools.random_id random_index n = Ok (id, n + 8)).
Proof.
  exists (Excalidraw.choices random_index length n).
  split; [reflexivity|].
  assert (H : forall k m,
             String.length (Excalidraw.choices random_index k m) = k
             /\ Spec.all_chars Spec.alphanumeric
                  (Excalidraw.choices random_index k m) = true).
  { induction k as [|k IH]; intros m; simpl; [now split|].
    destruct (IH (S m)) as [Hl Ha].
    rewrite Hl, Ha, choice_alphanumeric. now split. }
  destruct (H length n) as [Hl Ha].
  repeat split; try assumption.
  intros ->. reflexivity.
Qed.

Lemma generate_id_alphanumeric_witness :
  exists id,
    Excalidraw.generate_id Examples.draws 8 0 = Ok (id, 8)
    /\ Tools.random_id Examples.draws 0 = Ok (id, 8).
Proof.
  destruct (generate_id_alphanumeric Examples.draws 8 0) as (id & H & _ & _ & H8).
  exists id. split; [exact H | exact (H8 eq_refl)].
Defined.

(* ===================================================================== *)
(** * Further properties: the sanitizer *)
(* ===================================================================== *)

(** X2.  Sanitized text holds none of the three line-break tags: for
    every string, what [sanitize_text] (and the handler's inline
    replacement) returns contains no [<br>], no [<br/>] and no
    [<br />], also where removing one tag brings the pieces of another
    together. *)
Theorem sanitized_has_no_break_tag (x : string) :
  exists y,
    Excalidraw.sanitize_text (PStr x) = Ok (PStr y)
    /\ Tools.replace_breaks (PStr x) = Ok (PStr y)
    /\ contains "<br>" y = false
    /\ contains "<br/>" y = false
    /\ contains "<br />" y = false.
Proof.
  eexists. split; [apply sanitize_text_str|].
  split; [apply replace_breaks_str|].
  apply sanitized_tag_free.
Qed.

(** X3.  Text in which none of the three tags occurs comes back from
    the sanitizer unchanged. *)
Theorem sanitize_text_keeps_clean_text (x : string) :
  contains "<br>" x = false ->
  contains "<br/>" x = false ->
  contains "<br />" x = false ->
  Excalidraw.sanitize_text (PStr x) = Ok (PStr x)
  /\ Tools.replace_breaks (PStr x) = Ok (PStr x).
Proof.
  intros H1 H2 H3.
  assert (H : replace "<br />" LF (replace "<br/>" LF (replace "<br>" LF x)) = x).
  { change (replace "<br>" LF x) with (replace_scan "<br>" LF 0 x).
    rewrite (PyFacts.replace_scan_absent _ _ _ H1).
    change (replace "<br/>" LF x) with (replace_scan "<br/>" LF 0 x).
    rewrite (PyFacts.replace_scan_absent _ _ _ H2).
    change (replace "<br />" LF x) with (replace_scan "<br />" LF 0 x).
    apply (PyFacts.replace_scan_absent _ _ _ H3). }
  rewrite sanitize_text_str, replace_breaks_str, H. now split.
Qed.

Lemma sanitize_text_keeps_clean_text_witness :
  Excalidraw.sanitize_text (PStr "a < b, br > c") = Ok (PStr "a < b, br > c")
  /\ Tools.replace_breaks (PStr "a < b, br > c") = Ok (PStr "a < b, br > c").
Proof.
  apply sanitize_text_keeps_clean_text; reflexivity.
Defined.

(** A replacement no longer than the pattern does not lengthen the
    text. *)
Lemma replace_scan_length (old new : string) :
  String.length new <= String.length old ->
  forall n s, String.length s <= n ->
    String.length (replace_scan old new 0 s) <= String.length s.
Proof.
  intros Hlen. induction n as [|n IH]; intros s Hs.
  - destruct s; [simpl; lia | simpl in Hs; lia].
  - destruct s as [|c s]; [simpl; lia|].
    simpl in Hs. rewrite PyFacts.replace_scan_step.
    destruct (String.prefix old (String c s)) eqn:Hp.
    + rewrite length_app.
      assert (Hpre : String.length old <= String.length (String c s)).
      { clear -Hp. revert Hp. generalize (String c s). intros t. revert t.
        induction old as [|a o IHo]; intros t Hp; [simpl; lia|].
        destruct t as [|b t]; [discriminate|].
        rewrite PyFacts.prefix_cons in Hp. apply andb_true_iff in Hp as [_ Hp].
        specialize (IHo _ Hp). simpl. lia. }
      assert (Hdrop : forall k t, k <= String.length t ->
                String.length (drop k t) = String.length t - k).
      { clear. induction k as [|k IHk]; intros [|b t] Hk; simpl in *; try lia.
        apply IHk. lia. }
      pose proof (PyFacts.length_drop_le (String.length old - 1) s) as Hd.
      specialize (IH (drop (String.length old - 1) s)).
      assert (Hle : String.length (drop (String.length old - 1) s) <= n) by lia.
      specialize (IH Hle).
      simpl in Hpre.
      rewrite Hdrop in IH by lia.
      simpl. lia.
    + simpl. specialize (IH s). lia.
Qed.

(** X4.  Sanitizing never lengthens a text: each tag gives way to a
    single line feed. *)
Theorem sanitize_text_not_longer (x : string) :
  exists y,
    Excalidraw.sanitize_text (PStr x) = Ok (PStr y)
    /\ String.length y <= String.length x.
Proof.
  eexists. split; [apply sanitize_text_str|].
  assert (L : forall old s, String.length LF <= String.length old ->
                old <> "" ->
                String.length (replace old LF s) <= String.length s).
  { intros old s Hl Hne. destruct old as [|a o]; [contradiction|].
    apply (@replace_scan_length (String a o) LF Hl (String.length s)). lia. }
  assert (Hne1 : "<br>" <> "") by discriminate.
  assert (Hne2 : "<br/>" <> "") by discriminate.
  assert (Hne3 : "<br />" <> "") by discriminate.
  assert (H14 : String.length LF <= String.length "<br>") by (simpl; lia).
  assert (H15 : String.length LF <= String.length "<br/>") by (simpl; lia).
  assert (H16 : String.length LF <= String.length "<br />") by (simpl; lia).
  pose proof (L "<br>" x H14 Hne1) as M1.
  pose proof (L "<br/>" (replace "<br>" LF x) H15 Hne2) as M2.
  pose proof (L "<br />" (replace "<br/>" LF (replace "<br>" LF x)) H16 Hne3) as M3.
  lia.
Qed.

(* ===================================================================== *)
(** * Further properties: the order of the frontmatter *)
(* ===================================================================== *)

Lemma keys_dict_set (d : dict) (k : string) (v : pyval) :
  keys (dict_set d k v) = if dict_in d k then keys d else (keys d ++ [k])%list.
Proof.
  unfold keys, dict_in.
  induction d as [|[k0 v0] d IH]; simpl; [reflexivity|].
  destruct (String.eqb k0 k) eqn:E; simpl; [reflexivity|].
  rewrite IH. now destruct (lookup d k).
Qed.

(** An update keeps the keys it finds where they are and puts the new
    ones behind them, in the order of the update. *)
Lemma keys_dict_update (other : dict) :
  dict_wf other = true ->
  forall d,
    keys (dict_update d other)
    = (keys d ++ filter (fun k => negb (dict_in d k)) (keys other))%list.
Proof.
  unfold dict_update.
  induction other as [|[k0 v0] other IH]; intros Hwf d; simpl.
  - now rewrite app_nil_r.
  - simpl in Hwf. apply andb_true_iff in Hwf as [Hk0 Hwf].
    apply negb_true_iff in Hk0.
    rewrite (IH Hwf), keys_dict_set.
    assert (Hfilter :
      filter (fun k => negb (dict_in (dict_set d k0 v0) k)) (keys other)
      = filter (fun k => negb (dict_in d k)) (keys other)).
    { apply filter_ext_in. intros k Hk.
      rewrite PyFacts.dict_in_dict_set.
      destruct (String.eqb k0 k) eqn:E; [|reflexivity].
      apply String.eqb_eq in E. subst k0.
      rewrite dict_in_mem in Hk0. unfold mem in Hk0.
      assert (existsb (String.eqb k) (keys other) = true).
      { apply existsb_exists. exists k. split; [exact Hk | apply String.eqb_refl]. }
      congruence. }
    rewrite Hfilter.
    destruct (dict_in d k0); simpl; [reflexivity|].
    now rewrite <- app_assoc.
Qed.

(** X5.  The merged frontmatter always lists [excalidraw-plugin] first
    and [tags] second, also when the caller overrides them, and after
    them the caller's other keys in the caller's order; the handler and
    the builder agree on this. *)
Theorem frontmatter_key_order (fm : dict) :
  dict_wf fm = true ->
  let others :=
    filter (fun k => negb (String.eqb "excalidraw-plugin" k || String.eqb "tags" k))
      (keys fm) in
  keys (Tools.final_frontmatter fm)
  = ("excalidraw-plugin" :: "tags" :: others)%list
  /\ keys (Excalidraw.frontmatter
             (Excalidraw.with_frontmatter Excalidraw.new_builder fm))
     = ("excalidraw-plugin" :: "tags" :: others)%list.
Proof.
  intros Hwf others.
  assert (Hf : forall v,
    filter (fun k => negb (dict_in [("excalidraw-plugin", PStr "parsed"); ("tags", v)] k))
      (keys fm) = others).
  { intros v. apply filter_ext. intros k. unfold dict_in. cbn [lookup].
    destruct (String.eqb "excalidraw-plugin" k); [reflexivity|].
    destruct (String.eqb "tags" k); reflexivity. }
  split.
  - unfold Tools.final_frontmatter.
    rewrite (keys_dict_update fm Hwf), Hf. reflexivity.
  - unfold Excalidraw.with_frontmatter.
    cbn [Excalidraw.frontmatter Excalidraw.new_builder].
    rewrite PyFacts.dict_in_dict_update. cbn [negb orb dict_in lookup String.eqb].
    change (dict_in [("excalidraw-plugin", PStr "parsed");
                     ("tags", PList [PStr "excalidraw"])] "tags") with true.
    cbn [orb negb].
    rewrite (keys_dict_update fm Hwf), Hf. reflexivity.
Qed.

(** A caller that puts an author before its own tags. *)
Lemma frontmatter_key_order_witness :
  keys (Tools.final_frontmatter
          [("author", PStr "me"); ("tags", PList [PStr "plan"]); ("draft", PBool true)])
  = ["excalidraw-plugin"; "tags"; "author"; "draft"].
Proof.
  exact (proj1 (@frontmatter_key_order
                  [("author", PStr "me"); ("tags", PList [PStr "plan"]);
                   ("draft", PBool true)] eq_refl)).
Defined.

(* ===================================================================== *)
(** * Further properties: the path written to *)
(* ===================================================================== *)

Lemma save_path_suffix (filepath : string) :
  endswith (Tools.save_path filepath) ".excalidraw.md" = true.
Proof.
  unfold Tools.save_path.
  destruct (endswith filepath ".excalidraw.md") eqn:E1; [exact E1|].
  simpl negb. cbv iota.
  destruct (endswith filepath ".md") eqn:E2.
  - apply endswith_split in E2 as [b ->].
    change (replace ".md" ".excalidraw.md" (b ++ ".md"))
      with (replace_scan ".md" ".excalidraw.md" 0 (b ++ ".md")).
    destruct (replace_md_suffix b (Nat.le_refl (String.length b))) as [b' ->].
    apply endswith_app.
  - apply endswith_app.
Qed.

(** X6.  The path rule is idempotent: a path it has produced is left as
    it is, so saving to the reported path again writes the same file. *)
Theorem save_path_idempotent (filepath : string) :
  Tools.save_path (Tools.save_path filepath) = Tools.save_path filepath.
Proof.
  unfold Tools.save_path at 1. now rewrite save_path_suffix.
Qed.

(* ===================================================================== *)
(** * Further properties: the guards of the other handlers *)
(* ===================================================================== *)

Lemma among_spec (v : pyval) (names : list string) :
  Handlers.among v names = true <-> exists s, v = PStr s /\ In s names.
Proof.
  unfold Handlers.among. rewrite existsb_exists. split.
  - intros (s & Hin & Heq). destruct v; try discriminate.
    simpl in Heq. apply String.eqb_eq in Heq. subst. eauto.
  - intros (s & -> & Hin). exists s. split; [exact Hin|].
    simpl. apply String.eqb_refl.
Qed.

(** X7.  [obsidian_delete_file] reaches [delete_file] exactly when the
    request has a [filepath] and a truthy [confirm], and then deletes
    that path; without [confirm], or with a falsy one, it raises
    [RuntimeError] and deletes nothing. *)
Theorem delete_requires_confirmation (args : dict) (c : Handlers.api_call) :
  Handlers.delete_run_tool args = Handlers.Calls c
  <-> exists filepath,
        lookup args "filepath" = Some filepath
        /\ truthy (dict_get args "confirm" (PBool false)) = true
        /\ c = Handlers.delete_file filepath.
Proof.
  unfold Handlers.delete_run_tool, dict_in, dict_get. split.
  - destruct (lookup args "filepath") as [p|]; [|discriminate].
    cbn [negb].
    destruct (truthy _) eqn:E; [|cbn [negb]; discriminate].
    intros H. injection H as <-. now exists p.
  - intros (p & Hp & Hc & ->). rewrite Hp. cbn [negb].
    unfold dict_get in Hc. now rewrite Hc.
Qed.

Lemma delete_requires_confirmation_witness :
  Handlers.delete_run_tool [("filepath", PStr "old.md"); ("confirm", PBool true)]
  = Handlers.Calls (Handlers.delete_file (PStr "old.md")).
Proof.
  apply (proj2 (delete_requires_confirmation
                  [("filepath", PStr "old.md"); ("confirm", PBool true)]
                  (Handlers.delete_file (PStr "old.md")))).
  exists (PStr "old.md"). repeat split.
Defined.

(** X8.  [obsidian_get_periodic_note] reaches the client exactly when
    [period] is one of the five period names and [type], ["content"]
    when absent, is ["content"] or ["metadata"]; the client is never
    asked for anything else. *)
Theorem periodic_note_validates (repr_of : pyval -> string) (args : dict)
    (c : Handlers.api_call) :
  Handlers.periodic_run_tool repr_of args = Handlers.Calls c
  <-> exists period type,
        c = Handlers.get_periodic_note (PStr period) (PStr type)
        /\ lookup args "period" = Some (PStr period)
        /\ In period Handlers.valid_periods
        /\ In type Handlers.valid_types
        /\ (lookup args "type" = Some (PStr type)
            \/ (lookup args "type" = None /\ type = "content")).
Proof.
  unfold Handlers.periodic_run_tool, dict_in, dict_get. cbv zeta. split.
  - destruct (lookup args "period") as [p|]; [|discriminate].
    cbn [negb].
    destruct (Handlers.among p Handlers.valid_periods) eqn:Ep; [|cbn [negb]; discriminate].
    apply among_spec in Ep as (period & -> & Hperiod).
    cbn [negb].
    destruct (lookup args "type") as [t|].
    + destruct (Handlers.among t Handlers.valid_types) eqn:Et; [|cbn [negb]; discriminate].
      apply among_spec in Et as (type & -> & Htype).
      intros H. injection H as <-. exists period, type. repeat split; auto.
    + simpl. intros H. injection H as <-.
      exists period, "content". repeat split; simpl; auto.
  - intros (period & type & -> & Hp & Hperiod & Htype & Ht).
    rewrite Hp. cbn [negb].
    assert (Ep : Handlers.among (PStr period) Handlers.valid_periods = true)
      by (apply among_spec; eauto).
    rewrite Ep. cbn [negb].
    destruct Ht as [Ht | [Ht ->]]; rewrite Ht.
    + assert (Et : Handlers.among (PStr type) Handlers.valid_types = true)
        by (apply among_spec; eauto).
      now rewrite Et.
    + reflexivity.
Qed.

Lemma periodic_note_validates_witness :
  Handlers.periodic_run_tool Examples.plain_repr [("period", PStr "weekly")]
  = Handlers.Calls (Handlers.get_periodic_note (PStr "weekly") (PStr "content")).
Proof.
  apply (proj2 (periodic_note_validates Examples.plain_repr
                  [("period", PStr "weekly")]
                  (Handlers.get_periodic_note (PStr "weekly") (PStr "content")))).
  exists "weekly", "content". repeat split; simpl; auto.
Defined.

(** X9.  [obsidian_get_recent_periodic_notes] reaches the client
    exactly when [period] is one of the five period names, [limit] (5
    when absent) is an integer of at least 1 or [True], and
    [include_content] ([False] when absent) is a boolean.  No upper
    bound is put on [limit]: the maximum of 50 of the input schema is
    not checked. *)
Theorem recent_periodic_notes_validates (repr_of : pyval -> string) (args : dict)
    (c : Handlers.api_call) :
  Handlers.recent_periodic_run_tool repr_of args = Handlers.Calls c
  <-> exists period limit include_content,
        c = Handlers.get_recent_periodic_notes (PStr period) limit
              (PBool include_content)
        /\ lookup args "period" = Some (PStr period)
        /\ In period Handlers.valid_periods
        /\ limit = dict_get args "limit" (PInt 5)
        /\ ((exists z, limit = PInt z /\ (1 <= z)%Z) \/ limit = PBool true)
        /\ PBool include_content = dict_get args "include_content" (PBool false).
Proof.
  unfold Handlers.recent_periodic_run_tool, dict_in. cbv zeta. split.
  - destruct (lookup args "period") as [p|] eqn:Hp; [|discriminate].
    assert (Hg : dict_get args "period" PNone = p)
      by (unfold dict_get; now rewrite Hp).
    rewrite Hg. cbn [negb].
    destruct (Handlers.among p Handlers.valid_periods) eqn:Ep; [|cbn [negb]; discriminate].
    apply among_spec in Ep as (period & -> & Hperiod).
    cbn [negb].
    destruct (dict_get args "limit" (PInt 5)) as [| b | z | f | s | l | d] eqn:El;
      cbn [Handlers.is_int negb orb]; try discriminate.
    + destruct b; simpl (Handlers.below_one _); cbv iota; [|discriminate].
      destruct (dict_get args "include_content" (PBool false))
        as [| b | | | | |] eqn:Ei; cbn [Handlers.is_bool negb]; try discriminate.
      intros H. injection H as <-.
      exists period, (PBool true), b. repeat split; auto.
    + cbn [Handlers.below_one].
      destruct (Z.ltb z 1) eqn:Ez; [discriminate|].
      apply Z.ltb_ge in Ez.
      destruct (dict_get args "include_content" (PBool false))
        as [| b | | | | |] eqn:Ei; cbn [Handlers.is_bool negb]; try discriminate.
      intros H. injection H as <-.
      exists period, (PInt z), b. repeat split; auto.
      left. exists z. now split.
  - intros (period & limit & inc & -> & Hp & Hperiod & Hl & Hlimit & Hi).
    assert (Hg : dict_get args "period" PNone = PStr period)
      by (unfold dict_get; now rewrite Hp).
    rewrite Hp, Hg. cbn [negb].
    assert (Ep : Handlers.among (PStr period) Handlers.valid_periods = true)
      by (apply among_spec; eauto).
    rewrite Ep. cbn [negb].
    rewrite <- Hl, <- Hi.
    destruct Hlimit as [(z & -> & Hz) | ->];
      cbn [Handlers.is_int Handlers.is_bool Handlers.below_one negb orb].
    + apply Z.ltb_ge in Hz. now rewrite Hz.
    + reflexivity.
Qed.

(** A request for a thousand notes goes through. *)
Lemma recent_periodic_notes_validates_witness :
  Handlers.recent_periodic_run_tool Examples.plain_repr
    [("period", PStr "daily"); ("limit", PInt 1000)]
  = Handlers.Calls
      (Handlers.get_recent_periodic_notes (PStr "daily") (PInt 1000) (PBool false)).
Proof.
  apply (proj2 (recent_periodic_notes_validates Examples.plain_repr
                  [("period", PStr "daily"); ("limit", PInt 1000)]
                  (Handlers.get_recent_periodic_notes (PStr "daily") (PInt 1000)
                     (PBool false)))).
  exists "daily", (PInt 1000), false.
  repeat split; simpl; auto.
  left. exists 1000%Z. split; [reflexivity | lia].
Defined.

(** X10.  [obsidian_patch_content] reaches [patch_content] exactly when
    the request has all five of [filepath], [operation], [target_type],
    [target] and [content], and then passes the caller's five values in
    that order; the empty-string defaults of its [args.get] calls are
    never what is sent. *)
Theorem patch_requires_all_arguments (args : dict) (c : Handlers.api_call) :
  Handlers.patch_run_tool args = Handlers.Calls c
  <-> exists filepath operation target_type target content,
        lookup args "filepath" = Some filepath
        /\ lookup args "operation" = Some operation
        /\ lookup args "target_type" = Some target_type
        /\ lookup args "target" = Some target
        /\ lookup args "content" = Some content
        /\ c = Handlers.patch_content filepath operation target_type target content.
Proof.
  unfold Handlers.patch_run_tool, forallb, dict_in, dict_get. split.
  - destruct (lookup args "filepath") as [f|]; [|discriminate].
    destruct (lookup args "operation") as [o|]; [|discriminate].
    destruct (lookup args "target_type") as [tt|]; [|discriminate].
    destruct (lookup args "target") as [t|]; [|discriminate].
    destruct (lookup args "content") as [ct|]; [|discriminate].
    intros H. injection H as <-. exists f, o, tt, t, ct. now repeat split.
  - intros (f & o & tt & t & ct & -> & -> & -> & -> & -> & ->). reflexivity.
Qed.

Lemma patch_requires_all_arguments_witness :
  Handlers.patch_run_tool
    [ ("filepath", PStr "a.md"); ("operation", PStr "append");
      ("target_type", PStr "heading"); ("target", PStr "Log");
      ("content", PStr "done") ]
  = Handlers.Calls
      (Handlers.patch_content (PStr "a.md") (PStr "append") (PStr "heading")
         (PStr "Log") (PStr "done")).
Proof.
  apply (proj2 (patch_requires_all_arguments _ _)).
  exists (PStr "a.md"), (PStr "append"), (PStr "heading"), (PStr "Log"), (PStr "done").
  now repeat split.
Defined.

(* ===================================================================== *)
(** * Further properties: the search results *)
(* ===================================================================== *)

Lemma for_each_inv (f : pyval -> result pyval) (items : list pyval) :
  forall out, Handlers.for_each f items = Ok out ->
    Forall2 (fun item o => f item = Ok o) items out.
Proof.
  induction items as [|item rest IH]; intros out H; simpl in H.
  - injection H as <-. constructor.
  - destruct (f item) as [o|] eqn:E; [|discriminate]. cbn [rbind] in H.
    destruct (Handlers.for_each f rest) as [others|]; [|discriminate].
    cbn [rbind] in H. injection H as <-.
    constructor; [exact E | now apply IH].
Qed.

Lemma format_match_inv (m o : pyval) :
  Handlers.format_match m = Ok o ->
  exists d pos,
    m = PDict d
    /\ dict_get d "match" (PDict []) = PDict pos
    /\ o = PDict [ ("context", dict_get d "context" (PStr ""));
                   ("match_position",
                      PDict [ ("start", dict_get pos "start" (PInt 0));
                              ("end", dict_get pos "end" (PInt 0)) ]) ].
Proof.
  unfold Handlers.format_match. intros H.
  destruct m as [| | | | | | d]; try discriminate.
  cbn [Handlers.method_get rbind] in H.
  destruct (dict_get d "match" (PDict [])) as [| | | | | | pos] eqn:E;
    try discriminate.
  cbn [Handlers.method_get rbind] in H. injection H as <-.
  now exists d, pos.
Qed.

(** X11.  Whenever the formatting of search results returns, it returns
    one entry per result, in order, each with exactly the three fields
    [filename], [score] and [matches] (taken from the result, with
    [""], [0] and no matches as defaults), and under [matches] one
    entry per match, in order, each with exactly [context] and a
    [match_position] of [start] and [end]; any other field the client
    returned is left out. *)
Theorem search_results_shape (results : pyval) (out : list pyval) :
  Handlers.format_results results = Ok out ->
  exists items,
    Handlers.iterate results = Ok items
    /\ Forall2
         (fun r o =>
            exists d ms formatted,
              r = PDict d
              /\ Handlers.iterate (dict_get d "matches" (PList [])) = Ok ms
              /\ o = PDict [ ("filename", dict_get d "filename" (PStr ""));
                             ("score", dict_get d "score" (PInt 0));
                             ("matches", PList formatted) ]
              /\ Forall2
                   (fun m fm =>
                      exists md pos,
                        m = PDict md
                        /\ dict_get md "match" (PDict []) = PDict pos
                        /\ fm = PDict
                             [ ("context", dict_get md "context" (PStr ""));
                               ("match_position",
                                  PDict [ ("start", dict_get pos "start" (PInt 0));
                                          ("end", dict_get pos "end" (PInt 0)) ]) ])
                   ms formatted)
         items out.
Proof.
  unfold Handlers.format_results. intros H.
  destruct (Handlers.iterate results) as [items|]; [|discriminate].
  cbn [rbind] in H. exists items. split; [reflexivity|].
  apply for_each_inv in H.
  induction H as [|r o items out Hr _ IH]; constructor; [|exact IH].
  unfold Handlers.format_result in Hr.
  destruct r as [| | | | | | d]; try discriminate.
  cbn [Handlers.method_get rbind] in Hr.
  destruct (Handlers.iterate (dict_get d "matches" (PList []))) as [ms|] eqn:Ems;
    [|discriminate].
  cbn [rbind] in Hr.
  destruct (Handlers.for_each Handlers.format_match ms) as [formatted|] eqn:Ef;
    [|discriminate].
  cbn [rbind] in Hr. injection Hr as <-.
  exists d, ms, formatted.
  split; [reflexivity|]. split; [exact Ems|]. split; [reflexivity|].
  apply for_each_inv in Ef. revert Ef. apply Forall2_impl.
  intros m fm Hm. now apply format_match_inv.
Qed.

(** Two results, the second without matches. *)
Lemma search_results_shape_witness :
  Handlers.format_results
    (PList [ PDict [ ("filename", PStr "a.md"); ("score", PFloat 1.5);
                     ("matches",
                        PList [PDict [ ("context", PStr "see plan");
                                       ("match", PDict [("start", PInt 4);
                                                        ("end", PInt 8)]);
                                       ("extra", PNone) ]]);
                     ("path", PStr "notes/a.md") ];
             PDict [("filename", PStr "b.md")] ])
  = Ok [ PDict [ ("filename", PStr "a.md"); ("score", PFloat 1.5);
                 ("matches",
                    PList [PDict [ ("context", PStr "see plan");
                                   ("match_position",
                                      PDict [("start", PInt 4); ("end", PInt 8)]) ]]) ];
         PDict [ ("filename", PStr "b.md"); ("score", PInt 0);
                 ("matches", PList []) ] ]
  /\ exists items,
       Handlers.iterate
         (PList [ PDict [ ("filename", PStr "a.md"); ("score", PFloat 1.5);
                          ("matches",
                             PList [PDict [ ("context", PStr "see plan");
                                            ("match", PDict [("start", PInt 4);
                                                             ("end", PInt 8)]);
                                            ("extra", PNone) ]]);
                          ("path", PStr "notes/a.md") ];
                  PDict [("filename", PStr "b.md")] ]) = Ok items
       /\ List.length items = 2.
Proof.
  split; [reflexivity|].
  destruct (@search_results_shape _ _ (eq_refl :
    Handlers.format_results
      (PList [ PDict [ ("filename", PStr "a.md"); ("score", PFloat 1.5);
                       ("matches",
                          PList [PDict [ ("context", PStr "see plan");
                                         ("match", PDict [("start", PInt 4);
                                                          ("end", PInt 8)]);
                                         ("extra", PNone) ]]);
                       ("path", PStr "notes/a.md") ];
               PDict [("filename", PStr "b.md")] ])
    = Ok [ PDict [ ("filename", PStr "a.md"); ("score", PFloat 1.5);
                   ("matches",
                      PList [PDict [ ("context", PStr "see plan");
                                     ("match_position",
                                        PDict [("start", PInt 4); ("end", PInt 8)]) ]]) ];
           PDict [ ("filename", PStr "b.md"); ("score", PInt 0);
                   ("matches", PList []) ] ])) as (items & Hit & Hall).
  exists items. split; [exact Hit|].
  apply Forall2_length in Hall. exact Hall.
Defined.

Lemma for_each_total (f : pyval -> result pyval) (items : list pyval) :
  Forall (fun item => exists o, f item = Ok o) items ->
  exists out,
    Handlers.for_each f items = Ok out /\ List.length out = List.length items.
Proof.
  induction 1 as [|item rest [o Ho] _ [others [Hothers Hlen]]]; simpl.
  - now exists [].
  - rewrite Ho, Hothers. cbn [rbind]. exists (o :: others).
    split; [reflexivity | simpl; now rewrite Hlen].
Qed.

(** X12.  The formatting never fails on well-shaped results: when the
    client returns a list of mappings whose [matches], where present,
    are lists of mappings whose [match], where present, is a mapping,
    it returns a list of the same length; missing [filename], [score],
    [matches], [context], [match], [start] or [end] fields are not
    errors. *)
Theorem search_results_total (results : list pyval) :
  forallb Spec.shaped_result results = true ->
  exists out,
    Handlers.format_results (PList results) = Ok out
    /\ List.length out = List.length results.
Proof.
  intros H. unfold Handlers.format_results. cbn [Handlers.iterate rbind].
  apply for_each_total. rewrite forallb_forall in H.
  apply Forall_forall. intros r Hr. specialize (H r Hr).
  unfold Spec.shaped_result in H. unfold Handlers.format_result.
  destruct r as [| | | | | | d]; try discriminate.
  cbn [Handlers.method_get rbind].
  destruct (dict_get d "matches" (PList [])) as [| | | | | ms |]; try discriminate.
  cbn [Handlers.iterate rbind].
  destruct (@for_each_total Handlers.format_match ms) as (formatted & Hf & _).
  { rewrite forallb_forall in H. apply Forall_forall. intros m Hm.
    specialize (H m Hm). unfold Spec.shaped_match in H. unfold Handlers.format_match.
    destruct m as [| | | | | | md]; try discriminate.
    cbn [Handlers.method_get rbind].
    destruct (dict_get md "match" (PDict [])) as [| | | | | | pos]; try discriminate.
    cbn [Handlers.method_get rbind]. eauto. }
  rewrite Hf. cbn [rbind]. eauto.
Qed.

Lemma search_results_total_witness :
  exists out,
    Handlers.format_results
      (PList [PDict [("filename", PStr "b.md")]; PDict []]) = Ok out
    /\ List.length out = 2.
Proof.
  apply (@search_results_total [PDict [("filename", PStr "b.md")]; PDict []]).
  reflexivity.
Defined.

(* ===================================================================== *)
(** * Further properties: the two label expanders *)
(* ===================================================================== *)

(** The builder makes the text element from the text box. *)
Lemma create_text_element_box (random_index : nat -> nat)
    (container : Excalidraw.ExcalidrawElement) (text : pyval) (data : dict) (n : nat) :
  Excalidraw._create_text_element_for_label random_index container text data n
  = match Spec.text_box (Excalidraw.x container) (Excalidraw.y container)
            (Excalidraw.width container) (Excalidraw.height container)
            text (dict_get data "fontSize" (PInt 20)) with
    | Ok box =>
        Ok (Spec.label_text_element container text data
              (Excalidraw.choices random_index 8 n) box, n + 8)
    | Raise e => Raise e
    end.
Proof.
  unfold Excalidraw._create_text_element_for_label, Spec.text_box,
    bind, lift, Excalidraw.generate_id.
  repeat match goal with
         | |- context [rbind ?r _] =>
             lazymatch r with
             | Excalidraw.init _ _ => fail
             | _ => destruct r; cbn [rbind]; [|reflexivity]
             end
         end.
  reflexivity.
Qed.

(** So does the handler, from the raw record. *)
Lemma process_one_labelled (random_index : nat -> nat) (element : dict)
    (label_text : pyval) (n : nat) :
  dict_in element "label" && truthy (dict_get element "label" PNone) = true ->
  Tools.replace_breaks (Tools.label_text_of (dict_get element "label" PNone))
  = Ok label_text ->
  truthy label_text = true ->
  Tools.process_one random_index element n
  = match Spec.text_box (dict_get element "x" (PInt 0)) (dict_get element "y" (PInt 0))
            (dict_get element "width" (PInt 0)) (dict_get element "height" (PInt 0))
            label_text (dict_get element "fontSize" (PInt 20)) with
    | Ok (text_x, text_y, text_width, text_height) =>
        Ok ([ dict_set
                (Tools.type_specific element (Tools.processed_element element))
                "boundElements"
                (PList [PDict [ ("type", PStr "text");
                                ("id", PStr (Excalidraw.choices random_index 8 n)) ]]);
              Tools.text_element element (dict_get element "id" (PStr ""))
                (Excalidraw.choices random_index 8 n) label_text
                (dict_get element "fontSize" (PInt 20))
                text_x text_y text_width text_height ],
            n + 8)
    | Raise e => Raise e
    end.
Proof.
  intros Hc Ht Htrue. unfold Tools.process_one.
  rewrite Hc, bind_lift, Ht, Htrue, bind_random_id.
  unfold Spec.text_box.
  repeat (rewrite bind_lift;
          match goal with
          | |- context [rbind ?r _] => destruct r; cbn [rbind]; [|reflexivity]
          end).
  reflexivity.
Qed.

(* ===================================================================== *)
(** * Further properties: the builder and the handler side by side *)
(* ===================================================================== *)

Lemma sanitize_text_replace_breaks (v : pyval) :
  Excalidraw.sanitize_text v = Tools.replace_breaks v.
Proof.
  unfold Excalidraw.sanitize_text, Tools.replace_breaks.
  now destruct (truthy v).
Qed.

(** Where the handler gets a text out of a label, the builder reads the
    same text. *)
Lemma label_text_agrees (repr_of : pyval -> string) (label t : pyval) :
  truthy label = true ->
  Tools.replace_breaks (Tools.label_text_of label) = Ok t ->
  Excalidraw._extract_label_text repr_of label = Tools.label_text_of label.
Proof.
  intros Hl Ht.
  destruct label as [| b | z | f | s | l | d];
    cbn [Excalidraw._extract_label_text Tools.label_text_of] in *;
    try reflexivity;
    try (unfold Tools.replace_breaks in Ht; rewrite Hl in Ht; discriminate).
  now rewrite Hl.
Qed.

Lemma processed_element_defaults (data : dict) :
  Forall (fun kd => lookup (Tools.processed_element data) (fst kd)
                    = Some (dict_get data (fst kd) (snd kd)))
    (Tools.core_defaults ++ Excalidraw.field_defaults).
Proof.
  unfold Tools.core_defaults, Excalidraw.field_defaults, app.
  repeat (apply Forall_cons; [reflexivity|]). apply Forall_nil.
Qed.

Lemma from_dict_same_schema (data : dict) (e : Excalidraw.ExcalidrawElement) :
  Excalidraw.from_dict data = Ok e ->
  Spec.same_schema e (Tools.processed_element data).
Proof.
  intros He k Hk.
  destruct (to_dict_from_dict_schema data He) as (_ & Hextra & Hall).
  rewrite lookup_to_dict_known by (rewrite Hextra; now apply lookup_unknown_filter).
  destruct (known_has_default k Hk) as [dflt Hin].
  rewrite Forall_forall in Hall. specialize (Hall _ Hin).
  pose proof (processed_element_defaults data) as Hp.
  rewrite Forall_forall in Hp. specialize (Hp _ Hin).
  cbn [fst snd] in Hall, Hp. now rewrite Hall, Hp.
Qed.

Lemma unknown_neq (k k' : string) :
  Excalidraw.known k = true -> Excalidraw.known k' = false ->
  String.eqb k' k = false.
Proof.
  intros Hk Hk'. destruct (String.eqb k' k) eqn:E; [|reflexivity].
  apply String.eqb_eq in E. subst k'. congruence.
Qed.

Lemma lookup_dict_set_unknown (d : dict) (k' : string) (v : pyval) (k : string) :
  Excalidraw.known k = true -> Excalidraw.known k' = false ->
  lookup (dict_set d k' v) k = lookup d k.
Proof.
  intros Hk Hk'. now rewrite PyFacts.lookup_dict_set, (unknown_neq _ _ Hk Hk').
Qed.

Lemma type_specific_known (element d : dict) (k : string) :
  Excalidraw.known k = true ->
  lookup (Tools.type_specific element d) k = lookup d k.
Proof.
  intros Hk. unfold Tools.type_specific.
  destruct (Tools.is_linear element); [|reflexivity].
  now rewrite !(lookup_dict_set_unknown _ _ _ _ Hk) by reflexivity.
Qed.

Lemma text_specific_known (element d : dict) (k : string) :
  Excalidraw.known k = true ->
  lookup (Tools.text_specific element d) k = lookup d k.
Proof.
  intros Hk. unfold Tools.text_specific.
  now rewrite !(lookup_dict_set_unknown _ _ _ _ Hk) by reflexivity.
Qed.

Lemma lookup_set_boundElements (e : Excalidraw.ExcalidrawElement) (b : pyval)
    (k : string) :
  lookup (Excalidraw.extra_fields e) k = None ->
  lookup (Excalidraw.to_dict (Excalidraw.set_boundElements e b)) k
  = if String.eqb "boundElements" k then Some b
    else lookup (Excalidraw.to_dict e) k.
Proof.
  intros Hx. rewrite !lookup_to_dict_known by exact Hx.
  unfold Excalidraw.to_dict_result.
  cbn [Excalidraw.id Excalidraw.type Excalidraw.x Excalidraw.y Excalidraw.width
       Excalidraw.height Excalidraw.angle Excalidraw.strokeColor
       Excalidraw.backgroundColor Excalidraw.fillStyle Excalidraw.strokeWidth
       Excalidraw.strokeStyle Excalidraw.roughness Excalidraw.opacity
       Excalidraw.groupIds Excalidraw.frameId Excalidraw.roundness
       Excalidraw.seed Excalidraw.version Excalidraw.versionNonce
       Excalidraw.isDeleted Excalidraw.boundElements Excalidraw.updated
       Excalidraw.link Excalidraw.locked Excalidraw.set_boundElements lookup].
  destruct (String.eqb "boundElements" k) eqn:E; [|reflexivity].
  apply String.eqb_eq in E. now subst k.
Qed.

(** What a label's box and text element take from a normalized record
    is what the handler reads from the raw one. *)
Lemma from_dict_container (data : dict) (e : Excalidraw.ExcalidrawElement) :
  Excalidraw.from_dict data = Ok e ->
  Excalidraw.id e = dict_get data "id" (PStr "")
  /\ Excalidraw.x e = dict_get data "x" (PInt 0)
  /\ Excalidraw.y e = dict_get data "y" (PInt 0)
  /\ Excalidraw.width e = dict_get data "width" (PInt 0)
  /\ Excalidraw.height e = dict_get data "height" (PInt 0)
  /\ Excalidraw.strokeColor e = dict_get data "strokeColor" (PStr "#1e1e1e").
Proof.
  intros H. pose proof (from_dict_cases data) as C. unfold dict_get.
  destruct (lookup data "id"); [|rewrite C in H; discriminate].
  destruct (lookup data "type"); [|rewrite C in H; discriminate].
  destruct (lookup data "x"); [|rewrite C in H; discriminate].
  destruct (lookup data "y"); [|rewrite C in H; discriminate].
  destruct (lookup data "width"); [|rewrite C in H; discriminate].
  destruct (lookup data "height"); [|rewrite C in H; discriminate].
  rewrite C in H. injection H as <-. repeat split.
Qed.

(** The two expanders on one record, where both return. *)
Lemma paths_cases (random_index : nat -> nat) (repr_of : pyval -> string)
    (data : dict) (n : nat)
    (es : list Excalidraw.ExcalidrawElement) (m : nat) (ds : list dict) (m' : nat) :
  Excalidraw.process_element random_index repr_of data n = Ok (es, m) ->
  Tools.process_one random_index data n = Ok (ds, m') ->
  let processed := Tools.type_specific data (Tools.processed_element data) in
  exists e,
    Excalidraw.from_dict data = Ok e
    /\ m = m'
    /\ ((es = [e]
         /\ (ds = [processed] \/ ds = [Tools.text_specific data processed]))
        \/ exists t box,
             let te := Spec.label_text_element e t data
                         (Excalidraw.choices random_index 8 n) box in
             es = [Excalidraw.set_boundElements e (Excalidraw.bound_text te); te]
             /\ ds = [ dict_set processed "boundElements"
                         (PList [PDict [ ("type", PStr "text");
                                         ("id", PStr (Excalidraw.choices random_index 8 n)) ]]);
                       dict_filter (fun k => negb (String.eqb k "baseline"))
                         (Excalidraw.to_dict te) ]).
Proof.
  intros He Hd processed.
  unfold Excalidraw.process_element in He. rewrite bind_lift in He.
  destruct (Excalidraw.from_dict data) as [e|] eqn:Hfd; [|discriminate].
  exists e. split; [reflexivity|].
  destruct (dict_in data "label" && truthy (dict_get data "label" PNone)) eqn:Hc.
  - pose proof Hc as Hc'. apply andb_true_iff in Hc' as [_ Hl].
    destruct (Tools.replace_breaks (Tools.label_text_of (dict_get data "label" PNone)))
      as [t|] eqn:Ht.
    2: { unfold Tools.process_one in Hd.
         rewrite Hc, bind_lift, Ht in Hd. discriminate. }
    rewrite bind_lift, (label_text_agrees repr_of _ Hl Ht),
      sanitize_text_replace_breaks, Ht in He.
    destruct (truthy t) eqn:Htt.
    + rewrite (process_one_labelled random_index data n Hc Ht Htt) in Hd.
      unfold bind in He. rewrite create_text_element_box in He.
      destruct (from_dict_container data Hfd) as (Hid & Hx & Hy & Hw & Hh & Hs).
      rewrite Hx, Hy, Hw, Hh in He.
      destruct (Spec.text_box _ _ _ _ _ _) as [[[[tx ty] tw] th]|]; [|discriminate].
      unfold ret in He. injection He as <- <-. injection Hd as <- <-.
      split; [reflexivity|]. right. exists t, (tx, ty, tw, th).
      split; [reflexivity|].
      f_equal. f_equal. unfold Spec.label_text_element. rewrite Hid, Hs.
      reflexivity.
    + unfold Tools.process_one in Hd.
      rewrite Hc, bind_lift, Ht, Htt in Hd.
      unfold ret in He, Hd. injection He as <- <-. injection Hd as <- <-.
      split; [reflexivity|]. left. split; [reflexivity | now left].
  - unfold Tools.process_one in Hd. rewrite Hc in Hd.
    unfold ret in He. injection He as <- <-.
    destruct (dict_in data "text"); unfold ret in Hd; injection Hd as <- <-;
      (split; [reflexivity|]); left; (split; [reflexivity|]); auto.
Qed.

Lemma paths_same_schema (random_index : nat -> nat) (repr_of : pyval -> string)
    (data : dict) (n : nat)
    (es : list Excalidraw.ExcalidrawElement) (m : nat) (ds : list dict) (m' : nat) :
  Excalidraw.process_element random_index repr_of data n = Ok (es, m) ->
  Tools.process_one random_index data n = Ok (ds, m') ->
  m = m' /\ Forall2 Spec.same_schema es ds.
Proof.
  intros He Hd.
  destruct (paths_cases _ _ _ _ He Hd) as (e & Hfd & Hm & Hcases).
  split; [exact Hm|].
  pose proof (from_dict_same_schema data Hfd) as Hs.
  destruct Hcases as [[-> [-> | ->]] | (t & [[[tx ty] tw] th] & -> & ->)].
  - apply Forall2_cons; [|apply Forall2_nil].
    intros k Hk. rewrite type_specific_known by exact Hk. now apply Hs.
  - apply Forall2_cons; [|apply Forall2_nil].
    intros k Hk.
    rewrite text_specific_known, type_specific_known by exact Hk. now apply Hs.
  - apply Forall2_cons; [|apply Forall2_cons; [|apply Forall2_nil]].
    + intros k Hk.
      destruct (to_dict_from_dict_schema data Hfd) as (_ & Hextra & _).
      rewrite lookup_set_boundElements
        by (rewrite Hextra; now apply lookup_unknown_filter).
      rewrite PyFacts.lookup_dict_set.
      destruct (String.eqb "boundElements" k); [reflexivity|].
      rewrite type_specific_known by exact Hk. now apply Hs.
    + intros k Hk. rewrite PyFacts.lookup_dict_filter.
      now rewrite String.eqb_sym, (unknown_neq k "baseline" Hk eq_refl).
Qed.

(** X13.  The note builder of excalidraw.py and the inline expansion of
    the save handler in tools.py agree wherever both return: run on the
    same records from the same point of the random stream, they make
    the same number of draws and emit the same number of records, in
    the same order, and each pair of records has the same value in
    every field of the schema. *)
Theorem handler_agrees_with_builder
    (random_index : nat -> nat) (repr_of : pyval -> string) (elements : list dict) :
  forall (n : nat) (es : list Excalidraw.ExcalidrawElement) (m : nat)
         (ds : list dict) (m' : nat),
    Excalidraw.process_all random_index repr_of elements n = Ok (es, m) ->
    Tools.process_elements random_index elements n = Ok (ds, m') ->
    m = m' /\ Forall2 Spec.same_schema es ds.
Proof.
  induction elements as [|data rest IH]; intros n es m ds m' He Hd.
  - cbn in He, Hd. injection He as <- <-. injection Hd as <- <-.
    split; [reflexivity | apply Forall2_nil].
  - cbn [Excalidraw.process_all] in He. unfold bind at 1 in He.
    destruct (Excalidraw.process_element random_index repr_of data n)
      as [[es1 n1]|] eqn:He1; [|discriminate].
    unfold bind at 1 in He.
    destruct (Excalidraw.process_all random_index repr_of rest n1)
      as [[es2 n2]|] eqn:He2; [|discriminate].
    unfold ret in He. injection He as <- <-.
    cbn [Tools.process_elements] in Hd. unfold bind at 1 in Hd.
    destruct (Tools.process_one random_index data n)
      as [[ds1 n1']|] eqn:Hd1; [|discriminate].
    unfold bind at 1 in Hd.
    destruct (Tools.process_elements random_index rest n1')
      as [[ds2 n2']|] eqn:Hd2; [|discriminate].
    unfold ret in Hd. injection Hd as <- <-.
    destruct (paths_same_schema _ _ _ _ He1 Hd1) as [<- H1].
    destruct (IH _ _ _ _ _ He2 Hd2) as [<- H2].
    split; [reflexivity | now apply Forall2_app].
Qed.

(** A labelled rectangle, a text element and an arrow: four records on
    each side after eight draws. *)
Lemma handler_agrees_with_builder_witness :
  exists es ds,
    Excalidraw.process_all Examples.draws Examples.plain_repr
      [Examples.labelled_rectangle; Examples.note_text; Examples.flat_arrow] 0
    = Ok (es, 8)
    /\ Tools.process_elements Examples.draws
         [Examples.labelled_rectangle; Examples.note_text; Examples.flat_arrow] 0
       = Ok (ds, 8)
    /\ List.length es = 4
    /\ Forall2 Spec.same_schema es ds.
Proof.
  eexists. eexists.
  split; [vm_compute; reflexivity|].
  split; [vm_compute; reflexivity|].
  split; [reflexivity|].
  refine (proj2 (@handler_agrees_with_builder Examples.draws Examples.plain_repr
                   [Examples.labelled_rectangle; Examples.note_text; Examples.flat_arrow]
                   0 _ 8 _ 8 _ _));
    vm_compute; reflexivity.
Defined.

(** X14.  Where both expanders turn a label into a text element, the
    one the handler emits is the dictionary of the builder's text
    element without its [baseline] field, field for field and in the
    same order; the builder's has [baseline] 18. *)
Theorem handler_text_element_lacks_baseline
    (random_index : nat -> nat) (repr_of : pyval -> string) (data : dict) (n : nat)
    (container text_element : Excalidraw.ExcalidrawElement) (m : nat)
    (ds : list dict) (m' : nat) :
  Excalidraw.process_element random_index repr_of data n
  = Ok ([container; text_element], m) ->
  Tools.process_one random_index data n = Ok (ds, m') ->
  lookup (Excalidraw.to_dict text_element) "baseline" = Some (PInt 18)
  /\ exists d,
       ds = [ d;
              dict_filter (fun k => negb (String.eqb k "baseline"))
                (Excalidraw.to_dict text_element) ].
Proof.
  intros He Hd.
  destruct (paths_cases _ _ _ _ He Hd) as (e & Hfd & Hm & Hcases).
  destruct Hcases as [[Hes _] | (t & [[[tx ty] tw] th] & Hes & ->)];
    [discriminate|].
  injection Hes as -> ->.
  split; [reflexivity|]. eexists. reflexivity.
Qed.

Lemma handler_text_element_lacks_baseline_witness :
  exists container text_element d,
    Excalidraw.process_element Examples.draws Examples.plain_repr
      Examples.labelled_rectangle 0
    = Ok ([container; text_element], 8)
    /\ lookup (Excalidraw.to_dict text_element) "baseline" = Some (PInt 18)
    /\ Tools.process_one Examples.draws Examples.labelled_rectangle 0
       = Ok ([ d;
               dict_filter (fun k => negb (String.eqb k "baseline"))
                 (Excalidraw.to_dict text_element) ], 8).
Proof.
  eexists. eexists. eexists.
  split; [vm_compute; reflexivity|].
  split.
  - refine (proj1 (@handler_text_element_lacks_baseline Examples.draws
                     Examples.plain_repr Examples.labelled_rectangle 0
                     _ _ 8 _ 8 _ _)); vm_compute; reflexivity.
  - vm_compute. reflexivity.
Defined.

(* ===================================================================== *)
(** * Further properties: what makes a build fail *)
(* ===================================================================== *)

Lemma from_dict_incomplete (data : dict) :
  forallb (dict_in data) Excalidraw.core_fields = false ->
  Excalidraw.from_dict data = Raise TypeError.
Proof.
  intros H. destruct (Excalidraw.from_dict data) as [e|err] eqn:E.
  - destruct (to_dict_from_dict_schema data E) as (Hcore & _). congruence.
  - now destruct (from_dict_raises data E) as [-> _].
Qed.

Lemma process_all_incomplete (random_index : nat -> nat) (repr_of : pyval -> string)
    (elements : list dict) :
  Exists (fun data => forallb (dict_in data) Excalidraw.core_fields = false) elements ->
  forall n, exists err,
    Excalidraw.process_all random_index repr_of elements n = Raise err.
Proof.
  induction 1 as [data rest Hbad | data rest _ IH]; intros n;
    cbn [Excalidraw.process_all]; unfold bind at 1.
  - unfold Excalidraw.process_element.
    rewrite bind_lift, (from_dict_incomplete data Hbad).
    now exists TypeError.
  - destruct (Excalidraw.process_element random_index repr_of data n)
      as [[es n1]|err]; [|now exists err].
    unfold bind at 1. destruct (IH n1) as [err ->]. now exists err.
Qed.

(** X15.  One incomplete record fails the whole build: if any record
    of the list lacks one of the six core fields, [build_excalidraw_note]
    returns no note, whatever the other records, the app state, the
    frontmatter and the text section are; an exception is raised
    instead. *)
Theorem build_rejects_incomplete_records
    (random_index : nat -> nat) (repr_of : pyval -> string)
    (elements : list dict) (app_state frontmatter : option dict)
    (text_elements : option string) (n : nat) :
  Exists (fun data => forallb (dict_in data) Excalidraw.core_fields = false) elements ->
  exists err,
    Excalidraw.build_excalidraw_note random_index repr_of elements
      app_state frontmatter text_elements n = Raise err.
Proof.
  intros H. unfold Excalidraw.build_excalidraw_note.
  unfold bind at 1.
  match goal with
  | |- exists err, match ?r with _ => _ end = _ =>
      destruct r as [[builder n1]|err]; [|now exists err]
  end.
  unfold Excalidraw.with_elements, bind.
  destruct (process_all_incomplete random_index repr_of H n1) as [err ->].
  now exists err.
Qed.

(** A complete rectangle followed by a record without geometry. *)
Lemma build_rejects_incomplete_records_witness :
  exists err,
    Excalidraw.build_excalidraw_note Examples.draws Examples.plain_repr
      [Examples.custom_rectangle; Examples.bare_rectangle] None None None 0
    = Raise err.
Proof.
  apply build_rejects_incomplete_records.
  apply Exists_cons_tl, Exists_cons_hd. reflexivity.
Defined.

(* ===================================================================== *)
(** * Further properties: the records the handler writes *)
(* ===================================================================== *)

Lemma keys_only (p : string -> bool) (d : dict) (k : string) :
  forallb p (keys d) = true -> p k = false -> lookup d k = None.
Proof.
  intros H Hk. destruct (lookup d k) eqn:E; [|reflexivity].
  assert (Hin : dict_in d k = true) by (unfold dict_in; now rewrite E).
  pose proof (forallb_keys_lookup p d k H Hin). congruence.
Qed.

(** X16.  The handler writes a closed set of fields.  Every record it
    emits holds each key once, and holds no field besides the
    twenty-five of the schema, the six of arrows and lines and the ten
    of text elements: whatever else the raw record carries is left
    out.  Unless the raw record is an arrow or a line, the emitted
    records have none of the six fields of arrows and lines either,
    also when the raw record supplies them. *)
Theorem handler_emits_listed_fields
    (random_index : nat -> nat) (element : dict) (n : nat)
    (ds : list dict) (m : nat) :
  Tools.process_one random_index element n = Ok (ds, m) ->
  Forall (fun d =>
            dict_wf d = true
            /\ (forall k, Spec.listed k = false -> lookup d k = None)
            /\ (Tools.is_linear element = false ->
                forall k, mem k Spec.linear_fields = true -> lookup d k = None))
    ds.
Proof.
  intros H. apply process_one_cases in H.
  assert (G : forall d,
             dict_wf d = true ->
             forallb Spec.listed (keys d) = true ->
             (Tools.is_linear element = false ->
              forallb (fun k => negb (mem k Spec.linear_fields)) (keys d) = true) ->
             dict_wf d = true
             /\ (forall k, Spec.listed k = false -> lookup d k = None)
             /\ (Tools.is_linear element = false ->
                 forall k, mem k Spec.linear_fields = true -> lookup d k = None)).
  { intros d Hwf Hl Hn. split; [exact Hwf|]. split.
    - intros k Hk. exact (keys_only _ d k Hl Hk).
    - intros E k Hk. apply (keys_only _ d k (Hn E)). now rewrite Hk. }
  unfold Tools.type_specific in H.
  destruct (Tools.is_linear element) eqn:E;
    destruct H as [-> | [-> | (text_id & lt & fs & tx & ty & tw & th & ->)]];
    repeat (apply Forall_cons; [apply G; [reflexivity | reflexivity
                                         | first [discriminate | reflexivity]]|]);
    apply Forall_nil.
Qed.

(** A rectangle that supplies [points] and a field of its own: the
    emitted record has neither. *)
Lemma handler_emits_listed_fields_witness :
  Forall (fun d => lookup d "points" = None /\ lookup d "customData" = None)
    [ Tools.processed_element
        (("points", PList []) :: Examples.custom_rectangle) ].
Proof.
  pose proof (@handler_emits_listed_fields Examples.draws
                (("points", PList []) :: Examples.custom_rectangle) 0
                [ Tools.processed_element
                    (("points", PList []) :: Examples.custom_rectangle) ] 0
                eq_refl) as H.
  inversion H as [|d ds (_ & Hl & Hn) _]; subst.
  apply Forall_cons; [|apply Forall_nil].
  split; [apply Hn | apply Hl]; reflexivity.
Defined.

(** ** Running the handler on its own output *)

Lemma process_one_unlabelled (random_index : nat -> nat) (element : dict) (n : nat) :
  dict_in element "label" && truthy (dict_get element "label" PNone) = false ->
  Tools.process_one random_index element n
  = Ok ([ if dict_in element "text"
          then Tools.text_specific element
                 (Tools.type_specific element (Tools.processed_element element))
          else Tools.type_specific element (Tools.processed_element element) ], n).
Proof.
  intros H. unfold Tools.process_one. rewrite H.
  now destruct (dict_in element "text").
Qed.

Lemma processed_element_stable (d element : dict) :
  (forall k, Excalidraw.known k = true ->
     lookup d k = lookup (Tools.processed_element element) k) ->
  Tools.processed_element d = Tools.processed_element element.
Proof.
  intros H. unfold Tools.processed_element at 1. unfold dict_get.
  rewrite !H by reflexivity. reflexivity.
Qed.

Lemma is_linear_stable (d element : dict) :
  lookup d "type" = Some (dict_get element "type" (PStr "")) ->
  Tools.is_linear d = Tools.is_linear element.
Proof.
  intros H. unfold Tools.is_linear. unfold dict_get at 1 2. rewrite H.
  unfold dict_get. now destruct (lookup element "type").
Qed.

(** The record the handler makes of a record without label is a record
    it leaves as it is. *)
Lemma normalized_is_fixed (random_index : nat -> nat) (element : dict) (n : nat) :
  let d := if dict_in element "text"
           then Tools.text_specific element
                  (Tools.type_specific element (Tools.processed_element element))
           else Tools.type_specific element (Tools.processed_element element) in
  Tools.process_one random_index d n = Ok ([d], n).
Proof.
  intros d.
  assert (Hk : forall k, Excalidraw.known k = true ->
                 lookup d k = lookup (Tools.processed_element element) k).
  { intros k Hk. subst d. destruct (dict_in element "text");
      now rewrite ?text_specific_known, type_specific_known by exact Hk. }
  assert (HP : Tools.processed_element d = Tools.processed_element element)
    by (apply processed_element_stable, Hk).
  assert (HL : Tools.is_linear d = Tools.is_linear element)
    by (apply is_linear_stable; now rewrite Hk by reflexivity).
  assert (Hlabel : dict_in d "label" = false).
  { subst d. unfold Tools.type_specific.
    destruct (dict_in element "text"), (Tools.is_linear element); reflexivity. }
  assert (Htext : dict_in d "text" = dict_in element "text").
  { subst d. unfold Tools.type_specific.
    destruct (dict_in element "text"), (Tools.is_linear element); reflexivity. }
  assert (HT : Tools.type_specific d (Tools.processed_element element)
               = Tools.type_specific element (Tools.processed_element element)).
  { unfold Tools.type_specific at 1. rewrite HL. subst d.
    unfold Tools.type_specific.
    destruct (Tools.is_linear element); [|reflexivity].
    destruct (dict_in element "text"); reflexivity. }
  rewrite process_one_unlabelled by (now rewrite Hlabel).
  rewrite Htext, HP, HT.
  destruct (dict_in element "text") eqn:Et; [|reflexivity].
  do 3 f_equal. subst d. unfold Tools.type_specific.
  destruct (Tools.is_linear element); reflexivity.
Qed.

(** X17.  On records without a non-empty label the handler always
    returns: it emits one record for each, in order, and draws no id.
    Its output is then a fixed point: handed the emitted records again,
    it returns exactly the same records, so saving a drawing that was
    read back from a saved note changes none of these records. *)
Theorem handler_normalization_is_stable
    (random_index : nat -> nat) (elements : list dict) :
  Forall (fun element =>
            dict_in element "label" && truthy (dict_get element "label" PNone)
            = false) elements ->
  forall n, exists ds,
    Tools.process_elements random_index elements n = Ok (ds, n)
    /\ List.length ds = List.length elements
    /\ forall n', Tools.process_elements random_index ds n' = Ok (ds, n').
Proof.
  induction 1 as [|element rest Hl _ IH]; intros n.
  - exists []. repeat split.
  - destruct (IH n) as (ds & Hds & Hlen & Hfix).
    eexists (_ :: ds). split; [|split].
    + cbn [Tools.process_elements]. unfold bind at 1.
      rewrite (process_one_unlabelled random_index element n Hl).
      unfold bind at 1. rewrite Hds. reflexivity.
    + cbn [List.length]. now rewrite Hlen.
    + intros n'. cbn [Tools.process_elements]. unfold bind at 1.
      rewrite (normalized_is_fixed random_index element n').
      unfold bind at 1. rewrite Hfix. reflexivity.
Qed.

(** An arrow, a text element and a record with nothing but an id. *)
Lemma handler_normalization_is_stable_witness :
  exists ds,
    Tools.process_elements Examples.draws
      [Examples.flat_arrow; Examples.note_text; Examples.bare_rectangle] 0
    = Ok (ds, 0)
    /\ List.length ds = 3
    /\ forall n', Tools.process_elements Examples.draws ds n' = Ok (ds, n').
Proof.
  apply (@handler_normalization_is_stable Examples.draws
           [Examples.flat_arrow; Examples.note_text; Examples.bare_rectangle]).
  repeat (apply Forall_cons; [reflexivity|]). apply Forall_nil.
Defined.

(* ===================================================================== *)
(** * Further properties: when the text index fails *)
(* ===================================================================== *)

Lemma index_line_result (random_index : nat -> nat) (repr_of : pyval -> string)
    (v : pyval) (n : nat) :
  match Excalidraw.index_line random_index repr_of v n with
  | Ok _ => Spec.is_text v = true
  | Raise err => err = AttributeError /\ Spec.is_text v = false
  end.
Proof.
  unfold Excalidraw.index_line.
  destruct (truthy v) eqn:T.
  - rewrite bind_lift.
    destruct v as [| b | z | f | s | l | d]; cbn [method_strip Spec.is_text];
      try (rewrite T; now split).
    now destruct (truthy (PStr (strip s))).
  - cbn [ret]. destruct v; cbn [Spec.is_text]; try reflexivity; now rewrite T.
Qed.

Lemma extract_texts_result (random_index : nat -> nat) (repr_of : pyval -> string)
    (elements : list dict) :
  forall n,
    match Excalidraw.extract_texts random_index repr_of elements n with
    | Ok _ =>
        Forall (fun element =>
                  Spec.is_text (Excalidraw._get_text_content element) = true) elements
    | Raise err =>
        err = AttributeError
        /\ Exists (fun element =>
                     Spec.is_text (Excalidraw._get_text_content element) = false)
             elements
    end.
Proof.
  induction elements as [|element rest IH]; intros n.
  - cbn. apply Forall_nil.
  - cbn [Excalidraw.extract_texts]. unfold bind at 1.
    pose proof (index_line_result random_index repr_of
                  (Excalidraw._get_text_content element) n) as Hl.
    destruct (Excalidraw.index_line random_index repr_of _ n) as [[line n1]|err].
    + unfold bind at 1. specialize (IH n1).
      destruct (Excalidraw.extract_texts random_index repr_of rest n1)
        as [[texts n2]|err].
      * cbn [ret]. now apply Forall_cons.
      * destruct IH as [-> IH]. split; [reflexivity | now apply Exists_cons_tl].
    + destruct Hl as [-> Hl]. split; [reflexivity | now apply Exists_cons_hd].
Qed.

Lemma Forall_Exists_bool {A : Type} (p : A -> bool) (l : list A) :
  Forall (fun a => p a = true) l -> Exists (fun a => p a = false) l -> False.
Proof.
  intros HF HE. induction HE as [a l Ha | a l _ IH];
    inversion HF; subst; [congruence | auto].
Qed.

(** X18.  The text index of a note is built exactly when the text
    content of every record is a string or empty; otherwise
    [extract_texts] raises [AttributeError], having met content that is
    a number, a list or a mapping.  The handler's own extraction loop
    behaves the same.  Such a record therefore fails the whole save in
    both code paths whenever the caller leaves the text section to be
    extracted: no note is built, whatever the other arguments are. *)
Theorem text_index_fails_on_non_strings
    (random_index : nat -> nat) (repr_of : pyval -> string) (elements : list dict) :
  (forall n,
     match Excalidraw.extract_texts random_index repr_of elements n with
     | Ok _ =>
         Forall (fun element =>
                   Spec.is_text (Excalidraw._get_text_content element) = true) elements
     | Raise err =>
         err = AttributeError
         /\ Exists (fun element =>
                      Spec.is_text (Excalidraw._get_text_content element) = false)
              elements
     end)
  /\ (forall n,
        Tools.extracted_texts random_index repr_of elements n
        = Excalidraw.extract_texts random_index repr_of elements n)
  /\ (Exists (fun element =>
                Spec.is_text (Excalidraw._get_text_content element) = false) elements ->
      forall (n : nat) (app_state frontmatter : option dict)
             (appState : pyval) (handler_frontmatter : dict) (text_elements : pyval),
        truthy text_elements = false ->
        Excalidraw.build_excalidraw_note random_index repr_of elements
          app_state frontmatter None n = Raise AttributeError
        /\ Tools._build_excalidraw_note random_index repr_of elements
             appState handler_frontmatter text_elements n = Raise AttributeError).
Proof.
  split; [exact (extract_texts_result random_index repr_of elements)|].
  split; [exact (extracted_texts_same random_index repr_of elements)|].
  intros Hbad n app_state frontmatter appState handler_frontmatter text_elements Ht.
  assert (Hx : forall n, Excalidraw.extract_texts random_index repr_of elements n
                         = Raise AttributeError).
  { intros n0.
    pose proof (extract_texts_result random_index repr_of elements n0) as Hr.
    destruct (Excalidraw.extract_texts random_index repr_of elements n0) as [r|err].
    - destruct (Forall_Exists_bool _ Hr Hbad).
    - now destruct Hr as [-> _]. }
  split.
  - unfold Excalidraw.build_excalidraw_note, Excalidraw.auto_extract_text_elements,
      bind.
    now rewrite Hx.
  - unfold Tools._build_excalidraw_note, bind. rewrite Ht. cbn [negb].
    now rewrite extracted_texts_same, Hx.
Qed.

(** A text element whose text is the number 5. *)
Lemma text_index_fails_on_non_strings_witness :
  Excalidraw.build_excalidraw_note Examples.draws Examples.plain_repr
    [Examples.note_text; ("text", PInt 5) :: Examples.bare_rectangle]
    None None None 0 = Raise AttributeError
  /\ Tools._build_excalidraw_note Examples.draws Examples.plain_repr
       [Examples.note_text; ("text", PInt 5) :: Examples.bare_rectangle]
       PNone [] (PStr "") 0 = Raise AttributeError.
Proof.
  apply (proj2 (proj2 (text_index_fails_on_non_strings Examples.draws
                         Examples.plain_repr
                         [Examples.note_text;
                          ("text", PInt 5) :: Examples.bare_rectangle]))).
  - apply Exists_cons_tl, Exists_cons_hd. reflexivity.
  - reflexivity.
Defined.

(* ===================================================================== *)
(** * Further properties: labels in the handler *)
(* ===================================================================== *)

Lemma text_box_defined (cx cy cw ch : pyval) (text : string) (font_size : pyval) :
  Spec.box_defined cx cy cw ch text font_size = true ->
  exists tx ty tw th,
    Spec.text_box cx cy cw ch (PStr text) font_size
    = Ok (PFloat tx, PFloat ty, PFloat tw, PFloat th).
Proof.
  unfold Spec.box_defined. intros H.
  apply andb_true_iff in H as [H Hchars].
  apply andb_true_iff in H as [H Hfont].
  apply andb_true_iff in H as [H Hheight].
  apply andb_true_iff in H as [H Hwidth].
  apply andb_true_iff in H as [Hx Hy].
  destruct (mul (PInt (Z.of_nat (String.length text))) font_size)
    as [chars|] eqn:Echars; [|discriminate].
  destruct (mul_float_operand chars 0.6 Hchars) as [tw Etw].
  destruct (mul_float_operand _ 1.25 Hfont) as [th Eth].
  destruct (sub_float_operand _ tw Hwidth) as [dx Edx].
  destruct (add_float_operand _ (PrimFloat.div dx 2) Hx) as [tx Etx].
  destruct (sub_float_operand _ th Hheight) as [dy Edy].
  destruct (add_float_operand _ (PrimFloat.div dy 2) Hy) as [ty Ety].
  exists tx, ty, tw, th. unfold Spec.text_box.
  cbn [len rbind]. rewrite Echars. cbn [rbind]. rewrite Etw. cbn [rbind].
  rewrite Eth. cbn [rbind]. rewrite Edx. cbn [rbind].
  rewrite halve_float. cbn [rbind]. rewrite Etx. cbn [rbind].
  rewrite Edy. cbn [rbind]. rewrite halve_float. cbn [rbind].
  rewrite Ety. reflexivity.
Qed.

(** A label that is not truthy gives no text. *)
Lemma label_text_falsy (label : pyval) :
  truthy label = false ->
  exists t, Tools.replace_breaks (Tools.label_text_of label) = Ok t
            /\ truthy t = false.
Proof.
  intros H.
  destruct label as [| b | z | f | s | l | [|kv d]];
    try (exists (PStr ""); split; reflexivity);
    try discriminate;
    cbn [Tools.label_text_of]; unfold Tools.replace_breaks; rewrite H;
    eexists; (split; [reflexivity | exact H]).
Qed.

(** X19.  Label expansion in the save handler.  For a raw record whose
    label yields a non-empty text after the break tags are replaced,
    and whose geometry is numeric (absent coordinates count as 0),
    the handler emits exactly two records and draws one id: the
    normalized record first and right after it a text element.  The
    text element has the drawn id, type ["text"], the label text, and
    the raw record's [id] (or [""]) as its [containerId].  The first
    record's [boundElements] is the one-entry list naming the text
    element, whatever the raw record had there; its other fields are
    those of the normalized record, and it has no [label] field.  None
    of this requires the six core fields to be present.  In the list
    the handler assembles, the two stand next to each other ahead of
    what the later records produce. *)
Theorem handler_label_expansion
    (random_index : nat -> nat) (element : dict) (label : pyval) (text : string)
    (n : nat) :
  lookup element "label" = Some label ->
  Tools.replace_breaks (Tools.label_text_of label) = Ok (PStr text) ->
  truthy (PStr text) = true ->
  Spec.box_defined (dict_get element "x" (PInt 0)) (dict_get element "y" (PInt 0))
    (dict_get element "width" (PInt 0)) (dict_get element "height" (PInt 0))
    text (dict_get element "fontSize" (PInt 20)) = true ->
  exists container text_element,
    Tools.process_one random_index element n = Ok ([container; text_element], n + 8)
    /\ lookup text_element "id" = Some (PStr (Excalidraw.choices random_index 8 n))
    /\ lookup text_element "type" = Some (PStr "text")
    /\ lookup text_element "text" = Some (PStr text)
    /\ lookup text_element "containerId" = Some (dict_get element "id" (PStr ""))
    /\ lookup container "boundElements"
       = Some (PList [PDict [ ("type", PStr "text");
                              ("id", PStr (Excalidraw.choices random_index 8 n)) ]])
    /\ (forall k, k <> "boundElements" ->
          lookup container k
          = lookup (Tools.type_specific element (Tools.processed_element element)) k)
    /\ lookup container "label" = None
    /\ (forall rest others m,
          Tools.process_elements random_index rest (n + 8) = Ok (others, m) ->
          Tools.process_elements random_index (element :: rest) n
          = Ok (container :: text_element :: others, m)).
Proof.
  intros Hlabel Htext Hne Hbox.
  assert (Hget : dict_get element "label" PNone = label)
    by (unfold dict_get; now rewrite Hlabel).
  assert (Hin : dict_in element "label" = true)
    by (unfold dict_in; now rewrite Hlabel).
  assert (Htruthy : truthy label = true).
  { destruct (truthy label) eqn:E; [reflexivity|].
    destruct (label_text_falsy label E) as (t & Ht & Hf).
    rewrite Ht in Htext. injection Htext as ->. congruence. }
  destruct (text_box_defined _ _ _ _ _ _ Hbox) as (tx & ty & tw & th & Hb).
  pose proof (@process_one_labelled random_index element (PStr text) n) as Hrun.
  rewrite Hget, Hin, Htruthy in Hrun.
  specialize (Hrun eq_refl Htext Hne). rewrite Hb in Hrun.
  eexists. eexists. split; [exact Hrun|].
  do 4 (split; [reflexivity|]).
  split; [|split; [|split]].
  - rewrite PyFacts.lookup_dict_set. reflexivity.
  - intros k Hk. rewrite PyFacts.lookup_dict_set.
    destruct (String.eqb "boundElements" k) eqn:E; [|reflexivity].
    apply String.eqb_eq in E. congruence.
  - rewrite PyFacts.lookup_dict_set. cbn [String.eqb Ascii.eqb Bool.eqb].
    unfold Tools.type_specific.
    destruct (Tools.is_linear element); reflexivity.
  - intros rest others m Hrest.
    cbn [Tools.process_elements]. unfold bind at 1. rewrite Hrun.
    unfold bind at 1. rewrite Hrest. reflexivity.
Qed.

(** An ellipse given by its type and a mapping label alone. *)
Lemma handler_label_expansion_witness :
  exists container text_element,
    Tools.process_one Examples.draws
      [ ("type", PStr "ellipse"); ("label", PDict [("text", PStr "a<br>b")]) ] 0
    = Ok ([container; text_element], 8)
    /\ lookup text_element "id" = Some (PStr "ABCDEFGH")
    /\ lookup text_element "text" = Some (PStr ("a" ++ LF ++ "b"))
    /\ lookup text_element "containerId" = Some (PStr "")
    /\ lookup container "label" = None.
Proof.
  destruct (@handler_label_expansion Examples.draws
              [ ("type", PStr "ellipse"); ("label", PDict [("text", PStr "a<br>b")]) ]
              (PDict [("text", PStr "a<br>b")]) ("a" ++ LF ++ "b") 0
              eq_refl eq_refl eq_refl eq_refl)
    as (container & text_element & Hrun & Hid & _ & Htext & Hcid & _ & _ & Hl & _).
  exists container, text_element. repeat split; assumption.
Defined.

(* ===================================================================== *)
(** * Further properties: the save request, end to end *)
(* ===================================================================== *)

Lemma process_elements_bounds (random_index : nat -> nat) (elements : list dict) :
  forall n ds m,
    Tools.process_elements random_index elements n = Ok (ds, m) ->
    List.length elements <= List.length ds <= 2 * List.length elements
    /\ Forall (fun d => forallb (dict_in d) Excalidraw.known_fields = true) ds.
Proof.
  induction elements as [|element rest IH]; intros n ds m H.
  - cbn in H. injection H as <- _. cbn. split; [lia | apply Forall_nil].
  - cbn [Tools.process_elements] in H. unfold bind at 1 in H.
    destruct (Tools.process_one random_index element n) as [[ds1 n1]|] eqn:H1;
      [|discriminate].
    unfold bind at 1 in H.
    destruct (Tools.process_elements random_index rest n1) as [[ds2 n2]|] eqn:H2;
      [|discriminate].
    unfold ret in H. injection H as <- _.
    destruct (IH _ _ _ H2) as [Hlen Hall].
    split.
    + rewrite List.length_app. cbn [List.length].
      destruct (process_one_cases _ _ _ H1)
        as [-> | [-> | (text_id & lt & fs & tx & ty & tw & th & ->)]];
        cbn [List.length]; lia.
    + apply Forall_app. split; [exact (process_one_schema _ _ _ H1) | exact Hall].
Qed.

Lemma as_dicts_map (elements : list dict) :
  Tools.as_dicts (map PDict elements) = Some elements.
Proof.
  induction elements as [|d l IH]; cbn; [reflexivity | now rewrite IH].
Qed.

(** X20.  The save request, up to the call of [put_content].  Without
    a [filepath] or without [elements] the handler raises [ValueError]
    and builds nothing.  For a request whose [elements] is an array of
    objects: whenever the handler reaches [put_content], the request
    has a string [filepath], the path written to is that path made to
    end with [.excalidraw.md], the note has at least as many records as
    the request and at most twice as many, every record has every
    field of the schema, and the frontmatter has the
    [excalidraw-plugin] and [tags] keys. *)
Theorem save_request_end_to_end
    (random_index : nat -> nat) (repr_of : pyval -> string) (args : dict)
    (elements : list dict) (n : nat) :
  (dict_in args "filepath" && dict_in args "elements" = false ->
   Tools.run_tool random_index repr_of args n = Raise ValueError)
  /\ (lookup args "elements" = Some (PList (map PDict elements)) ->
      forall path content m,
        Tools.run_tool random_index repr_of args n = Ok ((path, content), m) ->
        exists filepath,
          lookup args "filepath" = Some (PStr filepath)
          /\ path = Tools.save_path filepath
          /\ endswith path ".excalidraw.md" = true
          /\ List.length elements <= List.length (Tools.note_elements content)
             <= 2 * List.length elements
          /\ Forall (fun d => forallb (dict_in d) Excalidraw.known_fields = true)
               (Tools.note_elements content)
          /\ dict_in (Tools.note_frontmatter content) "excalidraw-plugin" = true
          /\ dict_in (Tools.note_frontmatter content) "tags" = true).
Proof.
  split.
  - intros H. unfold Tools.run_tool.
    apply andb_false_iff in H as [-> | ->]; cbn [negb orb];
      [reflexivity | now rewrite orb_true_r].
  - intros Hle path content m H. unfold Tools.run_tool in H.
    destruct (dict_in args "filepath") eqn:Hf; [|discriminate].
    destruct (dict_in args "elements") eqn:He; [|discriminate].
    cbn [negb orb] in H.
    assert (Hlf : lookup args "filepath" = Some (dict_get args "filepath" PNone)).
    { unfold dict_in in Hf. unfold dict_get.
      now destruct (lookup args "filepath"). }
    assert (Hge : dict_get args "elements" PNone = PList (map PDict elements))
      by (unfold dict_get; now rewrite Hle).
    rewrite Hge, as_dicts_map in H.
    destruct (dict_get args "filepath" PNone) as [| | | | filepath | |];
      try discriminate.
    destruct (dict_get args "frontmatter" (PDict [])) as [| | | | | | frontmatter];
      try discriminate.
    unfold bind at 1 in H.
    destruct (Tools._build_excalidraw_note _ _ _ _ _ _ n) as [[note n1]|] eqn:Hb;
      [|discriminate].
    unfold ret in H. injection H as <- <- _.
    unfold Tools._build_excalidraw_note in Hb. unfold bind at 1 in Hb.
    match type of Hb with
    | match ?r with _ => _ end = _ => destruct r as [[text n2]|]; [|discriminate]
    end.
    unfold bind at 1 in Hb.
    destruct (Tools.process_elements random_index elements n2)
      as [[processed n3]|] eqn:Hp; [|discriminate].
    unfold ret in Hb. injection Hb as <- _.
    exists filepath.
    split; [exact Hlf|].
    split; [reflexivity|]. split; [apply save_path_suffix|].
    cbn [Tools.note_elements Tools.note_frontmatter].
    destruct (process_elements_bounds _ _ _ Hp) as [Hlen Hall].
    split; [exact Hlen|]. split; [exact Hall|].
    unfold Tools.final_frontmatter.
    rewrite !PyFacts.dict_in_dict_update. split; reflexivity.
Qed.

(** A request without a path, and a request for [notes/plan.md] with
    the labelled rectangle and an arrow. *)
Lemma save_request_end_to_end_witness :
  Tools.run_tool Examples.draws Examples.plain_repr [("elements", PList [])] 0
  = Raise ValueError
  /\ exists content m,
       Tools.run_tool Examples.draws Examples.plain_repr
         [ ("filepath", PStr "notes/plan.md");
           ("elements", PList [ PDict Examples.labelled_rectangle;
                                PDict Examples.flat_arrow ]) ] 0
       = Ok (("notes/plan.excalidraw.md", content), m)
       /\ 2 <= List.length (Tools.note_elements content) <= 4
       /\ dict_in (Tools.note_frontmatter content) "tags" = true.
Proof.
  split.
  - apply (proj1 (save_request_end_to_end Examples.draws Examples.plain_repr
                    [("elements", PList [])] [] 0)).
    reflexivity.
  - eexists. eexists. split; [vm_compute; reflexivity|].
    match goal with
    | |- _ <= List.length (Tools.note_elements ?c) <= _ /\ _ =>
        destruct (proj2 (save_request_end_to_end Examples.draws Examples.plain_repr
                           [ ("filepath", PStr "notes/plan.md");
                             ("elements", PList [ PDict Examples.labelled_rectangle;
                                                  PDict Examples.flat_arrow ]) ]
                           [Examples.labelled_rectangle; Examples.flat_arrow] 0)
                    eq_refl "notes/plan.excalidraw.md" c 16)
          as (filepath & _ & _ & _ & Hlen & _ & _ & Htags);
          [vm_compute; reflexivity | split; [exact Hlen | exact Htags]]
    end.
Defined.

(* ===================================================================== *)
(** * Further properties: the builder, end to end *)
(* ===================================================================== *)

Lemma process_all_bounds (random_index : nat -> nat) (repr_of : pyval -> string)
    (elements : list dict) :
  forall n es m,
    Excalidraw.process_all random_index repr_of elements n = Ok (es, m) ->
    Forall (fun data => forallb (dict_in data) Excalidraw.core_fields = true) elements
    /\ List.length elements <= List.length es <= 2 * List.length elements.
Proof.
  induction elements as [|data rest IH]; intros n es m H.
  - cbn in H. injection H as <- _. cbn. split; [apply Forall_nil | lia].
  - cbn [Excalidraw.process_all] in H. unfold bind at 1 in H.
    destruct (Excalidraw.process_element random_index repr_of data n)
      as [[es1 n1]|] eqn:H1; [|discriminate].
    unfold bind at 1 in H.
    destruct (Excalidraw.process_all random_index repr_of rest n1)
      as [[es2 n2]|] eqn:H2; [|discriminate].
    unfold ret in H. injection H as <- _.
    destruct (IH _ _ _ H2) as [Hcore Hlen].
    destruct (process_element_cases _ _ _ _ H1) as (e & He & Hcases).
    split.
    + apply Forall_cons; [|exact Hcore].
      now destruct (to_dict_from_dict_schema data He) as (Hc & _).
    + rewrite List.length_app. cbn [List.length].
      destruct Hcases as [-> | (te & -> & _)]; cbn [List.length]; lia.
Qed.

(** X21.  [build_excalidraw_note], up to the rendering.  Whenever it
    returns a note, every record of the request carries the six core
    fields; the note has at least as many records as the request and at
    most twice as many, each with every field of the schema; the app
    state is the caller's when it is a non-empty mapping and the
    default one otherwise; a non-empty text section supplied by the
    caller is used as it is; and the frontmatter has the
    [excalidraw-plugin] and [tags] keys. *)
Theorem build_note_end_to_end
    (random_index : nat -> nat) (repr_of : pyval -> string)
    (elements : list dict) (app_state frontmatter : option dict)
    (text_elements : option string) (n : nat)
    (builder : Excalidraw.ExcalidrawNoteBuilder) (m : nat) :
  Excalidraw.build_excalidraw_note random_index repr_of elements
    app_state frontmatter text_elements n = Ok (builder, m) ->
  Forall (fun data => forallb (dict_in data) Excalidraw.core_fields = true) elements
  /\ List.length elements <= List.length (Excalidraw.elements builder)
     <= 2 * List.length elements
  /\ Forall (fun d => forallb (dict_in d) Excalidraw.known_fields = true)
       (Excalidraw.elements builder)
  /\ Excalidraw.app_state builder
     = match app_state with
       | Some (kv :: s) => kv :: s
       | _ => Excalidraw.DEFAULT_APP_STATE
       end
  /\ match text_elements with
     | Some (String c t) => Excalidraw.text_elements builder = String c t
     | _ =>
         exists lines n1,
           Excalidraw.extract_texts random_index repr_of elements n = Ok (lines, n1)
           /\ Excalidraw.text_elements builder = String.concat (LF ++ LF) lines
     end
  /\ dict_in (Excalidraw.frontmatter builder) "excalidraw-plugin" = true
  /\ dict_in (Excalidraw.frontmatter builder) "tags" = true.
Proof.
  intros H. unfold Excalidraw.build_excalidraw_note in H.
  set (b0 := match frontmatter with
             | Some ((_ :: _) as fm) =>
                 Excalidraw.with_frontmatter Excalidraw.new_builder fm
             | _ => Excalidraw.new_builder
             end) in H.
  set (b1 := match app_state with
             | Some (_ :: _) => Excalidraw.with_app_state b0 app_state
             | _ => b0
             end) in H.
  assert (Hfm : dict_in (Excalidraw.frontmatter b1) "excalidraw-plugin" = true
                /\ dict_in (Excalidraw.frontmatter b1) "tags" = true).
  { assert (H0 : dict_in (Excalidraw.frontmatter b0) "excalidraw-plugin" = true
                 /\ dict_in (Excalidraw.frontmatter b0) "tags" = true).
    { subst b0. destruct frontmatter as [[|kv fm]|]; try (split; reflexivity).
      unfold Excalidraw.with_frontmatter.
      cbn [Excalidraw.frontmatter Excalidraw.new_builder].
      destruct (dict_in (dict_update _ (kv :: fm)) "tags") eqn:E; cbn [negb].
      - split; [|exact E]. now rewrite PyFacts.dict_in_dict_update.
      - rewrite !PyFacts.dict_in_dict_set, PyFacts.dict_in_dict_update.
        split; reflexivity. }
    subst b1. now destruct app_state as [[|kv s]|]. }
  assert (Happ : Excalidraw.app_state b1
                 = match app_state with
                   | Some (kv :: s) => kv :: s
                   | _ => Excalidraw.DEFAULT_APP_STATE
                   end).
  { subst b1 b0. destruct app_state as [[|kv s]|];
      destruct frontmatter as [[|kv' fm]|]; reflexivity. }
  clearbody b1. clear b0.
  unfold bind at 1 in H.
  assert (Htext :
    exists b2 n1,
      (match text_elements with
       | Some (String _ _ as t) => ret (Excalidraw.with_text_elements b1 t)
       | _ => Excalidraw.auto_extract_text_elements random_index repr_of b1 elements
       end) n = Ok (b2, n1)
      /\ Excalidraw.with_elements random_index repr_of b2 elements n1
         = Ok (builder, m)).
  { match type of H with
    | match ?r with _ => _ end = _ =>
        destruct r as [[b2 n1]|]; [|discriminate]
    end.
    now exists b2, n1. }
  clear H. destruct Htext as (b2 & n1 & H2 & H).
  unfold Excalidraw.with_elements, bind in H.
  destruct (Excalidraw.process_all random_index repr_of elements n1)
    as [[es m']|] eqn:Hes; [|discriminate].
  unfold ret in H. injection H as <- _.
  cbn [Excalidraw.elements Excalidraw.app_state Excalidraw.frontmatter
       Excalidraw.text_elements].
  destruct (process_all_bounds _ _ _ _ Hes) as [Hcore Hlen].
  split; [exact Hcore|]. split; [now rewrite length_map|].
  split.
  { apply Forall_map, Forall_forall. intros e _. apply to_dict_schema. }
  assert (Hb2 : Excalidraw.app_state b2 = Excalidraw.app_state b1
                /\ Excalidraw.frontmatter b2 = Excalidraw.frontmatter b1
                /\ match text_elements with
                   | Some (String c t) => Excalidraw.text_elements b2 = String c t
                   | _ =>
                       exists lines n1,
                         Excalidraw.extract_texts random_index repr_of elements n
                         = Ok (lines, n1)
                         /\ Excalidraw.text_elements b2
                            = String.concat (LF ++ LF) lines
                   end).
  { assert (Hauto :
      Excalidraw.auto_extract_text_elements random_index repr_of b1 elements n
      = Ok (b2, n1) ->
      Excalidraw.app_state b2 = Excalidraw.app_state b1
      /\ Excalidraw.frontmatter b2 = Excalidraw.frontmatter b1
      /\ exists lines n1,
           Excalidraw.extract_texts random_index repr_of elements n = Ok (lines, n1)
           /\ Excalidraw.text_elements b2 = String.concat (LF ++ LF) lines).
    { intros Ha. unfold Excalidraw.auto_extract_text_elements, bind in Ha.
      destruct (Excalidraw.extract_texts random_index repr_of elements n)
        as [[lines n1']|]; [|discriminate].
      unfold ret in Ha. injection Ha as <- _.
      repeat split. now exists lines, n1'. }
    destruct text_elements as [[|c t]|]; try exact (Hauto H2).
    unfold ret in H2. injection H2 as <- _. repeat split. }
  destruct Hb2 as (Ha2 & Hf2 & Ht2).
  rewrite Ha2, Hf2. split; [exact Happ|]. split; [exact Ht2 | exact Hfm].
Qed.

(** The labelled rectangle and an arrow, with a text section of the
    caller's. *)
Lemma build_note_end_to_end_witness :
  exists builder,
    Excalidraw.build_excalidraw_note Examples.draws Examples.plain_repr
      [Examples.labelled_rectangle; Examples.flat_arrow]
      None None (Some "Hi ^abcdefgh") 0 = Ok (builder, 8)
    /\ List.length (Excalidraw.elements builder) = 3
    /\ Excalidraw.text_elements builder = "Hi ^abcdefgh"
    /\ dict_in (Excalidraw.frontmatter builder) "tags" = true.
Proof.
  eexists. split; [vm_compute; reflexivity|].
  split; [reflexivity|].
  match goal with
  | |- Excalidraw.text_elements ?b = _ /\ _ =>
      destruct (@build_note_end_to_end Examples.draws Examples.plain_repr
                  [Examples.labelled_rectangle; Examples.flat_arrow]
                  None None (Some "Hi ^abcdefgh") 0 b 8)
        as (_ & _ & _ & _ & Ht & _ & Hg);
        [vm_compute; reflexivity | split; [exact Ht | exact Hg]]
  end.
Defined.

(* ===================================================================== *)
(** * Extension fields, up to the assembled document *)
(* ===================================================================== *)

(** ** The fenced block of a document *)











(** ** What the builder keeps of a record *)






(** ** The records the handler writes have listed fields only *)


(** ** The round trip through the document *)



